(** * frappe_dwf: HL7 v2 normalisation and idempotent IAN / MPPS / UPS ingestion

    A shallow embedding of [frappe_dwf/api.py] (the inbound message gateway
    and the HL7 v2 normaliser), [frappe_dwf/frappe_dwf/api.py] (the
    whitelisted endpoints and their background workers) and
    [frappe_dwf/frappe_dwf/ian_mpps_handlers.py] (signature verification and
    the IAN / MPPS ingestion helpers).

    In the repository [frappe_dwf/api.py] holds its code inside one
    module-level string literal; its functions are modelled from that text.

    Python strings are Rocq strings over the code points 0..255; a value
    that may be [None] is an [option] or a [PyVal].  The Frappe document
    store, the configuration, the clock, the job queue and the error log
    are fields of one [World] record that every call threads through a
    state-and-exception monad. *)

From Stdlib Require Import String Ascii List ZArith Lia Bool.
From stdpp Require Import base option list strings gmap.

(* ===================================================================== *)
(** ** Python strings *)
(* ===================================================================== *)

Module Py.

Definition CR : ascii := "013"%char.
Definition LF : ascii := "010"%char.

(** [str.isspace] on one character, for code points below 256. *)
Definition isspace (c : ascii) : bool :=
  let n := nat_of_ascii c in
  ((9 <=? n) && (n <=? 13) || (28 <=? n) && (n <=? 32)
   || (n =? 133) || (n =? 160))%nat.

Fixpoint lstrip (s : string) : string :=
  match s with
  | String c s' => if isspace c then lstrip s' else s
  | EmptyString => EmptyString
  end.

Fixpoint rstrip (s : string) : string :=
  match s with
  | EmptyString => EmptyString
  | String c s' =>
      match rstrip s' with
      | EmptyString => if isspace c then EmptyString else String c EmptyString
      | r => String c r
      end
  end.

(** [s.strip()] *)
Definition strip (s : string) : string := lstrip (rstrip s).

(** Puts one more character in front of the first piece of a split. *)
Definition cons_first (c : ascii) (pieces : list string) : list string :=
  match pieces with
  | [] => [String c EmptyString]
  | p :: ps => String c p :: ps
  end.

(** [s.split(sep)] for a one-character separator: never an empty list. *)
Fixpoint split (sep : ascii) (s : string) : list string :=
  match s with
  | EmptyString => [EmptyString]
  | String c s' =>
      if Ascii.eqb c sep then EmptyString :: split sep s'
      else cons_first c (split sep s')
  end.

(** [re.split(r'\r\n?|\n', s)]: a CR, a CR LF pair and a lone LF each end
    a piece. *)
Fixpoint split_lines (s : string) : list string :=
  match s with
  | EmptyString => [EmptyString]
  | String c s' =>
      if Ascii.eqb c CR then
        match s' with
        | String d s'' =>
            if Ascii.eqb d LF then EmptyString :: split_lines s''
            else EmptyString :: split_lines s'
        | EmptyString => EmptyString :: split_lines s'
        end
      else if Ascii.eqb c LF then EmptyString :: split_lines s'
      else cons_first c (split_lines s')
  end.

(** [s.startswith(p)] *)
Definition startswith (s p : string) : bool := String.prefix p s.

(** Truth value of a string: the empty string is falsy. *)
Definition nonempty (s : string) : bool :=
  match s with EmptyString => false | _ => true end.

(** Truth value of [str | None]. *)
Definition truthy (o : option string) : bool :=
  match o with Some s => nonempty s | None => false end.

(** [a or b] on [str | None]. *)
Definition or_ (a b : option string) : option string :=
  if truthy a then a else b.

(** [[u.strip() for u in s.split(',') if u.strip()]] *)
Definition comma_list (s : string) : list string :=
  List.filter nonempty (List.map strip (split ","%char s)).

End Py.

(** A value of a JSON payload or of a document field: [None], a string or
    a list of strings. *)
Inductive PyVal : Type :=
| VNone
| VStr (s : string)
| VList (l : list string).

#[global] Instance PyVal_eq_dec : EqDecision PyVal.
Proof. solve_decision. Defined.

Definition of_opt (o : option string) : PyVal :=
  match o with Some s => VStr s | None => VNone end.

(** Truth value: [None], [""] and [[]] are falsy. *)
Definition truthy (v : PyVal) : bool :=
  match v with
  | VNone => false
  | VStr s => Py.nonempty s
  | VList l => match l with [] => false | _ => true end
  end.

(** [a or b] *)
Definition or_ (a b : PyVal) : PyVal := if truthy a then a else b.

(* ===================================================================== *)
(** ** Documents of the store *)
(* ===================================================================== *)

(** One module per DocType; the fields are the keys of the dict the code
    hands to [frappe.get_doc].  A key that a call leaves out is [VNone]. *)

Module IAN.
Record doc : Type := {
  ian_id : PyVal;
  source : PyVal;
  sop_instance_uids : PyVal;
  availability_status : PyVal;
  timestamp : PyVal
}.
End IAN.

Module SOP.
Record doc : Type := {
  sop_uid : PyVal;
  stored_at_aet : PyVal;
  patient_id : PyVal;
  accession_number : PyVal;
  created_at : PyVal
}.
End SOP.

Module PPS.
Record doc : Type := {
  pps_uid : PyVal;
  sps : PyVal;
  rp : PyVal;
  actor : PyVal;
  status : PyVal;
  instance_uids : PyVal;
  created_at : PyVal
}.
End PPS.

Module SPS.
Record doc : Type := {
  sps_uid : PyVal;
  status : PyVal
}.
End SPS.

Module UPS.
Record doc : Type := {
  ups_id : PyVal;
  rp : PyVal;
  ups_status : PyVal;
  actor : PyVal;
  instance_uids : PyVal;
  start_time : PyVal;
  end_time : PyVal
}.
End UPS.

Module Message.
Record doc : Type := {
  message_id : PyVal;
  message_type : PyVal;
  payload : PyVal;
  source : PyVal;
  destination : PyVal;
  correlation_id : PyVal;
  status : PyVal;
  received_at : PyVal
}.
End Message.

(** A write issued to the store: [doc.insert()] or [doc.save()], with the
    DocType and the key of the document. *)
Inductive DbWrite : Type :=
| Insert (doctype : string) (key : PyVal)
| Save (doctype : string) (key : PyVal).

(** A background job: the dotted method name and its one keyword argument. *)
Record Job : Type := { method : string; job_arg : PyVal }.

(* ===================================================================== *)
(** ** The world a call runs in *)
(* ===================================================================== *)

Record World : Type := {
  (** [frappe.get_conf().get("dwf_api_secret")] *)
  conf_secret : option string;
  (** the store is unreachable: every store operation raises this *)
  db_fault : option string;
  (** what [frappe.utils.now()] returns *)
  clock : string;
  (** the values [frappe.generate_hash()] returns, one per call *)
  hash_seq : nat -> string;
  hash_ctr : nat;
  (** the tables, in the order the store returns their rows *)
  tabIAN : list IAN.doc;
  tabSOP : list SOP.doc;
  tabPPS : list PPS.doc;
  tabSPS : list SPS.doc;
  tabUPS : list UPS.doc;
  tabMessage : list Message.doc;
  (** every insert and save issued so far, oldest first *)
  journal : list DbWrite;
  (** jobs handed to [frappe.enqueue], oldest first *)
  jobs : list Job;
  (** [frappe.log_error] entries: message and title *)
  error_log : list (string * string)
}.

Definition set_conf_secret (s : option string) (w : World) : World :=
  {| conf_secret := s; db_fault := db_fault w; clock := clock w;
     hash_seq := hash_seq w; hash_ctr := hash_ctr w;
     tabIAN := tabIAN w; tabSOP := tabSOP w; tabPPS := tabPPS w;
     tabSPS := tabSPS w; tabUPS := tabUPS w; tabMessage := tabMessage w;
     journal := journal w; jobs := jobs w; error_log := error_log w |}.

Definition set_hash_ctr (n : nat) (w : World) : World :=
  {| conf_secret := conf_secret w; db_fault := db_fault w; clock := clock w;
     hash_seq := hash_seq w; hash_ctr := n;
     tabIAN := tabIAN w; tabSOP := tabSOP w; tabPPS := tabPPS w;
     tabSPS := tabSPS w; tabUPS := tabUPS w; tabMessage := tabMessage w;
     journal := journal w; jobs := jobs w; error_log := error_log w |}.

Definition set_tabIAN (l : list IAN.doc) (w : World) : World :=
  {| conf_secret := conf_secret w; db_fault := db_fault w; clock := clock w;
     hash_seq := hash_seq w; hash_ctr := hash_ctr w;
     tabIAN := l; tabSOP := tabSOP w; tabPPS := tabPPS w;
     tabSPS := tabSPS w; tabUPS := tabUPS w; tabMessage := tabMessage w;
     journal := journal w; jobs := jobs w; error_log := error_log w |}.

Definition set_tabSOP (l : list SOP.doc) (w : World) : World :=
  {| conf_secret := conf_secret w; db_fault := db_fault w; clock := clock w;
     hash_seq := hash_seq w; hash_ctr := hash_ctr w;
     tabIAN := tabIAN w; tabSOP := l; tabPPS := tabPPS w;
     tabSPS := tabSPS w; tabUPS := tabUPS w; tabMessage := tabMessage w;
     journal := journal w; jobs := jobs w; error_log := error_log w |}.

Definition set_tabPPS (l : list PPS.doc) (w : World) : World :=
  {| conf_secret := conf_secret w; db_fault := db_fault w; clock := clock w;
     hash_seq := hash_seq w; hash_ctr := hash_ctr w;
     tabIAN := tabIAN w; tabSOP := tabSOP w; tabPPS := l;
     tabSPS := tabSPS w; tabUPS := tabUPS w; tabMessage := tabMessage w;
     journal := journal w; jobs := jobs w; error_log := error_log w |}.

Definition set_tabSPS (l : list SPS.doc) (w : World) : World :=
  {| conf_secret := conf_secret w; db_fault := db_fault w; clock := clock w;
     hash_seq := hash_seq w; hash_ctr := hash_ctr w;
     tabIAN := tabIAN w; tabSOP := tabSOP w; tabPPS := tabPPS w;
     tabSPS := l; tabUPS := tabUPS w; tabMessage := tabMessage w;
     journal := journal w; jobs := jobs w; error_log := error_log w |}.

Definition set_tabUPS (l : list UPS.doc) (w : World) : World :=
  {| conf_secret := conf_secret w; db_fault := db_fault w; clock := clock w;
     hash_seq := hash_seq w; hash_ctr := hash_ctr w;
     tabIAN := tabIAN w; tabSOP := tabSOP w; tabPPS := tabPPS w;
     tabSPS := tabSPS w; tabUPS := l; tabMessage := tabMessage w;
     journal := journal w; jobs := jobs w; error_log := error_log w |}.

Definition set_tabMessage (l : list Message.doc) (w : World) : World :=
  {| conf_secret := conf_secret w; db_fault := db_fault w; clock := clock w;
     hash_seq := hash_seq w; hash_ctr := hash_ctr w;
     tabIAN := tabIAN w; tabSOP := tabSOP w; tabPPS := tabPPS w;
     tabSPS := tabSPS w; tabUPS := tabUPS w; tabMessage := l;
     journal := journal w; jobs := jobs w; error_log := error_log w |}.

Definition set_journal (l : list DbWrite) (w : World) : World :=
  {| conf_secret := conf_secret w; db_fault := db_fault w; clock := clock w;
     hash_seq := hash_seq w; hash_ctr := hash_ctr w;
     tabIAN := tabIAN w; tabSOP := tabSOP w; tabPPS := tabPPS w;
     tabSPS := tabSPS w; tabUPS := tabUPS w; tabMessage := tabMessage w;
     journal := l; jobs := jobs w; error_log := error_log w |}.

Definition set_jobs (l : list Job) (w : World) : World :=
  {| conf_secret := conf_secret w; db_fault := db_fault w; clock := clock w;
     hash_seq := hash_seq w; hash_ctr := hash_ctr w;
     tabIAN := tabIAN w; tabSOP := tabSOP w; tabPPS := tabPPS w;
     tabSPS := tabSPS w; tabUPS := tabUPS w; tabMessage := tabMessage w;
     journal := journal w; jobs := l; error_log := error_log w |}.

Definition set_error_log (l : list (string * string)) (w : World) : World :=
  {| conf_secret := conf_secret w; db_fault := db_fault w; clock := clock w;
     hash_seq := hash_seq w; hash_ctr := hash_ctr w;
     tabIAN := tabIAN w; tabSOP := tabSOP w; tabPPS := tabPPS w;
     tabSPS := tabSPS w; tabUPS := tabUPS w; tabMessage := tabMessage w;
     journal := journal w; jobs := jobs w; error_log := l |}.

(** A store with no rows, no secret and nothing queued. *)
Definition empty_world : World :=
  {| conf_secret := None; db_fault := None; clock := "2025-11-14 16:00:00";
     hash_seq := fun _ => "c0ffee"; hash_ctr := 0;
     tabIAN := []; tabSOP := []; tabPPS := []; tabSPS := []; tabUPS := [];
     tabMessage := []; journal := []; jobs := []; error_log := [] |}.

(* ===================================================================== *)
(** ** Exceptions and the monad of calls *)
(* ===================================================================== *)

Inductive Exc : Type :=
| ValidationError (msg : string)   (** [frappe.throw(msg)] *)
| Forbidden (msg : string)         (** [frappe.throw(msg, frappe.Forbidden)] *)
| DoesNotExistError (doctype : string)  (** [frappe.get_doc] finds no row *)
| DatabaseError (msg : string)     (** the store is unreachable *)
| JSONDecodeError                  (** [json.loads] on malformed text *)
| AttributeError                   (** a method looked up on the wrong type *)
| TypeError.                       (** [hmac.compare_digest] on non-ASCII text *)

(** [str(e)] *)
Definition str_exc (e : Exc) : string :=
  match e with
  | ValidationError m => m
  | Forbidden m => m
  | DoesNotExistError d => d +:+ " not found"
  | DatabaseError m => m
  | JSONDecodeError => "Expecting value"
  | AttributeError => "object has no attribute"
  | TypeError => "comparing strings with non-ASCII characters is not supported"
  end.

Inductive Res (A : Type) : Type :=
| Ret (a : A)
| Raise (e : Exc).
Arguments Ret {A} a.
Arguments Raise {A} e.

Definition M (A : Type) : Type := World -> Res A * World.

#[global] Instance M_ret : MRet M := fun A a w => (Ret a, w).

#[global] Instance M_bind : MBind M := fun A B k m w =>
  match m w with
  | (Ret a, w') => k a w'
  | (Raise e, w') => (Raise e, w')
  end.

Definition raise {A : Type} (e : Exc) : M A := fun w => (Raise e, w).

(** [try: body  except Exception as e: handler e].  What the body did to
    the world before it raised stays done. *)
Definition try_except {A : Type} (body : M A) (handler : Exc -> M A) : M A :=
  fun w =>
    match body w with
    | (Ret a, w') => (Ret a, w')
    | (Raise e, w') => handler e w'
    end.

Definition get_world : M World := fun w => (Ret w, w).
Definition modify (f : World -> World) : M unit := fun w => (Ret tt, f w).

(** Nothing to do. *)
Definition pass : M unit := mret tt.

(** [for x in l: body x] *)
Fixpoint for_each {A : Type} (l : list A) (body : A -> M unit) : M unit :=
  match l with
  | [] => pass
  | x :: xs => body x;; for_each xs body
  end.

(* ===================================================================== *)
(** ** The Frappe interface the code calls *)
(* ===================================================================== *)

(** [frappe.utils.now()] *)
Definition now : M PyVal := fun w => (Ret (VStr (clock w)), w).

(** [frappe.generate_hash()] *)
Definition generate_hash : M PyVal :=
  fun w => (Ret (VStr (hash_seq w (hash_ctr w))), set_hash_ctr (S (hash_ctr w)) w).

(** [frappe.log_error(message, title)] *)
Definition log_error (message title : string) : M unit :=
  modify (fun w => set_error_log (error_log w ++ [(message, title)]) w).

(** [frappe.get_traceback()]: the text of the exception being handled. *)
Definition get_traceback (e : Exc) : string := str_exc e.

(** [frappe.throw(msg)] and [frappe.throw(msg, frappe.Forbidden)] *)
Definition throw {A : Type} (msg : string) : M A := raise (ValidationError msg).
Definition throw_forbidden {A : Type} (msg : string) : M A := raise (Forbidden msg).

(** [frappe.enqueue(method, **kwargs)] *)
Definition enqueue (meth : string) (arg : PyVal) : M unit :=
  modify (fun w => set_jobs (jobs w ++ [{| method := meth; job_arg := arg |}]) w).

(** Every store operation starts here: it raises when the store is down. *)
Definition db_guard : M unit :=
  fun w =>
    match db_fault w with
    | Some msg => (Raise (DatabaseError msg), w)
    | None => (Ret tt, w)
    end.

(** [frappe.db.commit()] *)
Definition db_commit : M unit := db_guard.

(** What the store needs to know of a DocType: its name, its table and the
    field the code filters on. *)
Class DocType (D : Type) : Type := {
  doctype : string;
  key : D -> PyVal;
  tab : World -> list D;
  set_tab : list D -> World -> World
}.

#[global] Instance IAN_doctype : DocType IAN.doc :=
  {| doctype := "Instance Availability Notification"; key := IAN.ian_id;
     tab := tabIAN; set_tab := set_tabIAN |}.
#[global] Instance SOP_doctype : DocType SOP.doc :=
  {| doctype := "SOPInstance"; key := SOP.sop_uid;
     tab := tabSOP; set_tab := set_tabSOP |}.
#[global] Instance PPS_doctype : DocType PPS.doc :=
  {| doctype := "Performed Procedure Step"; key := PPS.pps_uid;
     tab := tabPPS; set_tab := set_tabPPS |}.
#[global] Instance SPS_doctype : DocType SPS.doc :=
  {| doctype := "Scheduled Procedure Step"; key := SPS.sps_uid;
     tab := tabSPS; set_tab := set_tabSPS |}.
#[global] Instance UPS_doctype : DocType UPS.doc :=
  {| doctype := "Unified Procedure Step"; key := UPS.ups_id;
     tab := tabUPS; set_tab := set_tabUPS |}.
#[global] Instance Message_doctype : DocType Message.doc :=
  {| doctype := "Message"; key := Message.message_id;
     tab := tabMessage; set_tab := set_tabMessage |}.

(** The rows of a table whose key field equals [k]. *)
Definition rows_with {D : Type} `{DocType D} (k : PyVal) (l : list D) : list D :=
  List.filter (fun d => bool_decide (key d = k)) l.

(** [frappe.get_all(doctype, filters={key: k})] *)
Definition get_all (D : Type) `{DocType D} (k : PyVal) : M (list D) :=
  db_guard;; w ← get_world; mret (rows_with k (tab w)).

(** [frappe.get_doc(doctype, {key: k})]: the first row, or
    [DoesNotExistError]. *)
Definition get_doc (D : Type) `{DocType D} (k : PyVal) : M D :=
  db_guard;; w ← get_world;
  match rows_with k (tab w) with
  | d :: _ => mret d
  | [] => raise (DoesNotExistError (doctype (D := D)))
  end.

(** [frappe.get_doc({...}).insert(ignore_permissions=True)] *)
Definition insert {D : Type} `{DocType D} (d : D) : M unit :=
  db_guard;;
  modify (fun w =>
    set_journal (journal w ++ [Insert (doctype (D := D)) (key d)])
                (set_tab (tab w ++ [d]) w)).

(** Replaces the first row whose key is [k] (the row [get_doc] loaded). *)
Fixpoint replace_first {D : Type} `{DocType D} (k : PyVal) (d : D) (l : list D) : list D :=
  match l with
  | [] => []
  | x :: xs => if bool_decide (key x = k) then d :: xs else x :: replace_first k d xs
  end.

(** [doc.save(ignore_permissions=True)] on a document loaded under key [k]. *)
Definition save {D : Type} `{DocType D} (k : PyVal) (d : D) : M unit :=
  db_guard;;
  modify (fun w =>
    set_journal (journal w ++ [Save (doctype (D := D)) k])
                (set_tab (replace_first k d (tab w)) w)).

(* ===================================================================== *)
(** ** frappe_dwf/api.py: the HL7 v2 normaliser *)
(* ===================================================================== *)

(** The dict both normalisers return. *)
Record NormalizedMessage : Type := {
  message_id : PyVal;
  message_type : PyVal;
  payload : PyVal;
  source_actor : PyVal;
  destination_actor : PyVal;
  correlation_id : PyVal
}.

(** [combine(a, b)]: both parts joined by a pipe, else [a or b]. *)
Definition combine (a b : option string) : option string :=
  match a, b with
  | Some x, Some y =>
      if Py.nonempty x && Py.nonempty y then Some (x +:+ "|" +:+ y) else Py.or_ a b
  | _, _ => Py.or_ a b
  end.

(** The fields of one segment of the naive split; [None] only occurs in the
    default [[[None]]] of [seg_map.get]. *)
Abbreviation Fields := (list (option string)).

(** [seg_map.setdefault(name, []).append(parts)] for one line; empty lines
    are skipped. *)
Definition seg_map_add (m : gmap string (list Fields)) (seg : string)
  : gmap string (list Fields) :=
  if Py.nonempty seg then
    let parts := Py.split "|"%char seg in
    let name := List.hd EmptyString parts in
    <[name := default [] (m !! name) ++ [Some <$> parts]]> m
  else m.

Definition build_seg_map (segments : list string) : gmap string (list Fields) :=
  foldl seg_map_add ∅ segments.

(** [seg[i]] where the code has checked [len(seg) > i]. *)
Definition item (seg : Fields) (i : nat) : option string :=
  default None (seg !! i).

(** [seg[i] if len(seg) > i else None] *)
Definition item_if_longer (seg : Fields) (i : nat) : option string :=
  if (i <? length seg)%nat then item seg i else None.

(** [segs and segs[0] and len(segs[0]) > n] *)
Definition first_longer_than (segs : list Fields) (n : nat) : bool :=
  match segs with
  | [] => false
  | s0 :: _ => match s0 with [] => false | _ => (n <? length s0)%nat end
  end.

(** [segs[0]] *)
Definition first_seg (segs : list Fields) : Fields := List.hd [] segs.

(** The correlation id of the naive split: ORC index 1, else PID. *)
Definition fallback_correlation (seg_map : gmap string (list Fields)) : option string :=
  let orc := default [[None]] (seg_map !! "ORC") in
  if first_longer_than orc 1 then item (first_seg orc) 1
  else
    let pid := default [[None]] (seg_map !! "PID") in
    if first_longer_than pid 3 then
      if (3 <? length (first_seg pid))%nat then item (first_seg pid) 3
      else item (first_seg pid) 2
    else None.

(** [seg_map.get("MSH", [[None]])[0] if seg_map.get("MSH") else []] *)
Definition fallback_msh (seg_map : gmap string (list Fields)) : Fields :=
  match seg_map !! "MSH" with
  | Some (s0 :: _) => s0
  | _ => []
  end.

(** The local variables of the naive split at its [return]. *)
Record FallbackFields : Type := {
  fb_message_type : option string;
  fb_message_id : option string;
  fb_source_actor : option string;
  fb_destination_actor : option string;
  fb_correlation_id : option string
}.

(** Lines 180-232: the segments are split and indexed.  The local helper
    [get_field] of the source is never called and has no counterpart. *)
Definition fallback_fields (raw : string) : FallbackFields :=
  let segments := Py.split_lines (Py.strip raw) in
  let seg_map := build_seg_map segments in
  let msh := fallback_msh seg_map in
  let filled := match msh with [] => false | _ => true end in
  {| fb_message_type := if filled then item_if_longer msh 8 else None;
     fb_message_id := if filled then item_if_longer msh 9 else None;
     fb_source_actor :=
       if filled then combine (item_if_longer msh 2) (item_if_longer msh 3) else None;
     fb_destination_actor :=
       if filled then combine (item_if_longer msh 4) (item_if_longer msh 5) else None;
     fb_correlation_id := fallback_correlation seg_map |}.

(** Lines 179-241: the naive split when hl7apy is missing or has raised. *)
Definition normalize_fallback (raw : string) : M NormalizedMessage :=
  let f := fallback_fields raw in
  id ← (if Py.truthy (fb_message_id f) then mret (of_opt (fb_message_id f))
        else generate_hash);
  mret {| message_id := id;
          message_type := of_opt (Py.or_ (fb_message_type f) (Some "UNKNOWN"));
          payload := VStr raw;
          source_actor := of_opt (fb_source_actor f);
          destination_actor := of_opt (fb_destination_actor f);
          correlation_id := of_opt (fb_correlation_id f) |}.

(** [l[i]] for a Python integer: a negative index counts from the end, and
    an index outside the list is an [IndexError], here [None]. *)
Definition py_index {A : Type} (l : list A) (i : Z) : option A :=
  if (0 <=? i)%Z then l !! Z.to_nat i
  else if (- Z.of_nat (length l) <=? i)%Z then l !! Z.to_nat (Z.of_nat (length l) + i)
  else None.

(** Lines 189-201: the local helper [get_field] of [normalize_hl7_v2],
    which the function defines and never calls.  It closes over [seg_map];
    every exception inside it ends in [return None]. *)
Definition get_field (seg_map : gmap string (list Fields)) (seg_name : string)
  (seg_index field_idx : Z) (component_idx : option Z) : option string :=
  match seg_map !! seg_name with
  | None | Some [] => None
  | Some segs =>
      match py_index segs seg_index with
      | None => None
      | Some seg =>
          if (field_idx <? Z.of_nat (length seg))%Z then
            match py_index seg field_idx with
            | None => None
            | Some val =>
                match component_idx with
                | Some ci =>
                    if Py.truthy val then
                      let comps := Py.split "^"%char (default "" val) in
                      if (ci <? Z.of_nat (length comps))%Z then py_index comps ci
                      else val
                    else val
                | None => val
                end
            end
          else None
      end
  end.

(** What the second accessor of [_safe_get_segment_field] can do:
    raise, find no segment, or render a field. *)
Inductive SegLookup : Type :=
| SegRaises
| SegEmpty
| SegField (er7 : string).

Section hl7apy.

(** The hl7apy library is not part of the repository: its presence, its
    parser and its two field accessors are parameters. *)
Variable HL7APY_AVAILABLE : bool.
Variable Hl7 : Type.
(** [parse_message(raw, find_groups=False)]; [None] when it raises. *)
Variable parse_message : string -> option Hl7.
(** [getattr(getattr(msg, seg), field)] rendered as text; [None] when the
    attribute route raises. *)
Variable attr_er7 : Hl7 -> string -> string -> option string.
(** The [msg.segment(seg)] route. *)
Variable segment_er7 : Hl7 -> string -> string -> SegLookup.

Definition _safe_get_segment_field (msg : Hl7) (seg_name field_name : string)
  (fallback : option string) : option string :=
  match attr_er7 msg seg_name field_name with
  | Some v => Some v
  | None =>
      match segment_er7 msg seg_name field_name with
      | SegField v => Some v
      | SegEmpty => None
      | SegRaises => fallback
      end
  end.

(** Lines 123-174: the fields read through hl7apy. *)
Definition normalize_hl7apy (msg : Hl7) (raw : string) : M NormalizedMessage :=
  let mtype := _safe_get_segment_field msg "MSH" "msh_9" None in
  let mid := _safe_get_segment_field msg "MSH" "msh_10" None in
  let sending_app := _safe_get_segment_field msg "MSH" "msh_3" None in
  let sending_fac := _safe_get_segment_field msg "MSH" "msh_4" None in
  let receiving_app := _safe_get_segment_field msg "MSH" "msh_5" None in
  let receiving_fac := _safe_get_segment_field msg "MSH" "msh_6" None in
  let orc2 := _safe_get_segment_field msg "ORC" "orc_2" None in
  let corr :=
    if Py.truthy orc2 then orc2
    else _safe_get_segment_field msg "PID" "pid_3" None in
  id ← (if Py.truthy mid then mret (of_opt mid) else generate_hash);
  mret {| message_id := id;
          message_type := of_opt (Py.or_ mtype (Some "UNKNOWN"));
          payload := VStr raw;
          source_actor := of_opt (combine sending_app sending_fac);
          destination_actor := of_opt (combine receiving_app receiving_fac);
          correlation_id := of_opt corr |}.

Definition normalize_hl7_v2 (raw : string) : M NormalizedMessage :=
  if Py.nonempty raw then
    match (if HL7APY_AVAILABLE then parse_message raw else None) with
    | Some msg => normalize_hl7apy msg raw
    | None => normalize_fallback raw
    end
  else
    id ← generate_hash;
    mret {| message_id := id;
            message_type := VStr "UNKNOWN";
            payload := VStr raw;
            source_actor := VNone;
            destination_actor := VNone;
            correlation_id := VNone |}.

End hl7apy.

(** The sample message of [tests/test_hl7.py], and the same message with
    the standard encoding characters in MSH-2. *)
Definition sample_tail : string :=
  "|SendingApp|SendingFac|ReceivingApp|ReceivingFac|202511121130||ORM^O01|MSG00001|P|2.5.1"
  +:+ String Py.CR "PID|1||123456^^^Hospital^MR||Doe^John||19800101|M"
  +:+ String Py.CR "PV1|1|I|W^389^1^A||||1234^Physician^Primary|||||||||||"
  +:+ String Py.CR "ORC|NW|ORD448||OC456|CM||||202511121130|||1234^Clinician"
  +:+ String Py.CR "OBR|1|ORD448||TEST^Test Order^L|||||||||||||||||1234^Clinician"
  +:+ String Py.CR "NTE|1||Sample order note".

Definition SAMPLE_HL7 : string := "MSH|^\&" +:+ sample_tail.
Definition SAMPLE_HL7_STD : string := "MSH|^~\&" +:+ sample_tail.

(* ===================================================================== *)
(** ** frappe_dwf/api.py: the JSON normaliser and the inbound gateway *)
(* ===================================================================== *)

(** What [json.loads] can return: a dict of values, or something that has
    no [get] method (a list, a string, a number). *)
Inductive Json : Type :=
| JDict (d : gmap string PyVal)
| JVal (v : PyVal).

(** [d.get(k)] *)
Definition dict_get (d : gmap string PyVal) (k : string) : PyVal :=
  default VNone (d !! k).

(** ASCII and Latin-1 capitals to small letters, as [str.lower] does below
    code point 256. *)
Definition lower_char (c : ascii) : ascii :=
  let n := nat_of_ascii c in
  if ((65 <=? n) && (n <=? 90)
      || (192 <=? n) && (n <=? 222) && negb (n =? 215))%nat
  then ascii_of_nat (n + 32) else c.

Fixpoint lower (s : string) : string :=
  match s with
  | EmptyString => EmptyString
  | String c s' => String (lower_char c) (lower s')
  end.

(** [needle in hay] *)
Fixpoint contains (needle hay : string) : bool :=
  String.prefix needle hay
  || match hay with
     | EmptyString => false
     | String _ hay' => contains needle hay'
     end.

(** The request as the gateway reads it: the body text and the
    Content-Type header. *)
Record Request : Type := {
  get_data : string;
  content_type_header : option string
}.

Record ResponseData : Type := {
  data_message_id : PyVal;
  data_status : PyVal;
  data_correlation_id : PyVal
}.

(** The keys the gateway puts into [frappe.local.response]. *)
Record Response : Type := {
  resp_status : string;
  resp_message : string;
  resp_data : option ResponseData;
  resp_error : option string
}.

Section json.

(** The standard [json] module: [json.loads] ([None] when it raises) and
    [json.dumps]. *)
Variable json_loads : string -> option Json.
Variable json_dumps : Json -> string.

(** Simple pass-through normaliser for JSON input.  Of the structured
    values [isinstance(..., (dict, list))] asks for, [PyVal] has the list. *)
Definition normalize_from_json (payload : Json) : M NormalizedMessage :=
  match payload with
  | JVal _ => raise AttributeError
  | JDict d =>
      mret {| message_id := dict_get d "message_id";
              message_type := dict_get d "message_type";
              payload :=
                match dict_get d "payload" with
                | VList l => VStr (json_dumps (JVal (VList l)))
                | v => v
                end;
              source_actor := dict_get d "source_actor";
              destination_actor := dict_get d "destination_actor";
              correlation_id := dict_get d "correlation_id" |}
  end.

Section gateway.

Variable HL7APY_AVAILABLE : bool.
Variable Hl7 : Type.
Variable parse_message : string -> option Hl7.
Variable attr_er7 : Hl7 -> string -> string -> option string.
Variable segment_er7 : Hl7 -> string -> string -> SegLookup.

(** Lines 27-35: the body is read as JSON or as HL7 v2 text, by the
    Content-Type header. *)
Definition normalize_request (req : Request) : M NormalizedMessage :=
  let raw := get_data req in
  let content_type := lower (default "" (Py.or_ (content_type_header req) (Some ""))) in
  if contains "application/json" content_type then
    match json_loads raw with
    | Some p => normalize_from_json p
    | None => raise JSONDecodeError
    end
  else
    normalize_hl7_v2 HL7APY_AVAILABLE Hl7 parse_message attr_er7 segment_er7 raw.

(** The body of the [try] block of [ihe_receive_message]. *)
Definition ihe_receive_message_body (req : Request) : M Response :=
  let raw := get_data req in
  msg ← normalize_request req;
  existing ← (if truthy (message_id msg)
              then get_all Message.doc (message_id msg)
              else mret []);
  match existing with
  | result :: _ =>
      mret {| resp_status := "200";
              resp_message := "Message already exists";
              resp_data := Some {| data_message_id := Message.message_id result;
                                   data_status := Message.status result;
                                   data_correlation_id := Message.correlation_id result |};
              resp_error := None |}
  | [] =>
      id ← (if truthy (message_id msg) then mret (message_id msg) else generate_hash);
      t ← now;
      let message_doc :=
        {| Message.message_id := id;
           Message.message_type := or_ (message_type msg) (VStr "UNKNOWN");
           Message.payload := or_ (payload msg) (VStr raw);
           Message.source := source_actor msg;
           Message.destination := destination_actor msg;
           Message.correlation_id := correlation_id msg;
           Message.status := VStr "received";
           Message.received_at := t |} in
      insert message_doc;;
      db_commit;;
      mret {| resp_status := "201";
              resp_message := "Message accepted and queued";
              resp_data := Some {| data_message_id := Message.message_id message_doc;
                                   data_status := Message.status message_doc;
                                   data_correlation_id := Message.correlation_id message_doc |};
              resp_error := None |}
  end.

(** Accept inbound IHE message. *)
Definition ihe_receive_message (req : Request) : M Response :=
  try_except (ihe_receive_message_body req)
    (fun e =>
       log_error (get_traceback e) "frappe_dwf.ihe_receive_message";;
       mret {| resp_status := "500";
               resp_message := "Failed to accept message";
               resp_data := None;
               resp_error := Some (str_exc e) |}).

End gateway.
End json.

(* ===================================================================== *)
(** ** hashlib and hmac: SHA-256 and HMAC-SHA256 *)
(* ===================================================================== *)

(** The two standard-library functions [verify_signature] calls, written
    out from FIPS 180-4 and RFC 2104 on 32-bit words held in [N]. *)
Module Sha256.

Local Open Scope N_scope.

Definition mask32 (x : N) : N := N.land x 0xffffffff.
Definition add32 (a b : N) : N := mask32 (a + b).
Definition rotr (n x : N) : N :=
  N.lor (N.shiftr x n) (mask32 (N.shiftl x (32 - n))).
Definition not32 (x : N) : N := N.lxor x 0xffffffff.

Definition Ch (x y z : N) : N := N.lxor (N.land x y) (N.land (not32 x) z).
Definition Maj (x y z : N) : N :=
  N.lxor (N.lxor (N.land x y) (N.land x z)) (N.land y z).
Definition Sigma0 (x : N) : N := N.lxor (N.lxor (rotr 2 x) (rotr 13 x)) (rotr 22 x).
Definition Sigma1 (x : N) : N := N.lxor (N.lxor (rotr 6 x) (rotr 11 x)) (rotr 25 x).
Definition sigma0 (x : N) : N := N.lxor (N.lxor (rotr 7 x) (rotr 18 x)) (N.shiftr x 3).
Definition sigma1 (x : N) : N := N.lxor (N.lxor (rotr 17 x) (rotr 19 x)) (N.shiftr x 10).

(** The first primes, by trial division. *)
Definition is_prime (n : N) : bool :=
  (1 <? n) && forallb (fun d => negb (n mod d =? 0))
                      (List.map N.of_nat (seq 2 (N.to_nat n - 2))).
Definition primes (count : nat) : list N :=
  firstn count (List.filter is_prime (List.map N.of_nat (seq 2 400))).

(** The floor of the cube root of [x], one bit at a time from bit [bits]
    down. *)
Fixpoint cube_root (bits : nat) (x r : N) : N :=
  match bits with
  | O => r
  | S b =>
      let c := N.lor r (N.shiftl 1 (N.of_nat b)) in
      cube_root b x (if c * c * c <=? x then c else r)
  end.

(** The first 32 bits of the fractional part of a cube root and of a
    square root. *)
Definition frac_cube_root (p : N) : N := mask32 (cube_root 40 (N.shiftl p 96) 0).
Definition frac_sqrt (p : N) : N := mask32 (N.sqrt (N.shiftl p 64)).

(** The round constants: cube roots of the first 64 primes. *)
Definition K : list N := Eval vm_compute in List.map frac_cube_root (primes 64).

(** The initial hash value: square roots of the first 8 primes. *)
Definition H0 : list N := Eval vm_compute in List.map frac_sqrt (primes 8).

(** The big-endian bytes of a word, [n] of them. *)
Fixpoint be_bytes (n : nat) (x : N) : list N :=
  match n with
  | O => []
  | S n' => N.land (N.shiftr x (8 * N.of_nat n')) 0xff :: be_bytes n' x
  end.

(** The message, a 1 bit, zeros up to 56 modulo 64 and the bit length. *)
Definition pad (msg : list N) : list N :=
  let len := N.of_nat (length msg) in
  let zeros := N.to_nat ((119 - len mod 64) mod 64) in
  msg ++ [0x80] ++ repeat 0 zeros ++ be_bytes 8 (8 * len).

(** Big-endian words of a byte list whose length is a multiple of four. *)
Fixpoint words (bs : list N) : list N :=
  match bs with
  | a :: b :: c :: d :: rest =>
      (N.shiftl a 24 + N.shiftl b 16 + N.shiftl c 8 + d) :: words rest
  | _ => []
  end.

(** The message schedule: [n] more words after the ones of the block. *)
Fixpoint schedule (n : nat) (ws : list N) : list N :=
  match n with
  | O => ws
  | S n' =>
      let t := length ws in
      let w i := nth (t - i) ws 0 in
      schedule n' (ws ++ [add32 (add32 (sigma1 (w 2%nat)) (w 7%nat))
                                (add32 (sigma0 (w 15%nat)) (w 16%nat))])
  end.

Record regs : Type := { ra : N; rb : N; rc : N; rd : N; re : N; rf : N; rg : N; rh : N }.

Definition round (s : regs) (kw : N * N) : regs :=
  let t1 := add32 (add32 (add32 (rh s) (Sigma1 (re s)))
                         (add32 (Ch (re s) (rf s) (rg s)) (fst kw))) (snd kw) in
  let t2 := add32 (Sigma0 (ra s)) (Maj (ra s) (rb s) (rc s)) in
  {| ra := add32 t1 t2; rb := ra s; rc := rb s; rd := rc s;
     re := add32 (rd s) t1; rf := re s; rg := rf s; rh := rg s |}.

Definition regs_of (h : list N) : regs :=
  {| ra := nth 0 h 0; rb := nth 1 h 0; rc := nth 2 h 0; rd := nth 3 h 0;
     re := nth 4 h 0; rf := nth 5 h 0; rg := nth 6 h 0; rh := nth 7 h 0 |}.

Definition list_of (s : regs) : list N :=
  [ra s; rb s; rc s; rd s; re s; rf s; rg s; rh s].

(** One 16-word block folded into the hash value. *)
Definition compress (h : list N) (block : list N) : list N :=
  let s := fold_left round (List.combine K (schedule 48 block)) (regs_of h) in
  zip_with add32 h (list_of s).

(** The blocks of a padded message, at most [n] of them. *)
Fixpoint blocks (n : nat) (ws : list N) : list (list N) :=
  match n, ws with
  | S n', _ :: _ => firstn 16 ws :: blocks n' (skipn 16 ws)
  | _, _ => []
  end.

Definition sha256 (msg : list N) : list N :=
  let ws := words (pad msg) in
  let h := fold_left compress (blocks (length ws) ws) H0 in
  flat_map (be_bytes 4) h.

(** HMAC (RFC 2104) with SHA-256 and its 64-byte block. *)
Definition hmac (key msg : list N) : list N :=
  let key' := if (64 <? N.of_nat (length key)) then sha256 key else key in
  let padded := key' ++ repeat 0 (64 - length key')%nat in
  let ipad := List.map (N.lxor 0x36) padded in
  let opad := List.map (N.lxor 0x5c) padded in
  sha256 (opad ++ sha256 (ipad ++ msg)).

Definition of_bytes (bs : list Byte.byte) : list N := List.map Byte.to_N bs.
Definition to_bytes (ns : list N) : list Byte.byte :=
  List.map (fun n => default Byte.x00 (Byte.of_N n)) ns.

End Sha256.

(** [hmac.new(key, msg=msg, digestmod=hashlib.sha256).digest()] *)
Definition hmac_sha256 (key msg : list Byte.byte) : list Byte.byte :=
  Sha256.to_bytes (Sha256.hmac (Sha256.of_bytes key) (Sha256.of_bytes msg)).

(* ===================================================================== *)
(** ** ian_mpps_handlers.py: signature verification *)
(* ===================================================================== *)

(** [s.encode("utf-8")] for code points below 256: one byte below 128, two
    bytes from there on. *)
Definition encode_char (c : ascii) : list Byte.byte :=
  let n := nat_of_ascii c in
  if (n <? 128)%nat then [byte_of_ascii c]
  else [byte_of_ascii (ascii_of_nat (192 + n / 64));
        byte_of_ascii (ascii_of_nat (128 + n mod 64))].

Fixpoint encode_utf8 (s : string) : list Byte.byte :=
  match s with
  | EmptyString => []
  | String c s' => encode_char c ++ encode_utf8 s'
  end.

Definition hex_digit (n : nat) : ascii :=
  if (n <? 10)%nat then ascii_of_nat (48 + n) else ascii_of_nat (87 + n).

(** [bytes.hex()]: two lower-case hexadecimal digits per byte. *)
Fixpoint hex (bs : list Byte.byte) : string :=
  match bs with
  | [] => EmptyString
  | b :: bs' =>
      let n := nat_of_ascii (ascii_of_byte b) in
      String (hex_digit (n / 16)) (String (hex_digit (n mod 16)) (hex bs'))
  end.

Fixpoint is_ascii (s : string) : bool :=
  match s with
  | EmptyString => true
  | String c s' => (nat_of_ascii c <? 128)%nat && is_ascii s'
  end.

(** [s.split("=", 1)[1]]: the text after the first equals sign. *)
Fixpoint after_first_eq (s : string) : string :=
  match s with
  | EmptyString => EmptyString
  | String c s' => if Ascii.eqb c "="%char then s' else after_first_eq s'
  end.

(** [hmac.compare_digest(a, b)] on two [str]: equality, and a [TypeError]
    when either holds a non-ASCII character. *)
Definition compare_digest (a b : string) : M bool :=
  if is_ascii a && is_ascii b then mret (String.eqb a b) else raise TypeError.

(** Request headers: a dict from header name to value. *)
Abbreviation Headers := (gmap string string).

(** [bool(request_headers)]: [None] and the empty dict are falsy. *)
Definition headers_truthy (h : option Headers) : bool :=
  match h with
  | Some d => negb (bool_decide (d = ∅))
  | None => false
  end.

(** The signature the code compares: the header value without its
    [sha256=] prefix when it has one. *)
Definition signature_of (sig_header : string) : string :=
  if Py.startswith sig_header "sha256=" then after_first_eq sig_header
  else sig_header.

(** [hmac.new(secret.encode("utf-8"), msg=body, digestmod=hashlib.sha256).hexdigest()] *)
Definition hexdigest (secret : string) (body_bytes : list Byte.byte) : string :=
  hex (hmac_sha256 (encode_utf8 secret) body_bytes).

(** Verify HMAC-SHA256 signature against configured secret. *)
Definition verify_signature (headers : option Headers) (body_bytes : list Byte.byte) : M bool :=
  w ← get_world;
  match conf_secret w with
  | None => mret true
  | Some secret =>
      if negb (Py.nonempty secret) then mret true
      else
        match headers with
        | None => raise AttributeError
        | Some h =>
            let sig_header := Py.or_ (h !! "X-Signature") (h !! "X-Hub-Signature") in
            if Py.truthy sig_header then
              let sig := signature_of (default "" sig_header) in
              let expected := hexdigest secret body_bytes in
              valid ← compare_digest expected sig;
              match valid with
              | true => pass
              | false =>
                  log_error "Invalid signature for IAN/MPPS request" "frappe_dwf.signature"
              end;;
              mret valid
            else
              log_error "Missing signature header for IAN/MPPS request" "frappe_dwf.signature";;
              mret false
        end
  end.

Section handlers.

(** [json.dumps] of the standard library. *)
Variable json_dumps : Json -> string.

(* --------------------------------------------------------------------- *)
(** *** The helpers of [utils] and [handlers] *)
(* --------------------------------------------------------------------- *)

(** Modelled from the spec: [utils.normalize_uids] is not in the sources.
    It "accepts either a delimited string or an ordered sequence of
    strings; produces one canonical delimited representation
    (comma-separated, trimmed, empty entries dropped)". *)
Definition normalize_uids (input : PyVal) : string :=
  let entries :=
    match input with
    | VNone => []
    | VStr s => Py.comma_list s
    | VList l => List.filter Py.nonempty (List.map Py.strip l)
    end in
  String.concat "," entries.

(** Modelled from the spec: [utils.split_uids] is not in the sources.  It
    is the "inverse operation for iteration": the entries of the canonical
    form, in order. *)
Definition split_uids (canonical : string) : list string :=
  Py.comma_list canonical.

(** Modelled from the spec: [utils.get_or_create_sopinstance] is not in the
    sources.  It "looks up by uid; if absent, creates with supplied
    optional metadata; if present, returns existing without modification". *)
Definition get_or_create_sopinstance (uid : string)
  (stored_at_aet patient_id accession_number : PyVal) : M unit :=
  existing ← get_all SOP.doc (VStr uid);
  match existing with
  | _ :: _ => pass
  | [] =>
      t ← now;
      insert {| SOP.sop_uid := VStr uid;
                SOP.stored_at_aet := stored_at_aet;
                SOP.patient_id := patient_id;
                SOP.accession_number := accession_number;
                SOP.created_at := t |}
  end.

(** Modelled from the spec: [handlers.enqueue_process_ian] and
    [handlers.enqueue_process_pps] are not in the sources.  They "schedule
    asynchronous post-processing (worklist/RP matching) identified by the
    primary key"; the processing itself is a stub. *)
Definition enqueue_process_ian (ian_id : PyVal) : M unit :=
  enqueue "frappe_dwf.handlers.process_ian" ian_id.
Definition enqueue_process_pps (pps_uid : PyVal) : M unit :=
  enqueue "frappe_dwf.handlers.process_pps" pps_uid.

(** [str(v)] inside an f-string. *)
Definition str_val (v : PyVal) : string :=
  match v with
  | VNone => "None"
  | VStr s => s
  | VList l => "[" +:+ String.concat ", " l +:+ "]"
  end.

(** The dict an ingestion call returns: the status and the identifier. *)
Record Reply : Type := { reply_status : string; reply_id : PyVal }.

(* --------------------------------------------------------------------- *)
(** *** ingest_ian and ingest_mpps *)
(* --------------------------------------------------------------------- *)

(** Lines 82-84 and 147-149: the signature is checked only when the caller
    passed headers. *)
Definition check_signature (payload : gmap string PyVal)
  (request_headers : option Headers) : M unit :=
  let body_bytes := encode_utf8 (json_dumps (JDict payload)) in
  if headers_truthy request_headers then
    valid ← verify_signature request_headers body_bytes;
    match valid with
    | true => pass
    | false => throw_forbidden "Forbidden: invalid signature"
    end
  else pass.

(** Ingest an Instance Availability Notification payload. *)
Definition ingest_ian (payload : gmap string PyVal)
  (request_headers : option Headers) : M Reply :=
  check_signature payload request_headers;;
  let ian_id := dict_get payload "ian_id" in
  (if truthy ian_id then pass
   else throw "IAN payload missing required field: ian_id");;
  exists_ ← get_all IAN.doc ian_id;
  match exists_ with
  | _ :: _ => mret {| reply_status := "exists"; reply_id := ian_id |}
  | [] =>
      let uids :=
        normalize_uids (or_ (dict_get payload "sop_instance_uids")
                            (dict_get payload "sop_uids")) in
      try_except
        (ts ← (if truthy (dict_get payload "timestamp")
               then mret (dict_get payload "timestamp") else now);
         insert {| IAN.ian_id := ian_id;
                   IAN.source := or_ (dict_get payload "source") (VStr "");
                   IAN.sop_instance_uids := VStr uids;
                   IAN.availability_status :=
                     default (VStr "Available") (payload !! "availability_status");
                   IAN.timestamp := ts |};;
         for_each (split_uids uids) (fun uid =>
           get_or_create_sopinstance uid (dict_get payload "source")
             (dict_get payload "patient_id") (dict_get payload "accession_number"));;
         enqueue_process_ian ian_id;;
         mret {| reply_status := "created"; reply_id := ian_id |})
        (fun e =>
           log_error (get_traceback e) ("ingest_ian failed for " +:+ str_val ian_id);;
           raise e)
  end.

(** Lines 179-189: the Scheduled Procedure Step a PPS refers to is marked
    Completed, and saved only when that changes it. *)
Definition complete_sps (sps_uid pps_uid : PyVal) : M unit :=
  if truthy sps_uid then
    try_except
      (sps ← get_doc SPS.doc sps_uid;
       if bool_decide (SPS.status sps = VStr "Completed") then pass
       else save sps_uid {| SPS.sps_uid := SPS.sps_uid sps;
                            SPS.status := VStr "Completed" |})
      (fun _ =>
         log_error ("SPS " +:+ str_val sps_uid +:+ " referenced by PPS "
                    +:+ str_val pps_uid +:+ " not found") "frappe_dwf.mpps")
  else pass.

(** Ingest a modality MPPS payload. *)
Definition ingest_mpps (payload : gmap string PyVal)
  (request_headers : option Headers) : M Reply :=
  check_signature payload request_headers;;
  let pps_uid := dict_get payload "pps_uid" in
  (if truthy pps_uid then pass
   else throw "MPPS payload missing required field: pps_uid");;
  exists_ ← get_all PPS.doc pps_uid;
  match exists_ with
  | _ :: _ => mret {| reply_status := "exists"; reply_id := pps_uid |}
  | [] =>
      let uids := normalize_uids (dict_get payload "instance_uids") in
      try_except
        (ts ← (if truthy (dict_get payload "created_at")
               then mret (dict_get payload "created_at") else now);
         insert {| PPS.pps_uid := pps_uid;
                   PPS.sps := or_ (dict_get payload "sps_uid") (VStr "");
                   PPS.rp := or_ (dict_get payload "rp_id") (VStr "");
                   PPS.actor := or_ (dict_get payload "actor") (VStr "");
                   PPS.status := default (VStr "COMPLETED") (payload !! "status");
                   PPS.instance_uids := VStr uids;
                   PPS.created_at := ts |};;
         complete_sps (dict_get payload "sps_uid") pps_uid;;
         for_each (split_uids uids) (fun uid =>
           get_or_create_sopinstance uid (dict_get payload "actor")
             (dict_get payload "patient_id") (dict_get payload "accession_number"));;
         enqueue_process_pps pps_uid;;
         mret {| reply_status := "created"; reply_id := pps_uid |})
        (fun e =>
           log_error (get_traceback e) ("ingest_mpps failed for " +:+ str_val pps_uid);;
           raise e)
  end.

End handlers.

(* ===================================================================== *)
(** ** frappe_dwf/frappe_dwf/api.py: the whitelisted endpoints *)
(* ===================================================================== *)

(** Arguments are [str] or [None]; a default of the signature is the
    caller's to pass. *)

(** Receive an Instance Availability Notification (IAN) from a
    PACS/gateway. *)
Definition receive_ian (ian_id source sop_uids availability_status : option string)
  : M Reply :=
  (if Py.truthy ian_id then pass else throw "ian_id is required");;
  existing ← get_all IAN.doc (of_opt ian_id);
  match existing with
  | _ :: _ => mret {| reply_status := "exists"; reply_id := of_opt ian_id |}
  | [] =>
      ts ← now;
      insert {| IAN.ian_id := of_opt ian_id;
                IAN.source := of_opt (Py.or_ source (Some ""));
                IAN.sop_instance_uids := of_opt (Py.or_ sop_uids (Some ""));
                IAN.availability_status := of_opt availability_status;
                IAN.timestamp := ts |};;
      (if Py.truthy sop_uids then
         for_each (Py.comma_list (default "" sop_uids)) (fun uid =>
           existing_si ← get_all SOP.doc (VStr uid);
           match existing_si with
           | _ :: _ => pass
           | [] =>
               created ← now;
               insert {| SOP.sop_uid := VStr uid;
                         SOP.stored_at_aet := of_opt (Py.or_ source (Some ""));
                         SOP.patient_id := VNone;
                         SOP.accession_number := VNone;
                         SOP.created_at := created |}
           end)
       else pass);;
      enqueue "frappe_dwf.api._process_ian" (of_opt ian_id);;
      mret {| reply_status := "created"; reply_id := of_opt ian_id |}
  end.

(** [(v or '').split(',')], stripped and without empty entries; only a
    [str] has [split]. *)
Definition uid_entries (v : PyVal) : M (list string) :=
  match or_ v (VStr "") with
  | VStr s => mret (Py.comma_list s)
  | _ => raise AttributeError
  end.

(** Background worker to process IAN and update worklist items/statuses. *)
Definition _process_ian (ian_id : PyVal) : M unit :=
  found ← try_except (ian ← get_doc IAN.doc ian_id; mret (Some ian)) (fun _ => mret None);
  match found with
  | None => pass
  | Some ian =>
      uids ← uid_entries (IAN.sop_instance_uids ian);
      for_each uids (fun uid => get_all SOP.doc (VStr uid);; pass)
  end.

(** Create/ingest a Performed Procedure Step (MPPS) record. *)
Definition create_pps (pps_uid sps_uid rp_id actor status instance_uids : option string)
  : M Reply :=
  (if Py.truthy pps_uid then pass else throw "pps_uid is required");;
  existing ← get_all PPS.doc (of_opt pps_uid);
  match existing with
  | _ :: _ => mret {| reply_status := "exists"; reply_id := of_opt pps_uid |}
  | [] =>
      ts ← now;
      insert {| PPS.pps_uid := of_opt pps_uid;
                PPS.sps := of_opt (Py.or_ sps_uid (Some ""));
                PPS.rp := of_opt (Py.or_ rp_id (Some ""));
                PPS.actor := of_opt (Py.or_ actor (Some ""));
                PPS.status := of_opt status;
                PPS.instance_uids := of_opt (Py.or_ instance_uids (Some ""));
                PPS.created_at := ts |};;
      enqueue "frappe_dwf.api._process_pps" (of_opt pps_uid);;
      mret {| reply_status := "created"; reply_id := of_opt pps_uid |}
  end.

(** Lines 83-89: the status is recomputed and the step is saved, whatever
    the status was. *)
Definition process_pps_sps (pps : PPS.doc) : M unit :=
  if truthy (PPS.sps pps) then
    try_except
      (sps ← get_doc SPS.doc (PPS.sps pps);
       save (PPS.sps pps)
         {| SPS.sps_uid := SPS.sps_uid sps;
            SPS.status :=
              if bool_decide (PPS.status pps = VStr "COMPLETED")
              then VStr "Completed" else SPS.status sps |})
      (fun _ => pass)
  else pass.

Definition _process_pps (pps_uid : PyVal) : M unit :=
  found ← try_except (pps ← get_doc PPS.doc pps_uid; mret (Some pps)) (fun _ => mret None);
  match found with
  | None => pass
  | Some pps =>
      process_pps_sps pps;;
      uids ← uid_entries (PPS.instance_uids pps);
      for_each uids (fun uid =>
        existing_si ← get_all SOP.doc (VStr uid);
        match existing_si with
        | _ :: _ => pass
        | [] =>
            created ← now;
            insert {| SOP.sop_uid := VStr uid;
                      SOP.stored_at_aet := VNone;
                      SOP.patient_id := VNone;
                      SOP.accession_number := VNone;
                      SOP.created_at := created |}
        end)
  end.

(** [frappe.utils.now() if cond else None] *)
Definition now_if (cond : bool) : M PyVal :=
  if cond then now else mret VNone.

(** [ups_status in ('COMPLETED','FAILED','CANCELLED')] *)
Definition is_terminal (ups_status : option string) : bool :=
  bool_decide (ups_status = Some "COMPLETED")
  || bool_decide (ups_status = Some "FAILED")
  || bool_decide (ups_status = Some "CANCELLED").

(** Create/ingest a Unified Procedure Step (DICOM UPS) record. *)
Definition create_ups (ups_id rp_id ups_status actor instance_uids : option string)
  : M Reply :=
  (if Py.truthy ups_id then pass else throw "ups_id is required");;
  existing ← get_all UPS.doc (of_opt ups_id);
  match existing with
  | _ :: _ => mret {| reply_status := "exists"; reply_id := of_opt ups_id |}
  | [] =>
      started ← now_if (bool_decide (ups_status = Some "IN-PROGRESS"));
      ended ← now_if (is_terminal ups_status);
      insert {| UPS.ups_id := of_opt ups_id;
                UPS.rp := of_opt (Py.or_ rp_id (Some ""));
                UPS.ups_status := of_opt ups_status;
                UPS.actor := of_opt (Py.or_ actor (Some ""));
                UPS.instance_uids := of_opt instance_uids;
                UPS.start_time := started;
                UPS.end_time := ended |};;
      (if Py.truthy instance_uids && bool_decide (ups_status = Some "COMPLETED") then
         for_each (Py.comma_list (default "" instance_uids)) (fun uid =>
           existing_si ← get_all SOP.doc (VStr uid);
           match existing_si with
           | _ :: _ => pass
           | [] =>
               created ← now;
               insert {| SOP.sop_uid := VStr uid;
                         SOP.stored_at_aet := VNone;
                         SOP.patient_id := VNone;
                         SOP.accession_number := VNone;
                         SOP.created_at := created |}
           end)
       else pass);;
      mret {| reply_status := "created"; reply_id := of_opt ups_id |}
  end.

(* ===================================================================== *)
(** * Notions used to state the properties *)
(* ===================================================================== *)

(** A message with an MSH segment and a PID segment of three fields, and
    no ORC segment. *)
Definition SHORT_PID_HL7 : string :=
  "MSH|^~\&|SendingApp|SendingFac|ReceivingApp|ReceivingFac|202511121130||ORM^O01|MSG00002|P|2.5.1"
  +:+ String Py.CR "PID|1|PAT7".

(** The correlation id of the naive split with the branch on PID index 2
    taken out. *)
Definition fallback_correlation_no_index_2 (seg_map : gmap string (list Fields))
  : option string :=
  let orc := default [[None]] (seg_map !! "ORC") in
  if first_longer_than orc 1 then item (first_seg orc) 1
  else
    let pid := default [[None]] (seg_map !! "PID") in
    if first_longer_than pid 3 then item (first_seg pid) 3 else None.

(** The segments named [name], each split into its fields, in message
    order. *)
Definition rows_named (name : string) (segments : list string) : list (list string) :=
  List.filter (fun parts => bool_decide (List.hd EmptyString parts = name))
    (List.map (Py.split "|"%char) (List.filter Py.nonempty segments)).

(** The field of the first segment named [name] at index [i], if that
    segment has more than [n] fields. *)
Definition first_field (name : string) (segments : list string) (n i : nat) : option string :=
  match rows_named name segments with
  | parts :: _ => if (n <? length parts)%nat then parts !! i else None
  | [] => None
  end.

(** [steps R m]: whatever [m] does and however it ends, the world it
    leaves is [R]-related to the world it started in. *)
Definition steps {A : Type} (R : relation World) (m : M A) : Prop :=
  forall w, R w (snd (m w)).

(** The relation of two worlds that agree on one observation. *)
Definition unchanged {B : Type} (f : World -> B) : relation World :=
  fun w w' => f w' = f w.

(** A site configured with the secret [key], and a signed body. *)
Definition secret_world : World := set_conf_secret (Some "key") empty_world.

Definition fox : list Byte.byte :=
  encode_utf8 "The quick brown fox jumps over the lazy dog".

Definition cog : list Byte.byte :=
  encode_utf8 "The quick brown fox jumps over the lazy cog".

Definition fox_digest : string :=
  "f7bc83f430538424b13298e6aa6fb143ef4d59a14946175997479dbc2d1a3cd8".

Definition signed_headers : Headers := {[ "X-Signature" := "sha256=" +:+ fox_digest ]}.

(** A stale X-Signature next to a correct X-Hub-Signature. *)
Definition both_headers : Headers :=
  <["X-Signature" := "00"]> {[ "X-Hub-Signature" := "sha256=" +:+ fox_digest ]}.

(** [raises_only P m]: an exception that leaves [m] satisfies [P]. *)
Definition raises_only {A : Type} (P : Exc -> Prop) (m : M A) : Prop :=
  forall w e, fst (m w) = Raise e -> P e.

Definition not_forbidden (e : Exc) : Prop :=
  match e with Forbidden _ => False | _ => True end.

(** [ignores_secret m]: the configured secret changes neither what [m]
    returns nor what it does to the rest of the world. *)
Definition ignores_secret {A : Type} (m : M A) : Prop :=
  forall s w, m (set_conf_secret s w) = (fst (m w), set_conf_secret s (snd (m w))).

(** A JSON encoder for the examples; a call without headers never looks at
    the body. *)
Definition dumps0 (j : Json) : string := "{}".

Definition ian_payload : gmap string PyVal :=
  {[ "ian_id" := VStr "IAN-20251114-0001";
     "source" := VStr "OrthancAE";
     "sop_instance_uids" := VList ["1.2.3.4"; "1.2.3.5"] ]}.

(** The saves among the writes of a journal. *)
Definition saves (j : list DbWrite) : list DbWrite :=
  List.filter (fun e => match e with Save _ _ => true | Insert _ _ => false end) j.

(** What a call that only inserts leaves alone: the Scheduled Procedure
    Steps, the saves and the state of the store. *)
Definition sps_view (w : World) : list SPS.doc * list DbWrite * option string :=
  (tabSPS w, saves (journal w), db_fault w).

(** A store with one Scheduled Procedure Step, and with one Performed
    Procedure Step that refers to it. *)
Definition sps_world (status : string) : World :=
  set_tabSPS [{| SPS.sps_uid := VStr "SPS-0001"; SPS.status := VStr status |}]
    empty_world.

Definition pps_row (pps_status : string) : PPS.doc :=
  {| PPS.pps_uid := VStr "MPPS-0001"; PPS.sps := VStr "SPS-0001";
     PPS.rp := VStr ""; PPS.actor := VStr "CT-Scanner-1";
     PPS.status := VStr pps_status; PPS.instance_uids := VStr "";
     PPS.created_at := VStr "2025-11-14 16:00:00" |}.

Definition pps_world (sps_status pps_status : string) : World :=
  set_tabPPS [pps_row pps_status] (sps_world sps_status).

Definition mpps_payload : gmap string PyVal :=
  {[ "pps_uid" := VStr "MPPS-0001";
     "sps_uid" := VStr "SPS-0001";
     "actor" := VStr "CT-Scanner-1";
     "status" := VStr "COMPLETED";
     "instance_uids" := VList ["1.2.3.4"] ]}.

(** The get-or-create step every loop over instance UIDs runs; [mk] builds
    the record from the UID and the creation time. *)
Definition ensure_sop (mk : string -> PyVal -> SOP.doc) (uid : string) : M unit :=
  existing_si ← get_all SOP.doc (VStr uid);
  match existing_si with
  | _ :: _ => pass
  | [] => created ← now; insert (mk uid created)
  end.

(** The records the loops build. *)
Definition sop_bare (uid : string) (created : PyVal) : SOP.doc :=
  {| SOP.sop_uid := VStr uid; SOP.stored_at_aet := VNone; SOP.patient_id := VNone;
     SOP.accession_number := VNone; SOP.created_at := created |}.

Definition sop_with (stored_at_aet patient_id accession_number : PyVal)
  (uid : string) (created : PyVal) : SOP.doc :=
  {| SOP.sop_uid := VStr uid; SOP.stored_at_aet := stored_at_aet;
     SOP.patient_id := patient_id; SOP.accession_number := accession_number;
     SOP.created_at := created |}.

(** [fanned_out uids meta w w']: from [w] to [w'] the SOPInstance table has
    only grown, by records that satisfy [meta], and in [w'] every UID of
    [uids] has a record. *)
Definition fanned_out (uids : list string) (meta : SOP.doc -> Prop) (w w' : World) : Prop :=
  (exists news, tabSOP w' = tabSOP w ++ news /\ Forall meta news)
  /\ forall uid, In uid uids -> rows_with (VStr uid) (tabSOP w') <> [].

(** The calls that ingest IAN, MPPS and UPS events, and the two workers
    the endpoints enqueue. *)
Inductive Call : Type :=
| CallReceiveIan (ian_id source sop_uids availability_status : option string)
| CallCreatePps (pps_uid sps_uid rp_id actor status instance_uids : option string)
| CallCreateUps (ups_id rp_id ups_status actor instance_uids : option string)
| CallProcessIan (ian_id : PyVal)
| CallProcessPps (pps_uid : PyVal)
| CallIngestIan (payload : gmap string PyVal) (request_headers : option Headers)
| CallIngestMpps (payload : gmap string PyVal) (request_headers : option Headers).

(** The world a call leaves, whether it returns or raises. *)
Definition run_call (json_dumps : Json -> string) (c : Call) (w : World) : World :=
  match c with
  | CallReceiveIan a b c d => snd (receive_ian a b c d w)
  | CallCreatePps a b c d e f => snd (create_pps a b c d e f w)
  | CallCreateUps a b c d e => snd (create_ups a b c d e w)
  | CallProcessIan k => snd (_process_ian k w)
  | CallProcessPps k => snd (_process_pps k w)
  | CallIngestIan p h => snd (ingest_ian json_dumps p h w)
  | CallIngestMpps p h => snd (ingest_mpps json_dumps p h w)
  end.

Definition run_calls (json_dumps : Json -> string) (calls : list Call) (w : World) : World :=
  fold_left (fun w c => run_call json_dumps c w) calls w.

(** The UIDs of the SOPInstance table, in table order. *)
Definition sop_uids_of (w : World) : list PyVal := List.map SOP.sop_uid (tabSOP w).

(** [sop_grows w w']: the SOPInstance table of [w'] starts with the table
    of [w], and holds no UID twice if the table of [w] did not. *)
Definition sop_grows : relation World :=
  fun w w' =>
    (exists news, tabSOP w' = tabSOP w ++ news)
    /\ (NoDup (sop_uids_of w) -> NoDup (sop_uids_of w')).

(** An IAN from one AE, then a second IAN and a completed UPS that name
    the same instance from elsewhere. *)
Definition sighting_calls : list Call :=
  [CallIngestIan ian_payload None;
   CallReceiveIan (Some "IAN-2") (Some "OtherAE") (Some "1.2.3.4") (Some "Available");
   CallCreateUps (Some "UPS-1") None (Some "COMPLETED") None (Some "1.2.3.4")].

(** What an idempotency check depends on: the table of the entity and the
    state of the store. *)
Definition ian_view (w : World) : list IAN.doc * option string := (tabIAN w, db_fault w).

Definition pps_view (w : World) : list PPS.doc * option string := (tabPPS w, db_fault w).

Definition ups_view (w : World) : list UPS.doc * option string := (tabUPS w, db_fault w).

Definition ian_auth_view (w : World) : list IAN.doc * option string * option string :=
  (tabIAN w, db_fault w, conf_secret w).

Definition pps_auth_view (w : World) : list PPS.doc * option string * option string :=
  (tabPPS w, db_fault w, conf_secret w).

(** The fields of a stored Message that a response carries. *)
Definition data_of (row : Message.doc) : ResponseData :=
  {| data_message_id := Message.message_id row;
     data_status := Message.status row;
     data_correlation_id := Message.correlation_id row |}.

(** Headers that sign the body [dumps0] produces, under the secret [key]. *)
Definition dumps0_headers : Headers :=
  {[ "X-Signature" :=
       "sha256=" +:+ hexdigest "key" (encode_utf8 (dumps0 (JDict ian_payload))) ]}.

Definition hl7_request : Request :=
  {| get_data := SAMPLE_HL7; content_type_header := Some "text/plain" |}.

(* --------------------------------------------------------------------- *)
(** ** Notions for the further properties *)
(* --------------------------------------------------------------------- *)

(** The tables, the journal and the job queue: what a refused request must
    leave alone. *)
Definition store_view (w : World)
  : list IAN.doc * list SOP.doc * list PPS.doc * list SPS.doc * list UPS.doc
    * list Message.doc * list DbWrite * list Job :=
  (tabIAN w, tabSOP w, tabPPS w, tabSPS w, tabUPS w, tabMessage w, journal w, jobs w).

(** Everything but the SOPInstance table and the journal. *)
Definition outside_sop (w : World)
  : option string * option string * string * nat * list IAN.doc * list PPS.doc
    * list SPS.doc * list UPS.doc * list Message.doc * list Job * list (string * string) :=
  (conf_secret w, db_fault w, clock w, hash_ctr w, tabIAN w, tabPPS w, tabSPS w,
   tabUPS w, tabMessage w, jobs w, error_log w).

(** Headers that carry no signature. *)
Definition unsigned_headers : Headers := {[ "Content-Type" := "application/json" ]}.

(** The exception of an unreachable store. *)
Definition is_database_error (e : Exc) : Prop :=
  match e with DatabaseError _ => True | _ => False end.


(** What the creation of an IAN, a PPS or a UPS never touches. *)
Definition bystanders (w : World)
  : list SPS.doc * list Message.doc * list (string * string) * option string * string :=
  (tabSPS w, tabMessage w, error_log w, conf_secret w, clock w).

(** What the background workers never touch. *)
Definition outside_worker (w : World)
  : list IAN.doc * list PPS.doc * list UPS.doc * list Message.doc * list Job
    * list (string * string) :=
  (tabIAN w, tabPPS w, tabUPS w, tabMessage w, jobs w, error_log w).

(** A SOPInstance record without metadata. *)
Definition bare (d : SOP.doc) : Prop :=
  SOP.stored_at_aet d = VNone /\ SOP.patient_id d = VNone /\ SOP.accession_number d = VNone.

(** A store with one Scheduled Procedure Step and one Performed Procedure
    Step that names two instances, one of them twice. *)
Definition worker_world : World :=
  set_tabPPS
    [{| PPS.pps_uid := VStr "MPPS-0002"; PPS.sps := VStr "SPS-0001";
        PPS.rp := VStr ""; PPS.actor := VStr "CT-Scanner-1";
        PPS.status := VStr "COMPLETED";
        PPS.instance_uids := VStr "1.2.3.4, 1.2.3.5,,1.2.3.4";
        PPS.created_at := VStr "2025-11-14 16:00:00" |}]
    (sps_world "Scheduled").

(** The identifiers of a table, in table order. *)
Definition keys_of (D : Type) `{DocType D} (w : World) : list PyVal :=
  List.map key (tab (D := D) w).

(** [keys_grow D w w']: the table of [D] in [w'] starts with the table in
    [w], and holds no identifier twice if the table in [w] did not. *)
Definition keys_grow (D : Type) `{DocType D} : relation World :=
  fun w w' =>
    (exists news, tab (D := D) w' = tab w ++ news)
    /\ (NoDup (keys_of D w) -> NoDup (keys_of D w')).

(** An IAN, a PPS and a UPS submitted twice, in between each other, and
    the worker of the PPS. *)
Definition resubmitted_calls : list Call :=
  [CallIngestIan ian_payload None;
   CallCreatePps (Some "MPPS-0001") None None None (Some "COMPLETED") (Some "1.2.3.4");
   CallReceiveIan (Some "IAN-20251114-0001") None None (Some "Available");
   CallCreateUps (Some "UPS-1") None (Some "SCHEDULED") None None;
   CallIngestMpps mpps_payload None;
   CallProcessPps (VStr "MPPS-0001");
   CallCreateUps (Some "UPS-1") None (Some "COMPLETED") None (Some "1.2.3.4")].

(** Whether the gateway reads the body as JSON, and whether a body read as
    JSON fails to be a JSON object. *)
Definition reads_json (req : Request) : bool :=
  contains "application/json"
    (lower (default "" (Py.or_ (content_type_header req) (Some "")))).

Definition bad_json (json_loads : string -> option Json) (req : Request) : bool :=
  reads_json req
  && match json_loads (get_data req) with
     | Some (JDict _) => false
     | _ => true
     end.

(** What normalising a request never touches: everything but the hash
    counter. *)
Definition outside_hash (w : World)
  : list (string * string) * option string * option string * string
    * (list IAN.doc * list SOP.doc * list PPS.doc * list SPS.doc * list UPS.doc
       * list Message.doc * list DbWrite * list Job) :=
  (error_log w, conf_secret w, db_fault w, clock w, store_view w).

(** A message written out: the fields of a segment joined by pipes, the
    segments joined by carriage returns. *)
Definition render_segment (fields : list string) : string :=
  String.concat "|" fields.

Definition render_message (segs : list (list string)) : string :=
  String.concat (String Py.CR EmptyString) (List.map render_segment segs).

(** [c not in s] *)
Fixpoint lacks (c : ascii) (s : string) : bool :=
  match s with
  | EmptyString => true
  | String d s' => negb (Ascii.eqb d c) && lacks c s'
  end.

(** A field without separators, and a segment of such fields under a
    non-empty name. *)
Definition plain_field (f : string) : bool :=
  lacks "|"%char f && lacks Py.CR f && lacks Py.LF f.

Definition plain_segment (fields : list string) : bool :=
  match fields with
  | [] => false
  | name :: _ => Py.nonempty name && forallb plain_field fields
  end.

(** Field [i] of the first segment named [name], if that segment has more
    than [n] fields. *)
Definition field_of (name : string) (segs : list (list string)) (n i : nat) : option string :=
  match List.filter (fun parts => bool_decide (List.hd EmptyString parts = name)) segs with
  | parts :: _ => if (n <? length parts)%nat then parts !! i else None
  | [] => None
  end.

(** An order message as a list of segments. *)
Definition order_segments : list (list string) :=
  [["MSH"; "^~\&"; "SendingApp"; "SendingFac"; "ReceivingApp"; "ReceivingFac";
    "202511121130"; ""; "ORM^O01"; "MSG00001"; "P"; "2.5.1"];
   ["PID"; "1"; ""; "123456^^^Hospital^MR"; ""; "Doe^John"];
   ["ORC"; "NW"; "ORD448"];
   ["PID"; "2"; ""; "999"]].

(** The text does not start with a line feed. *)
Definition no_leading_lf (t : string) : Prop :=
  match t with
  | String d _ => Ascii.eqb d Py.LF = false
  | EmptyString => True
  end.

(** The six tables of the store. *)
Definition tables_view (w : World)
  : list IAN.doc * list SOP.doc * list PPS.doc * list SPS.doc * list UPS.doc
    * list Message.doc :=
  (tabIAN w, tabSOP w, tabPPS w, tabSPS w, tabUPS w, tabMessage w).

(** [sps_advances d d']: the step [d'] is the step [d], with the status it
    had or with the status Completed. *)
Definition sps_advances (d d' : SPS.doc) : Prop :=
  SPS.sps_uid d' = SPS.sps_uid d
  /\ (SPS.status d' = SPS.status d \/ SPS.status d' = VStr "Completed").

(** [sps_monotone w w']: the Scheduled Procedure Steps of [w'] are those of
    [w], row by row, each one advanced or left alone. *)
Definition sps_monotone : relation World :=
  fun w w' => Forall2 sps_advances (tabSPS w) (tabSPS w').

(** A lower-case hexadecimal digit. *)
Definition is_lower_hex (c : ascii) : bool :=
  let n := nat_of_ascii c in
  ((48 <=? n) && (n <=? 57) || (97 <=? n) && (n <=? 102))%nat.

Fixpoint all_chars (p : ascii -> bool) (s : string) : bool :=
  match s with
  | EmptyString => true
  | String c s' => p c && all_chars p s'
  end.

(* ===================================================================== *)
(** * Properties *)
(* ===================================================================== *)

(** ** The HL7 v2 normaliser *)

(** C2, as the code behaves.  When hl7apy is absent, or present and raising
    on the text, the sample message of the test normalises to message id
    MSG00001, message type ORM^O01 and both actors, but its correlation id
    is NW, the field at split index 1 of the ORC segment (ORC-1), and not
    ORD448, the field at index 2 (ORC-2) that the test asserts. *)
Theorem sample_hl7_correlation_is_orc_1 :
  forall (avail : bool) (Hl7 : Type) (parse_message : string -> option Hl7)
         (attr_er7 : Hl7 -> string -> string -> option string)
         (segment_er7 : Hl7 -> string -> string -> SegLookup) (w : World),
    let expected raw :=
      (Ret {| message_id := VStr "MSG00001";
              message_type := VStr "ORM^O01";
              payload := VStr raw;
              source_actor := VStr "SendingApp|SendingFac";
              destination_actor := VStr "ReceivingApp|ReceivingFac";
              correlation_id := VStr "NW" |}, w) in
    normalize_hl7_v2 false Hl7 parse_message attr_er7 segment_er7 SAMPLE_HL7 w
      = expected SAMPLE_HL7
    /\ normalize_hl7_v2 false Hl7 parse_message attr_er7 segment_er7 SAMPLE_HL7_STD w
      = expected SAMPLE_HL7_STD
    /\ normalize_hl7_v2 avail Hl7 (fun _ => None) attr_er7 segment_er7 SAMPLE_HL7 w
      = expected SAMPLE_HL7
    /\ item (first_seg (default [] (build_seg_map
               (Py.split_lines (Py.strip SAMPLE_HL7_STD)) !! "ORC"))) 2
      = Some "ORD448".
Proof.
  intros avail Hl7 parse_message attr_er7 segment_er7 w expected.
  assert (Hfb : forall raw f,
             fallback_fields raw = f -> Py.truthy (fb_message_id f) = true ->
             normalize_fallback raw w
             = (Ret {| message_id := of_opt (fb_message_id f);
                       message_type := of_opt (Py.or_ (fb_message_type f) (Some "UNKNOWN"));
                       payload := VStr raw;
                       source_actor := of_opt (fb_source_actor f);
                       destination_actor := of_opt (fb_destination_actor f);
                       correlation_id := of_opt (fb_correlation_id f) |}, w)).
  { intros raw f <- Ht. unfold normalize_fallback. rewrite Ht. reflexivity. }
  set (f := {| fb_message_type := Some "ORM^O01";
               fb_message_id := Some "MSG00001";
               fb_source_actor := Some "SendingApp|SendingFac";
               fb_destination_actor := Some "ReceivingApp|ReceivingFac";
               fb_correlation_id := Some "NW" |}).
  assert (Hf1 : fallback_fields SAMPLE_HL7 = f) by (vm_compute; reflexivity).
  assert (Hf2 : fallback_fields SAMPLE_HL7_STD = f) by (vm_compute; reflexivity).
  assert (H1 : normalize_fallback SAMPLE_HL7 w = expected SAMPLE_HL7)
    by (rewrite (Hfb _ _ Hf1); reflexivity).
  assert (H2 : normalize_fallback SAMPLE_HL7_STD w = expected SAMPLE_HL7_STD)
    by (rewrite (Hfb _ _ Hf2); reflexivity).
  split; [exact H1 | split; [exact H2 | split]].
  - destruct avail; exact H1.
  - vm_compute. reflexivity.
Qed.

Lemma first_longer_than_length (segs : list Fields) (n : nat) :
  first_longer_than segs n = true -> (n <? length (first_seg segs))%nat = true.
Proof.
  destruct segs as [|s0 segs]; [discriminate|].
  destruct s0; [discriminate|]. exact (fun H => H).
Qed.

Lemma fallback_correlation_dead_branch (seg_map : gmap string (list Fields)) :
  fallback_correlation seg_map = fallback_correlation_no_index_2 seg_map.
Proof.
  unfold fallback_correlation, fallback_correlation_no_index_2.
  cbv zeta. destruct (first_longer_than _ 1); [reflexivity|].
  destruct (first_longer_than _ 3) eqn:H3; [|reflexivity].
  rewrite (first_longer_than_length _ _ H3). reflexivity.
Qed.

(** C8, as the code behaves.  The branch of the naive split that reads PID
    index 2 is never taken: it sits under the test that the PID segment
    has more than three fields.  A message whose PID segment has three
    fields and no ORC segment gets no correlation id, although its PID
    index 2 holds a value. *)
Theorem pid_index_2_fallback_is_dead :
  (forall seg_map, fallback_correlation seg_map = fallback_correlation_no_index_2 seg_map)
  /\ fb_correlation_id (fallback_fields SHORT_PID_HL7) = None
  /\ (forall w, exists m,
        normalize_fallback SHORT_PID_HL7 w = (Ret m, w)
        /\ message_id m = VStr "MSG00002"
        /\ correlation_id m = VNone)
  /\ build_seg_map (Py.split_lines (Py.strip SHORT_PID_HL7)) !! "PID"
     = Some [[Some "PID"; Some "1"; Some "PAT7"]].
Proof.
  split; [|split; [|split]].
  - exact fallback_correlation_dead_branch.
  - vm_compute. reflexivity.
  - intros w. eexists. split; [|split].
    + unfold normalize_fallback.
      replace (fallback_fields SHORT_PID_HL7) with
        {| fb_message_type := Some "ORM^O01";
           fb_message_id := Some "MSG00002";
           fb_source_actor := Some "SendingApp|SendingFac";
           fb_destination_actor := Some "ReceivingApp|ReceivingFac";
           fb_correlation_id := None |} by (vm_compute; reflexivity).
      reflexivity.
    + reflexivity.
    + reflexivity.
  - vm_compute. reflexivity.
Qed.

Lemma seg_map_fold_lookup (m : gmap string (list Fields)) (segments : list string)
  (name : string) :
  foldl seg_map_add m segments !! name =
  match rows_named name segments with
  | [] => m !! name
  | rows => Some (default [] (m !! name) ++ List.map (fmap Some) rows)
  end.
Proof.
  revert m. induction segments as [|seg segments IH]; intros m; [reflexivity|].
  cbn [foldl]. rewrite IH. unfold rows_named. cbn [List.filter]. unfold seg_map_add.
  destruct (Py.nonempty seg); [|reflexivity].
  cbn [List.map List.filter]. cbv zeta. rewrite lookup_insert.
  destruct (decide (List.hd EmptyString (Py.split "|"%char seg) = name)) as [E|E].
  - rewrite bool_decide_true by exact E. rewrite E. cbn [default from_option id].
    destruct (List.filter _ _) as [|r rs].
    + cbn [List.map]. reflexivity.
    + cbn [List.map]. rewrite <- app_assoc. reflexivity.
  - rewrite bool_decide_false by exact E. reflexivity.
Qed.

Lemma build_seg_map_lookup (segments : list string) (name : string) :
  build_seg_map segments !! name =
  match rows_named name segments with
  | [] => None
  | rows => Some (List.map (fmap Some) rows)
  end.
Proof.
  unfold build_seg_map. rewrite seg_map_fold_lookup, lookup_empty.
  destruct (rows_named name segments); reflexivity.
Qed.

Lemma split_not_nil (sep : ascii) (s : string) : Py.split sep s <> [].
Proof.
  induction s as [|c s IH]; cbn; [discriminate|].
  destruct (Ascii.eqb c sep); [discriminate|].
  destruct (Py.split sep s); [contradiction | discriminate].
Qed.

Lemma rows_named_not_nil (name : string) (segments : list string) (parts : list string) :
  In parts (rows_named name segments) -> parts <> [].
Proof.
  unfold rows_named. intros H. apply filter_In in H as [H _].
  apply in_map_iff in H as (seg & <- & _). apply split_not_nil.
Qed.

Lemma item_fmap (parts : list string) (i : nat) : item (Some <$> parts) i = parts !! i.
Proof. unfold item. rewrite list_lookup_fmap. destruct (parts !! i); reflexivity. Qed.

Lemma first_longer_than_fmap (parts : list string) (rows : list Fields) (n : nat) :
  parts <> [] ->
  first_longer_than ((Some <$> parts) :: rows) n = (n <? length parts)%nat.
Proof.
  intros Hne. destruct parts as [|p ps]; [contradiction|].
  cbn [first_longer_than fmap list_fmap length]. rewrite length_fmap. reflexivity.
Qed.

(** One test of the naive split on the segments named [name], with the
    default [[[None]]] it falls back on. *)
Lemma first_longer_than_lookup (segments : list string) (name : string) (n i : nat) :
  (let segs := default [[None]] (build_seg_map segments !! name) in
   if first_longer_than segs n then item (first_seg segs) i else None)
  = first_field name segments n i.
Proof.
  cbv zeta. unfold first_field. rewrite build_seg_map_lookup.
  destruct (rows_named name segments) as [|parts rows] eqn:Hrows.
  - cbn. destruct n; [|reflexivity]. destruct i; reflexivity.
  - assert (Hne : parts <> [])
      by (apply (rows_named_not_nil name segments); rewrite Hrows; left; reflexivity).
    cbn [default from_option id List.map first_seg List.hd].
    change (fmap Some parts) with (Some <$> parts).
    rewrite (first_longer_than_fmap parts _ n Hne), item_fmap. reflexivity.
Qed.

Lemma fallback_msh_lookup (segments : list string) (i : nat) :
  (let msh := fallback_msh (build_seg_map segments) in
   if match msh with [] => false | _ => true end then item_if_longer msh i else None)
  = first_field "MSH" segments i i.
Proof.
  cbv zeta. unfold fallback_msh, first_field. rewrite build_seg_map_lookup.
  destruct (rows_named "MSH" segments) as [|parts rows] eqn:Hrows; [reflexivity|].
  assert (Hne : parts <> [])
    by (apply (rows_named_not_nil "MSH" segments); rewrite Hrows; left; reflexivity).
  cbn [List.map]. change (fmap Some parts) with (Some <$> parts).
  unfold item_if_longer. rewrite length_fmap, item_fmap.
  destruct parts as [|p ps]; [contradiction | reflexivity].
Qed.

(** The naive split consults the first MSH, the first ORC and the first
    PID segment only: message type, message id and the actors are fields
    8, 9 and 2 to 5 of the first MSH segment, and the correlation id is
    field 1 of the first ORC segment when that segment has more than one
    field, else field 3 of the first PID segment when that one has more
    than three. *)
Lemma fallback_reads_first_segments (raw : string) :
  let segments := Py.split_lines (Py.strip raw) in
  let f := fallback_fields raw in
  fb_message_type f = first_field "MSH" segments 8 8
  /\ fb_message_id f = first_field "MSH" segments 9 9
  /\ fb_source_actor f
     = combine (first_field "MSH" segments 2 2) (first_field "MSH" segments 3 3)
  /\ fb_destination_actor f
     = combine (first_field "MSH" segments 4 4) (first_field "MSH" segments 5 5)
  /\ fb_correlation_id f
     = match first_field "ORC" segments 1 1 with
       | Some v => Some v
       | None => first_field "PID" segments 3 3
       end.
Proof.
  intros segments f. subst f. unfold fallback_fields. fold segments.
  cbn [fb_message_type fb_message_id fb_source_actor fb_destination_actor
       fb_correlation_id].
  pose proof (fallback_msh_lookup segments) as Hmsh. cbv zeta in Hmsh.
  split; [apply Hmsh|]. split; [apply Hmsh|].
  split.
  { rewrite <- (Hmsh 2%nat), <- (Hmsh 3%nat).
    destruct (fallback_msh (build_seg_map segments)); reflexivity. }
  split.
  { rewrite <- (Hmsh 4%nat), <- (Hmsh 5%nat).
    destruct (fallback_msh (build_seg_map segments)); reflexivity. }
  rewrite fallback_correlation_dead_branch.
  unfold fallback_correlation_no_index_2. cbv zeta.
  rewrite <- (first_longer_than_lookup segments "PID" 3 3).
  rewrite <- (first_longer_than_lookup segments "ORC" 1 1). cbv zeta.
  destruct (first_longer_than _ 1) eqn:Hl; [|reflexivity].
  destruct (item _ 1) eqn:Hi; [reflexivity|].
  exfalso. revert Hl Hi. rewrite build_seg_map_lookup.
  destruct (rows_named "ORC" segments) as [|parts rows] eqn:Hrows; [discriminate|].
  assert (Hne : parts <> [])
    by (apply (rows_named_not_nil "ORC" segments); rewrite Hrows; left; reflexivity).
  cbn [default from_option id List.map first_seg List.hd].
  change (fmap Some parts) with (Some <$> parts).
  rewrite (first_longer_than_fmap parts _ 1 Hne), item_fmap.
  intros Hl Hi. apply Nat.ltb_lt in Hl. apply lookup_ge_None in Hi. lia.
Qed.

(* ===================================================================== *)
(** ** Reasoning about calls *)
(* ===================================================================== *)

Lemma bind_run {A B : Type} (m : M A) (k : A -> M B) (w : World) :
  (m ≫= k) w =
  match m w with
  | (Ret a, w') => k a w'
  | (Raise e, w') => (Raise e, w')
  end.
Proof. reflexivity. Qed.

Lemma db_guard_run (w : World) :
  db_guard w =
  match db_fault w with
  | Some msg => (Raise (DatabaseError msg), w)
  | None => (Ret tt, w)
  end.
Proof. reflexivity. Qed.

Lemma get_all_run (D : Type) `{DocType D} (k : PyVal) (w : World) :
  get_all D k w =
  match db_fault w with
  | Some msg => (Raise (DatabaseError msg), w)
  | None => (Ret (rows_with k (tab w)), w)
  end.
Proof. unfold get_all. rewrite bind_run, db_guard_run. destruct (db_fault w); reflexivity. Qed.

Lemma insert_run {D : Type} `{DocType D} (d : D) (w : World) :
  insert d w =
  match db_fault w with
  | Some msg => (Raise (DatabaseError msg), w)
  | None => (Ret tt, set_journal (journal w ++ [Insert (doctype (D := D)) (key d)])
                       (set_tab (tab w ++ [d]) w))
  end.
Proof. unfold insert. rewrite bind_run, db_guard_run. destruct (db_fault w); reflexivity. Qed.

Lemma now_if_run (cond : bool) (w : World) :
  now_if cond w = (Ret (if cond then VStr (clock w) else VNone), w).
Proof. destruct cond; reflexivity. Qed.

#[global] Instance unchanged_preorder {B : Type} (f : World -> B) : PreOrder (unchanged f).
Proof. split; unfold unchanged; [intros w; reflexivity | intros x y z; congruence]. Qed.

Section steps.

Context (R : relation World) `{!PreOrder R}.

Lemma steps_ret {A : Type} (a : A) : steps R (mret a).
Proof. intros w. reflexivity. Qed.

Lemma steps_pass : steps R pass.
Proof. intros w. reflexivity. Qed.

Lemma steps_raise {A : Type} (e : Exc) : steps R (raise (A := A) e).
Proof. intros w. reflexivity. Qed.

Lemma steps_throw {A : Type} (msg : string) : steps R (throw (A := A) msg).
Proof. intros w. reflexivity. Qed.

Lemma steps_throw_forbidden {A : Type} (msg : string) :
  steps R (throw_forbidden (A := A) msg).
Proof. intros w. reflexivity. Qed.

Lemma steps_bind {A B : Type} (m : M A) (k : A -> M B) :
  steps R m -> (forall a, steps R (k a)) -> steps R (m ≫= k).
Proof.
  intros Hm Hk w. rewrite bind_run. specialize (Hm w).
  destruct (m w) as [[a|e] w1]; cbn in *; [|exact Hm].
  etransitivity; [exact Hm | apply Hk].
Qed.

Lemma steps_try_except {A : Type} (body : M A) (handler : Exc -> M A) :
  steps R body -> (forall e, steps R (handler e)) -> steps R (try_except body handler).
Proof.
  intros Hb Hh w. unfold try_except. specialize (Hb w).
  destruct (body w) as [[a|e] w1]; cbn in *; [exact Hb|].
  etransitivity; [exact Hb | apply Hh].
Qed.

Lemma steps_for_each {A : Type} (l : list A) (body : A -> M unit) :
  (forall x, steps R (body x)) -> steps R (for_each l body).
Proof.
  intros Hb. induction l as [|x xs IH]; cbn [for_each].
  - apply steps_pass.
  - apply steps_bind; [apply Hb | intros _; exact IH].
Qed.

Lemma steps_get_world : steps R get_world.
Proof. intros w. reflexivity. Qed.

Lemma steps_now : steps R now.
Proof. intros w. reflexivity. Qed.

Lemma steps_now_if (cond : bool) : steps R (now_if cond).
Proof. intros w. rewrite now_if_run. reflexivity. Qed.

Lemma steps_db_guard : steps R db_guard.
Proof. intros w. rewrite db_guard_run. destruct (db_fault w); reflexivity. Qed.

Lemma steps_modify (f : World -> World) :
  (forall w, R w (f w)) -> steps R (modify f).
Proof. intros Hf w. apply Hf. Qed.

Lemma steps_get_all (D : Type) `{DocType D} (k : PyVal) : steps R (get_all D k).
Proof. intros w. rewrite get_all_run. destruct (db_fault w); reflexivity. Qed.

Lemma steps_get_doc (D : Type) `{DocType D} (k : PyVal) : steps R (get_doc D k).
Proof.
  unfold get_doc. apply steps_bind; [apply steps_db_guard|]. intros _.
  apply steps_bind; [apply steps_get_world|]. intros w.
  destruct (rows_with k (tab w)); [apply steps_raise | apply steps_ret].
Qed.

Lemma steps_insert {D : Type} `{DocType D} (d : D) :
  (forall w, R w (set_journal (journal w ++ [Insert (doctype (D := D)) (key d)])
                     (set_tab (tab w ++ [d]) w))) ->
  steps R (insert d).
Proof.
  intros Hw. unfold insert. apply steps_bind; [apply steps_db_guard|].
  intros _. apply steps_modify. exact Hw.
Qed.

Lemma steps_save {D : Type} `{DocType D} (k : PyVal) (d : D) :
  (forall w, R w (set_journal (journal w ++ [Save (doctype (D := D)) k])
                     (set_tab (replace_first k d (tab w)) w))) ->
  steps R (save k d).
Proof.
  intros Hw. unfold save. apply steps_bind; [apply steps_db_guard|].
  intros _. apply steps_modify. exact Hw.
Qed.

Lemma steps_log_error (message title : string) :
  (forall w l, R w (set_error_log l w)) -> steps R (log_error message title).
Proof. intros Hw. apply steps_modify. intros w. apply Hw. Qed.

Lemma steps_enqueue (meth : string) (arg : PyVal) :
  (forall w l, R w (set_jobs l w)) -> steps R (enqueue meth arg).
Proof. intros Hw. apply steps_modify. intros w. apply Hw. Qed.

Lemma steps_generate_hash :
  (forall w n, R w (set_hash_ctr n w)) -> steps R generate_hash.
Proof. intros Hw w. apply Hw. Qed.

End steps.

(** Breaks a goal [steps R m] down along the structure of [m], trying
    [extra] on every part first; what is left are the conditions on the
    writes. *)
Ltac steps_with extra :=
  repeat first
    [ match goal with |- PreOrder _ => typeclasses eauto end
    | match goal with |- forall _ : _, steps _ _ => intros ? end
    | extra
    | apply steps_pass | apply steps_ret | apply steps_raise | apply steps_throw
    | apply steps_throw_forbidden | apply steps_now | apply steps_now_if
    | apply steps_get_world
    | apply steps_db_guard | apply steps_get_all | apply steps_get_doc
    | apply steps_insert | apply steps_save | apply steps_log_error
    | apply steps_enqueue | apply steps_generate_hash
    | apply steps_try_except | apply steps_for_each | apply steps_bind
    | match goal with
      | |- steps _ (match ?x with _ => _ end) => destruct x
      | |- steps _ (if ?b then _ else _) => destruct b
      end ].
Ltac steps_go := steps_with fail.

Lemma pass_run (w : World) : pass w = (Ret tt, w).
Proof. reflexivity. Qed.

Lemma ret_run {A : Type} (a : A) (w : World) : (mret a : M A) w = (Ret a, w).
Proof. reflexivity. Qed.

(** Runs a call on a world as far as its first undecided test. *)
Ltac run_step :=
  first
    [ rewrite bind_run | rewrite get_all_run | rewrite insert_run
    | rewrite now_if_run | rewrite pass_run | rewrite ret_run
    | match goal with H : db_fault _ = _ |- _ => rewrite H end ].
Ltac run := repeat (run_step; cbv beta iota).

(** ** Unified Procedure Steps *)

(** The loop of [create_ups] over the instance UIDs leaves the UPS table
    and the clock alone. *)
Lemma create_ups_loop_frame {B : Type} (f : World -> B) (uids : list string) :
  (forall w l, f (set_tabSOP l w) = f w) ->
  (forall w l, f (set_journal l w) = f w) ->
  steps (unchanged f)
    (for_each uids (fun uid =>
       existing_si ← get_all SOP.doc (VStr uid);
       match existing_si with
       | _ :: _ => pass
       | [] =>
           created ← now;
           insert {| SOP.sop_uid := VStr uid;
                     SOP.stored_at_aet := VNone;
                     SOP.patient_id := VNone;
                     SOP.accession_number := VNone;
                     SOP.created_at := created |}
       end)).
Proof.
  intros Hsop Hj. steps_go.
  intros w. unfold unchanged. cbn. rewrite Hj, Hsop. reflexivity.
Qed.

(** C7.  A Unified Procedure Step that [create_ups] creates has its start
    time set, to the current time, exactly when the status is IN-PROGRESS,
    and its end time set exactly when the status is COMPLETED, FAILED or
    CANCELLED; under any other status both are None. *)
Theorem create_ups_stamps_times
  (ups_id rp_id ups_status actor instance_uids : option string)
  (w w' : World) (r : Reply) :
  create_ups ups_id rp_id ups_status actor instance_uids w = (Ret r, w') ->
  reply_status r = "created" ->
  exists d,
    tabUPS w' = tabUPS w ++ [d]
    /\ UPS.ups_id d = of_opt ups_id
    /\ UPS.ups_status d = of_opt ups_status
    /\ (UPS.start_time d <> VNone <-> ups_status = Some "IN-PROGRESS")
    /\ (UPS.end_time d <> VNone <->
          ups_status = Some "COMPLETED" \/ ups_status = Some "FAILED"
          \/ ups_status = Some "CANCELLED")
    /\ (UPS.start_time d = VNone \/ UPS.start_time d = VStr (clock w))
    /\ (UPS.end_time d = VNone \/ UPS.end_time d = VStr (clock w)).
Proof.
  unfold create_ups. rewrite bind_run.
  destruct (Py.truthy ups_id); cbn -[get_all for_each]; [|discriminate].
  run. destruct (db_fault w) eqn:Hfault; [discriminate|].
  destruct (rows_with _ _) as [|x xs]; [|intros [= <- <-]; discriminate].
  set (loop := if _ && _ then _ else pass).
  assert (Hloop : steps (unchanged tabUPS) loop).
  { subst loop. destruct (_ && _); [|steps_go].
    apply create_ups_loop_frame; intros; reflexivity. }
  run.
  match goal with |- context [loop ?w1] =>
    specialize (Hloop w1); destruct (loop w1) as [[[]|e] w2] end;
    [|discriminate].
  intros [= <- <-] _. unfold unchanged in Hloop. cbn in Hloop.
  eexists. split; [exact Hloop|]. cbn.
  split; [reflexivity|]. split; [reflexivity|].
  unfold is_terminal.
  repeat split; intros; repeat case_bool_decide; cbn in *;
    try congruence; try tauto; auto.
Qed.

Lemma create_ups_stamps_times_witness :
  exists d,
    tabUPS (snd (create_ups (Some "UPS-1") None (Some "IN-PROGRESS") None (Some "1.2.3")
                   empty_world)) = [] ++ [d]
    /\ UPS.ups_id d = VStr "UPS-1"
    /\ UPS.ups_status d = VStr "IN-PROGRESS"
    /\ (UPS.start_time d <> VNone <-> Some "IN-PROGRESS" = Some "IN-PROGRESS")
    /\ (UPS.end_time d <> VNone <->
          Some "IN-PROGRESS" = Some "COMPLETED" \/ Some "IN-PROGRESS" = Some "FAILED"
          \/ Some "IN-PROGRESS" = Some "CANCELLED")
    /\ (UPS.start_time d = VNone \/ UPS.start_time d = VStr "2025-11-14 16:00:00")
    /\ (UPS.end_time d = VNone \/ UPS.end_time d = VStr "2025-11-14 16:00:00").
Proof.
  exact (create_ups_stamps_times (Some "UPS-1") None (Some "IN-PROGRESS") None
           (Some "1.2.3") empty_world _
           {| reply_status := "created"; reply_id := VStr "UPS-1" |}
           eq_refl eq_refl).
Defined.

(** ** Signature verification *)

Lemma prefix_app (p s : string) :
  String.prefix p s = true <-> exists r, s = p +:+ r.
Proof.
  revert s. induction p as [|c p IH]; intros s.
  - split; [intros _; exists s; reflexivity | intros _; destruct s; reflexivity].
  - destruct s as [|d s]; cbn; [split; [discriminate | intros [r Hr]; discriminate]|].
    destruct (ascii_dec c d) as [->|Hne].
    + rewrite IH. split; intros [r Hr]; exists r.
      * rewrite Hr. reflexivity.
      * change (String d s = String d (p +:+ r)) in Hr. congruence.
    + split; [discriminate|]. intros [r Hr].
      change (String d s = String c (p +:+ r)) in Hr. congruence.
Qed.

Lemma hex_digits_ascii (b : Byte.byte) :
  let n := nat_of_ascii (ascii_of_byte b) in
  (nat_of_ascii (hex_digit (n / 16)) <? 128)%nat
  && (nat_of_ascii (hex_digit (n mod 16)) <? 128)%nat = true
  /\ hex_digit (n / 16) <> "s"%char.
Proof. destruct b; vm_compute; (split; [reflexivity | discriminate]). Qed.

Lemma is_ascii_hex (bs : list Byte.byte) : is_ascii (hex bs) = true.
Proof.
  induction bs as [|b bs IH]; [reflexivity|].
  destruct (hex_digits_ascii b) as [H _]. cbv zeta in H.
  cbn [hex is_ascii]. apply andb_true_iff in H as [H1 H2].
  rewrite H1, H2, IH. reflexivity.
Qed.

Lemma hex_no_sha256_prefix (bs : list Byte.byte) :
  Py.startswith (hex bs) "sha256=" = false.
Proof.
  destruct bs as [|b bs]; [reflexivity|].
  destruct (hex_digits_ascii b) as [_ H]. cbv zeta in H.
  unfold Py.startswith. cbn [hex String.prefix].
  destruct (ascii_dec _ _) as [E|_]; [|reflexivity].
  exfalso. apply H. symmetry. exact E.
Qed.

Lemma length_hex (bs : list Byte.byte) : String.length (hex bs) = (2 * length bs)%nat.
Proof. induction bs as [|b bs IH]; cbn [hex String.length length]; [reflexivity | lia]. Qed.

Lemma length_compress (h block : list N) :
  length h = 8%nat -> length (Sha256.compress h block) = 8%nat.
Proof.
  intros Hh. unfold Sha256.compress. rewrite length_zip_with, Hh. reflexivity.
Qed.

Lemma length_sha256 (msg : list N) : length (Sha256.sha256 msg) = 32%nat.
Proof.
  unfold Sha256.sha256. cbv zeta.
  assert (H : length (fold_left Sha256.compress
              (Sha256.blocks (length (Sha256.words (Sha256.pad msg)))
                 (Sha256.words (Sha256.pad msg))) Sha256.H0) = 8%nat).
  { generalize (Sha256.blocks (length (Sha256.words (Sha256.pad msg)))
                  (Sha256.words (Sha256.pad msg))).
    assert (H0 : length Sha256.H0 = 8%nat) by reflexivity.
    revert H0. generalize Sha256.H0.
    intros h Hh l. revert h Hh. induction l as [|b l IH]; intros h Hh; [exact Hh|].
    cbn [fold_left]. apply IH, length_compress, Hh. }
  destruct (fold_left _ _ _) as [|a [|b [|c [|d [|e [|f [|g [|i [|]]]]]]]]];
    try discriminate H.
  reflexivity.
Qed.

(** The hexadecimal digest has 64 characters. *)
Lemma length_hexdigest (secret : string) (body : list Byte.byte) :
  String.length (hexdigest secret body) = 64%nat.
Proof.
  unfold hexdigest, hmac_sha256, Sha256.to_bytes, Sha256.hmac.
  rewrite length_hex, length_map, length_sha256. reflexivity.
Qed.

Lemma signature_of_prefixed (d : string) : signature_of ("sha256=" +:+ d) = d.
Proof.
  unfold signature_of.
  replace (Py.startswith ("sha256=" +:+ d) "sha256=") with true; [reflexivity|].
  symmetry. apply prefix_app. exists d. reflexivity.
Qed.

Lemma signature_of_digest (v secret : string) (body : list Byte.byte) :
  signature_of v = hexdigest secret body
  <-> v = "sha256=" +:+ hexdigest secret body \/ v = hexdigest secret body.
Proof.
  unfold signature_of. split.
  - destruct (Py.startswith v "sha256=") eqn:Hp; [|right; assumption].
    apply prefix_app in Hp as [r ->].
    change (after_first_eq ("sha256=" +:+ r)) with r. intros ->. left. reflexivity.
  - intros [-> | ->].
    + apply signature_of_prefixed.
    + unfold hexdigest. rewrite hex_no_sha256_prefix. reflexivity.
Qed.

Lemma compare_digest_true (secret : string) (body : list Byte.byte) (sig : string) (w : World) :
  fst (compare_digest (hexdigest secret body) sig w) = Ret true
  <-> sig = hexdigest secret body.
Proof.
  unfold compare_digest, hexdigest. rewrite is_ascii_hex. cbn [andb].
  destruct (is_ascii sig) eqn:Ha.
  - cbn. destruct (String.eqb_spec (hex (hmac_sha256 (encode_utf8 secret) body)) sig) as [E|E].
    + split; [intros _; symmetry; exact E | reflexivity].
    + split; [discriminate | intros ->; contradiction].
  - cbn. split; [discriminate|]. intros ->. rewrite is_ascii_hex in Ha. discriminate.
Qed.

Lemma verify_signature_no_secret (headers : option Headers) (body : list Byte.byte) (w : World) :
  Py.truthy (conf_secret w) = false ->
  verify_signature headers body w = (Ret true, w).
Proof.
  unfold verify_signature. rewrite bind_run. cbn [get_world].
  destruct (conf_secret w) as [[|c s]|]; cbn; [reflexivity | discriminate | reflexivity].
Qed.

(** With a secret, the call runs [compare_digest] on the selected header,
    or reports that there is none. *)
Lemma verify_signature_secret (secret : string) (h : Headers) (body : list Byte.byte) (w : World) :
  conf_secret w = Some secret -> secret <> "" ->
  verify_signature (Some h) body w =
  let sig_header := Py.or_ (h !! "X-Signature") (h !! "X-Hub-Signature") in
  if Py.truthy sig_header then
    match compare_digest (hexdigest secret body) (signature_of (default "" sig_header)) w with
    | (Ret true, w') => (Ret true, w')
    | (Ret false, w') =>
        (Ret false, set_error_log (error_log w' ++
           [("Invalid signature for IAN/MPPS request", "frappe_dwf.signature")]) w')
    | (Raise e, w') => (Raise e, w')
    end
  else
    (Ret false, set_error_log (error_log w ++
       [("Missing signature header for IAN/MPPS request", "frappe_dwf.signature")]) w).
Proof.
  intros Hs Hne. unfold verify_signature. rewrite bind_run. cbn [get_world]. cbv beta iota zeta.
  rewrite Hs. destruct secret as [|c0 s0]; [contradiction|]. cbn [Py.nonempty negb].
  destruct (Py.truthy _); [|reflexivity].
  rewrite bind_run.
  destruct (compare_digest _ _ w) as [[[|]|e] w']; reflexivity.
Qed.

Lemma compare_digest_total (secret : string) (body : list Byte.byte) (sig : string) (w : World) :
  is_ascii sig = true ->
  compare_digest (hexdigest secret body) sig w
  = (Ret (String.eqb (hexdigest secret body) sig), w).
Proof.
  intros Ha. unfold compare_digest, hexdigest. rewrite is_ascii_hex, Ha. reflexivity.
Qed.

(** C3, amended.  Without a secret every call passes, whatever the headers,
    None included.  With a secret the call looks at one header, X-Signature
    when it is there and not empty and X-Hub-Signature otherwise, and
    returns true exactly when that value is the hexadecimal HMAC-SHA256 of
    the body under the secret, bare or after sha256=; with neither header
    it returns false, and a signature made for another body fails unless
    the two digests are the same. *)
Theorem verify_signature_checks_selected_header
  (headers : option Headers) (body : list Byte.byte) (w : World) :
  (Py.truthy (conf_secret w) = false ->
     verify_signature headers body w = (Ret true, w))
  /\ (forall secret h,
        conf_secret w = Some secret -> secret <> "" -> headers = Some h ->
        let sig_header := Py.or_ (h !! "X-Signature") (h !! "X-Hub-Signature") in
        let digest := hexdigest secret body in
        (fst (verify_signature headers body w) = Ret true <->
           exists v, sig_header = Some v /\ (v = "sha256=" +:+ digest \/ v = digest))
        /\ (Py.truthy sig_header = false ->
              fst (verify_signature headers body w) = Ret false)
        /\ (forall body0,
              sig_header = Some ("sha256=" +:+ hexdigest secret body0) ->
              hexdigest secret body0 <> digest ->
              fst (verify_signature headers body w) = Ret false)).
Proof.
  split; [apply verify_signature_no_secret|].
  intros secret h Hs Hne -> sig_header digest.
  rewrite (verify_signature_secret secret h body w Hs Hne).
  cbv zeta. fold sig_header.
  assert (Hcmp := fun sig => compare_digest_true secret body sig w).
  split; [|split].
  - destruct (Py.truthy sig_header) eqn:Ht.
    + destruct sig_header as [v|]; [|discriminate]. cbn [default from_option id].
      specialize (Hcmp (signature_of v)).
      rewrite signature_of_digest in Hcmp. fold digest in Hcmp |- *.
      destruct (compare_digest digest _ w) as [[[|]|e] w']; cbn in *.
      * split; [intros _|reflexivity]. exists v.
        split; [reflexivity|]. apply Hcmp. reflexivity.
      * split; [discriminate|]. intros (v' & [= <-] & H).
        apply Hcmp in H. discriminate.
      * split; [discriminate|]. intros (v' & [= <-] & H).
        apply Hcmp in H. discriminate.
    + cbn. split; [discriminate|]. intros (v & Hv & H). exfalso.
      rewrite Hv in Ht. cbn in Ht.
      pose proof (length_hexdigest secret body) as Hl. fold digest in Hl.
      destruct H as [-> | ->]; [discriminate|].
      destruct digest; discriminate.
  - intros ->. reflexivity.
  - intros body0 Hsel Hdiff. rewrite Hsel.
    replace (Py.truthy (Some ("sha256=" +:+ hexdigest secret body0))) with true
      by reflexivity.
    cbn [default from_option id]. rewrite signature_of_prefixed.
    rewrite compare_digest_total by apply is_ascii_hex.
    destruct (String.eqb_spec (hexdigest secret body) (hexdigest secret body0)) as [E|E].
    + exfalso. apply Hdiff. symmetry. exact E.
    + reflexivity.
Qed.

Lemma verify_signature_checks_selected_header_witness :
  fst (verify_signature (Some signed_headers) fox secret_world) = Ret true
  /\ fst (verify_signature (Some signed_headers) cog secret_world) = Ret false
  /\ fst (verify_signature (Some ∅) fox secret_world) = Ret false
  /\ verify_signature None fox empty_world = (Ret true, empty_world).
Proof.
  assert (Hkey : "key" <> "") by discriminate.
  split; [|split; [|split]].
  - destruct (verify_signature_checks_selected_header (Some signed_headers) fox secret_world)
      as [_ H].
    destruct (H "key" signed_headers eq_refl Hkey eq_refl) as [Hiff _].
    apply Hiff. exists ("sha256=" +:+ fox_digest).
    split; [vm_compute; reflexivity | left; vm_compute; reflexivity].
  - destruct (verify_signature_checks_selected_header (Some signed_headers) cog secret_world)
      as [_ H].
    destruct (H "key" signed_headers eq_refl Hkey eq_refl) as (_ & _ & Hmut).
    apply (Hmut fox); [vm_compute; reflexivity | vm_compute; discriminate].
  - destruct (verify_signature_checks_selected_header (Some ∅) fox secret_world)
      as [_ H].
    destruct (H "key" ∅ eq_refl Hkey eq_refl) as (_ & Hmiss & _).
    apply Hmiss. vm_compute. reflexivity.
  - destruct (verify_signature_checks_selected_header None fox empty_world) as [H _].
    apply H. reflexivity.
Defined.

(** C3 as stated fails where both headers are sent: X-Hub-Signature
    carries the right signature but X-Signature is the one compared. *)
Lemma verify_signature_both_headers_counterexample :
  ~ (fst (verify_signature (Some both_headers) fox secret_world) = Ret true
     <-> exists name v,
           (name = "X-Signature" \/ name = "X-Hub-Signature")
           /\ both_headers !! name = Some v
           /\ (v = "sha256=" +:+ hexdigest "key" fox \/ v = hexdigest "key" fox)).
Proof.
  intros [_ H].
  assert (Hf : fst (verify_signature (Some both_headers) fox secret_world) = Ret false)
    by (vm_compute; reflexivity).
  rewrite Hf in H. enough (Ret false = Ret (A := bool) true) by discriminate.
  apply H. exists "X-Hub-Signature", ("sha256=" +:+ fox_digest).
  split; [right; reflexivity|].
  split; [vm_compute; reflexivity | left; vm_compute; reflexivity].
Qed.

(** ** Which exceptions a call can raise *)

Section raises.

Context (P : Exc -> Prop).

Lemma raises_ret {A : Type} (a : A) : raises_only P (mret a).
Proof. intros w e [=]. Qed.

Lemma raises_pass : raises_only P pass.
Proof. intros w e [=]. Qed.

Lemma raises_raise {A : Type} (e : Exc) : P e -> raises_only P (raise (A := A) e).
Proof. intros He w e' [= <-]. exact He. Qed.

Lemma raises_throw {A : Type} (msg : string) :
  P (ValidationError msg) -> raises_only P (throw (A := A) msg).
Proof. apply raises_raise. Qed.

Lemma raises_bind {A B : Type} (m : M A) (k : A -> M B) :
  raises_only P m -> (forall a, raises_only P (k a)) -> raises_only P (m ≫= k).
Proof.
  intros Hm Hk w e. rewrite bind_run. specialize (Hm w).
  destruct (m w) as [[a|e'] w1]; cbn in *.
  - apply Hk.
  - intros [= <-]. apply Hm. reflexivity.
Qed.

Lemma raises_try_except {A : Type} (Q : Exc -> Prop) (body : M A) (handler : Exc -> M A) :
  raises_only Q body -> (forall e, Q e -> raises_only P (handler e)) ->
  raises_only P (try_except body handler).
Proof.
  intros Hb Hh w e. unfold try_except. specialize (Hb w).
  destruct (body w) as [[a|e'] w1]; cbn in *; [intros [=]|].
  apply Hh. apply Hb. reflexivity.
Qed.

Lemma raises_for_each {A : Type} (l : list A) (body : A -> M unit) :
  (forall x, raises_only P (body x)) -> raises_only P (for_each l body).
Proof.
  intros Hb. induction l as [|x xs IH]; cbn [for_each].
  - apply raises_pass.
  - apply raises_bind; [apply Hb | intros _; exact IH].
Qed.

Lemma raises_modify (f : World -> World) : raises_only P (modify f).
Proof. intros w e [=]. Qed.

Lemma raises_log_error (message title : string) : raises_only P (log_error message title).
Proof. apply raises_modify. Qed.

Lemma raises_enqueue (meth : string) (arg : PyVal) : raises_only P (enqueue meth arg).
Proof. apply raises_modify. Qed.

Lemma raises_now : raises_only P now.
Proof. intros w e [=]. Qed.

Lemma raises_now_if (cond : bool) : raises_only P (now_if cond).
Proof. intros w e. rewrite now_if_run. intros [=]. Qed.

Lemma raises_generate_hash : raises_only P generate_hash.
Proof. intros w e [=]. Qed.

Hypothesis database_errors : forall msg, P (DatabaseError msg).

Lemma raises_db_guard : raises_only P db_guard.
Proof.
  intros w e. rewrite db_guard_run. destruct (db_fault w); intros [= <-].
  apply database_errors.
Qed.

Lemma raises_get_all (D : Type) `{DocType D} (k : PyVal) : raises_only P (get_all D k).
Proof.
  intros w e. rewrite get_all_run. destruct (db_fault w); intros [= <-].
  apply database_errors.
Qed.

Lemma raises_insert {D : Type} `{DocType D} (d : D) : raises_only P (insert d).
Proof.
  intros w e. rewrite insert_run. destruct (db_fault w); intros [= <-].
  apply database_errors.
Qed.

Lemma raises_save {D : Type} `{DocType D} (k : PyVal) (d : D) : raises_only P (save k d).
Proof.
  unfold save. apply raises_bind; [apply raises_db_guard | intros _; apply raises_modify].
Qed.

Lemma raises_get_doc (D : Type) `{DocType D} (k : PyVal) :
  P (DoesNotExistError (doctype (D := D))) -> raises_only P (get_doc D k).
Proof.
  intros Hd. unfold get_doc. apply raises_bind; [apply raises_db_guard|]. intros _.
  apply raises_bind; [intros w e [=]|]. intros w.
  destruct (rows_with k (tab w)); [apply raises_raise, Hd | apply raises_ret].
Qed.

End raises.

(** Breaks a goal [raises_only P m] down along the structure of [m]. *)
Ltac raises_go :=
  repeat first
    [ match goal with |- forall _ : _, raises_only _ _ => intros ? end
    | apply raises_pass | apply raises_ret | apply raises_now | apply raises_now_if
    | apply raises_log_error | apply raises_enqueue | apply raises_generate_hash
    | apply raises_get_all | apply raises_insert | apply raises_save
    | apply raises_get_doc | apply raises_raise | apply raises_throw
    | apply raises_for_each | apply raises_bind
    | match goal with
      | |- raises_only _ (match ?x with _ => _ end) => destruct x
      | |- raises_only _ (if ?b then _ else _) => destruct b
      end ].

Lemma ignores_ret {A : Type} (a : A) : ignores_secret (mret a).
Proof. intros s w. reflexivity. Qed.

Lemma ignores_pass : ignores_secret pass.
Proof. intros s w. reflexivity. Qed.

Lemma ignores_throw {A : Type} (msg : string) : ignores_secret (throw (A := A) msg).
Proof. intros s w. reflexivity. Qed.

Lemma ignores_now : ignores_secret now.
Proof. intros s w. reflexivity. Qed.

Lemma ignores_now_if (cond : bool) : ignores_secret (now_if cond).
Proof. intros s w. rewrite !now_if_run. reflexivity. Qed.

Lemma ignores_enqueue (meth : string) (arg : PyVal) : ignores_secret (enqueue meth arg).
Proof. intros s w. reflexivity. Qed.

Lemma ignores_bind {A B : Type} (m : M A) (k : A -> M B) :
  ignores_secret m -> (forall a, ignores_secret (k a)) -> ignores_secret (m ≫= k).
Proof.
  intros Hm Hk s w. rewrite !bind_run, Hm.
  destruct (m w) as [[a|e] w1]; cbn [fst snd]; [apply Hk | reflexivity].
Qed.

Lemma ignores_for_each {A : Type} (l : list A) (body : A -> M unit) :
  (forall x, ignores_secret (body x)) -> ignores_secret (for_each l body).
Proof.
  intros Hb. induction l as [|x xs IH]; cbn [for_each].
  - apply ignores_pass.
  - apply ignores_bind; [apply Hb | intros _; exact IH].
Qed.

Lemma ignores_get_all_IAN (k : PyVal) : ignores_secret (get_all IAN.doc k).
Proof. intros s w. rewrite !get_all_run. cbn. destruct (db_fault w); reflexivity. Qed.
Lemma ignores_get_all_SOP (k : PyVal) : ignores_secret (get_all SOP.doc k).
Proof. intros s w. rewrite !get_all_run. cbn. destruct (db_fault w); reflexivity. Qed.
Lemma ignores_get_all_PPS (k : PyVal) : ignores_secret (get_all PPS.doc k).
Proof. intros s w. rewrite !get_all_run. cbn. destruct (db_fault w); reflexivity. Qed.
Lemma ignores_get_all_UPS (k : PyVal) : ignores_secret (get_all UPS.doc k).
Proof. intros s w. rewrite !get_all_run. cbn. destruct (db_fault w); reflexivity. Qed.

Lemma ignores_insert_IAN (d : IAN.doc) : ignores_secret (insert d).
Proof. intros s w. rewrite !insert_run. cbn. destruct (db_fault w); reflexivity. Qed.
Lemma ignores_insert_SOP (d : SOP.doc) : ignores_secret (insert d).
Proof. intros s w. rewrite !insert_run. cbn. destruct (db_fault w); reflexivity. Qed.
Lemma ignores_insert_PPS (d : PPS.doc) : ignores_secret (insert d).
Proof. intros s w. rewrite !insert_run. cbn. destruct (db_fault w); reflexivity. Qed.
Lemma ignores_insert_UPS (d : UPS.doc) : ignores_secret (insert d).
Proof. intros s w. rewrite !insert_run. cbn. destruct (db_fault w); reflexivity. Qed.

Ltac ignores_go :=
  repeat first
    [ match goal with |- forall _ : _, ignores_secret _ => intros ? end
    | apply ignores_pass | apply ignores_ret | apply ignores_now | apply ignores_now_if
    | apply ignores_throw | apply ignores_enqueue
    | apply ignores_get_all_IAN | apply ignores_get_all_SOP
    | apply ignores_get_all_PPS | apply ignores_get_all_UPS
    | apply ignores_insert_IAN | apply ignores_insert_SOP
    | apply ignores_insert_PPS | apply ignores_insert_UPS
    | apply ignores_for_each | apply ignores_bind
    | match goal with
      | |- ignores_secret (match ?x with _ => _ end) => destruct x
      | |- ignores_secret (if ?b then _ else _) => destruct b
      end ].

Lemma receive_ian_ignores_secret (ian_id source sop_uids availability_status : option string) :
  ignores_secret (receive_ian ian_id source sop_uids availability_status).
Proof. unfold receive_ian. ignores_go. Qed.

Lemma create_pps_ignores_secret (pps_uid sps_uid rp_id actor status instance_uids : option string) :
  ignores_secret (create_pps pps_uid sps_uid rp_id actor status instance_uids).
Proof. unfold create_pps. ignores_go. Qed.

Lemma create_ups_ignores_secret (ups_id rp_id ups_status actor instance_uids : option string) :
  ignores_secret (create_ups ups_id rp_id ups_status actor instance_uids).
Proof. unfold create_ups. ignores_go. Qed.

Lemma database_not_forbidden (msg : string) : not_forbidden (DatabaseError msg).
Proof. exact I. Qed.

Lemma receive_ian_not_forbidden (ian_id source sop_uids availability_status : option string) :
  raises_only not_forbidden (receive_ian ian_id source sop_uids availability_status).
Proof. unfold receive_ian. raises_go; try exact database_not_forbidden; exact I. Qed.

Lemma create_pps_not_forbidden (pps_uid sps_uid rp_id actor status instance_uids : option string) :
  raises_only not_forbidden (create_pps pps_uid sps_uid rp_id actor status instance_uids).
Proof. unfold create_pps. raises_go; try exact database_not_forbidden; exact I. Qed.

Lemma create_ups_not_forbidden (ups_id rp_id ups_status actor instance_uids : option string) :
  raises_only not_forbidden (create_ups ups_id rp_id ups_status actor instance_uids).
Proof. unfold create_ups. raises_go; try exact database_not_forbidden; exact I. Qed.

Section ingestion_auth.

Variable json_dumps : Json -> string.

Lemma check_signature_skipped (payload : gmap string PyVal) (h : option Headers) (w : World) :
  headers_truthy h = false ->
  check_signature json_dumps payload h w = (Ret tt, w).
Proof. intros Hh. unfold check_signature. rewrite Hh. reflexivity. Qed.

Lemma get_or_create_sopinstance_not_forbidden (uid : string) (a p n : PyVal) :
  raises_only not_forbidden (get_or_create_sopinstance uid a p n).
Proof.
  unfold get_or_create_sopinstance. raises_go; exact database_not_forbidden.
Qed.

Lemma complete_sps_not_forbidden (sps_uid pps_uid : PyVal) :
  raises_only not_forbidden (complete_sps sps_uid pps_uid).
Proof.
  unfold complete_sps. destruct (truthy sps_uid); [|apply raises_pass].
  apply (raises_try_except _ (fun _ => True)); [intros w e _; exact I|].
  intros e _. apply raises_log_error.
Qed.

Lemma ingest_ian_not_forbidden (payload : gmap string PyVal) (h : option Headers) :
  headers_truthy h = false ->
  raises_only not_forbidden (ingest_ian json_dumps payload h).
Proof.
  intros Hh. unfold ingest_ian. apply raises_bind.
  { intros w e. rewrite (check_signature_skipped _ _ _ Hh). intros [=]. }
  intros _. apply raises_bind; [raises_go; exact I|]. intros _.
  apply raises_bind; [apply raises_get_all, database_not_forbidden|].
  intros [|x xs]; [|apply raises_ret].
  apply (raises_try_except _ not_forbidden).
  - unfold enqueue_process_ian.
    raises_go; try apply get_or_create_sopinstance_not_forbidden;
      exact database_not_forbidden.
  - intros e He. raises_go. exact He.
Qed.

Lemma ingest_mpps_not_forbidden (payload : gmap string PyVal) (h : option Headers) :
  headers_truthy h = false ->
  raises_only not_forbidden (ingest_mpps json_dumps payload h).
Proof.
  intros Hh. unfold ingest_mpps. apply raises_bind.
  { intros w e. rewrite (check_signature_skipped _ _ _ Hh). intros [=]. }
  intros _. apply raises_bind; [raises_go; exact I|]. intros _.
  apply raises_bind; [apply raises_get_all, database_not_forbidden|].
  intros [|x xs]; [|apply raises_ret].
  apply (raises_try_except _ not_forbidden).
  - unfold enqueue_process_pps.
    repeat first
      [ apply complete_sps_not_forbidden
      | apply get_or_create_sopinstance_not_forbidden
      | progress raises_go ];
      exact database_not_forbidden.
  - intros e He. raises_go. exact He.
Qed.

(** C10.  A call of [ingest_ian] or [ingest_mpps] without headers (None or
    the empty dict) skips the signature step, so it is never rejected as
    forbidden, with or without a configured secret; [receive_ian],
    [create_pps] and [create_ups] never raise Forbidden and do the same
    whatever the secret is. *)
Theorem no_headers_no_verification
  (payload : gmap string PyVal) (h : option Headers) (w : World) :
  headers_truthy h = false ->
  check_signature json_dumps payload h w = (Ret tt, w)
  /\ (forall msg, fst (ingest_ian json_dumps payload h w) <> Raise (Forbidden msg))
  /\ (forall msg, fst (ingest_mpps json_dumps payload h w) <> Raise (Forbidden msg))
  /\ (forall a b c d msg, fst (receive_ian a b c d w) <> Raise (Forbidden msg))
  /\ (forall a b c d e f msg, fst (create_pps a b c d e f w) <> Raise (Forbidden msg))
  /\ (forall a b c d e msg, fst (create_ups a b c d e w) <> Raise (Forbidden msg))
  /\ (forall a b c d, ignores_secret (receive_ian a b c d))
  /\ (forall a b c d e f, ignores_secret (create_pps a b c d e f))
  /\ (forall a b c d e, ignores_secret (create_ups a b c d e)).
Proof.
  intros Hh.
  split; [apply check_signature_skipped, Hh|].
  split; [intros msg H; exact (ingest_ian_not_forbidden payload h Hh w _ H)|].
  split; [intros msg H; exact (ingest_mpps_not_forbidden payload h Hh w _ H)|].
  split; [intros a b c d msg H; exact (receive_ian_not_forbidden a b c d w _ H)|].
  split; [intros a b c d e f msg H; exact (create_pps_not_forbidden a b c d e f w _ H)|].
  split; [intros a b c d e msg H; exact (create_ups_not_forbidden a b c d e w _ H)|].
  split; [exact receive_ian_ignores_secret|].
  split; [exact create_pps_ignores_secret | exact create_ups_ignores_secret].
Qed.

End ingestion_auth.

Lemma no_headers_no_verification_witness :
  check_signature dumps0 ian_payload (Some ∅) secret_world = (Ret tt, secret_world)
  /\ (forall msg, fst (ingest_ian dumps0 ian_payload (Some ∅) secret_world)
                  <> Raise (Forbidden msg))
  /\ (forall msg, fst (ingest_ian dumps0 ian_payload None secret_world)
                  <> Raise (Forbidden msg)).
Proof.
  assert (Hempty : headers_truthy (Some ∅) = false) by (vm_compute; reflexivity).
  destruct (no_headers_no_verification dumps0 ian_payload (Some ∅) secret_world Hempty)
    as (H1 & H2 & _).
  destruct (no_headers_no_verification dumps0 ian_payload None secret_world eq_refl)
    as (_ & H3 & _).
  split; [exact H1 | split; [exact H2 | exact H3]].
Defined.

(** With the secret configured, the same payload is created without
    headers and refused with headers that carry no signature. *)
Example ingest_ian_with_and_without_headers :
  fst (ingest_ian dumps0 ian_payload None secret_world)
  = Ret {| reply_status := "created"; reply_id := VStr "IAN-20251114-0001" |}
  /\ fst (ingest_ian dumps0 ian_payload (Some {[ "Content-Type" := "application/json" ]})
            secret_world)
  = Raise (Forbidden "Forbidden: invalid signature").
Proof. split; vm_compute; reflexivity. Qed.

(** ** The inbound gateway *)

Section gateway_props.

Variable json_loads : string -> option Json.
Variable json_dumps : Json -> string.
Variable HL7APY_AVAILABLE : bool.
Variable Hl7 : Type.
Variable parse_message : string -> option Hl7.
Variable attr_er7 : Hl7 -> string -> string -> option string.
Variable segment_er7 : Hl7 -> string -> string -> SegLookup.

Local Abbreviation normalize_request' :=
  (normalize_request json_loads json_dumps HL7APY_AVAILABLE Hl7 parse_message
     attr_er7 segment_er7).
Local Abbreviation ihe_receive_message_body' :=
  (ihe_receive_message_body json_loads json_dumps HL7APY_AVAILABLE Hl7 parse_message
     attr_er7 segment_er7).
Local Abbreviation ihe_receive_message' :=
  (ihe_receive_message json_loads json_dumps HL7APY_AVAILABLE Hl7 parse_message
     attr_er7 segment_er7).

(** Normalising a request touches nothing but the hash counter. *)
Lemma normalize_request_frame {B : Type} (f : World -> B) (req : Request) :
  (forall w n, f (set_hash_ctr n w) = f w) ->
  steps (unchanged f) (normalize_request' req).
Proof.
  intros Hf. unfold normalize_request, normalize_from_json, normalize_hl7_v2,
    normalize_hl7apy, normalize_fallback.
  cbv zeta. steps_go; intros; apply Hf.
Qed.



End gateway_props.

(** ** Scheduled Procedure Steps *)

Lemma saves_insert (j : list DbWrite) (d : string) (k : PyVal) :
  saves (j ++ [Insert d k]) = saves j.
Proof. unfold saves. rewrite List.filter_app. cbn. apply app_nil_r. Qed.

Lemma saves_save (j : list DbWrite) (d : string) (k : PyVal) :
  saves (j ++ [Save d k]) = saves j ++ [Save d k].
Proof. unfold saves. rewrite List.filter_app. reflexivity. Qed.

Ltac sps_view_solve :=
  intros; unfold unchanged, sps_view; cbn; rewrite ?saves_insert; reflexivity.

Lemma bind_ret_inv {A B : Type} (m : M A) (k : A -> M B) (w w' : World) (b : B) :
  (m ≫= k) w = (Ret b, w') ->
  exists a w1, m w = (Ret a, w1) /\ k a w1 = (Ret b, w').
Proof.
  rewrite bind_run. destruct (m w) as [[a|e] w1]; [|discriminate].
  intros H. exists a, w1. split; [reflexivity | exact H].
Qed.

(** A handler that logs and raises again returns nothing: a returned
    value comes from the body. *)
Lemma try_except_reraise_inv {A : Type} (body : M A) (msg : Exc -> string) (title : string)
  (w w' : World) (a : A) :
  try_except body (fun e => log_error (msg e) title;; raise e) w = (Ret a, w') ->
  body w = (Ret a, w').
Proof.
  unfold try_except. destruct (body w) as [[a'|e] w1]; [intros H; exact H|].
  intros H. discriminate H.
Qed.

Lemma rows_with_key {D : Type} `{DocType D} (k : PyVal) (l : list D) (d : D) :
  In d (rows_with k l) -> key d = k.
Proof.
  unfold rows_with. intros Hin. apply filter_In in Hin as [_ Hk].
  apply bool_decide_eq_true in Hk. exact Hk.
Qed.

Lemma rows_with_replace_first {D : Type} `{DocType D} (k : PyVal) (d x : D) (l rest : list D) :
  key d = k -> rows_with k l = x :: rest ->
  rows_with k (replace_first k d l) = d :: rest.
Proof.
  intros Hd.
  assert (Hdk : bool_decide (key d = k) = true) by (apply bool_decide_eq_true; exact Hd).
  induction l as [|y l IH]; cbn; [discriminate|].
  destruct (bool_decide (key y = k)) eqn:Hy; cbn.
  - intros [= _ <-]. rewrite Hdk. reflexivity.
  - rewrite Hy. exact IH.
Qed.

Section sps_props.

Variable json_dumps : Json -> string.

Lemma check_signature_frame {B : Type} (f : World -> B)
  (payload : gmap string PyVal) (h : option Headers) :
  (forall w l, f (set_error_log l w) = f w) ->
  steps (unchanged f) (check_signature json_dumps payload h).
Proof.
  intros Hf. unfold check_signature, verify_signature, compare_digest. cbv zeta.
  steps_go; intros; apply Hf.
Qed.

Lemma get_or_create_sopinstance_frame {B : Type} (f : World -> B) (uid : string) (a p n : PyVal) :
  (forall w l j, f (set_journal j (set_tabSOP l w)) = f w) ->
  steps (unchanged f) (get_or_create_sopinstance uid a p n).
Proof.
  intros Hf. unfold get_or_create_sopinstance. steps_go. intros w. apply Hf.
Qed.

(** The step on the Scheduled Procedure Step, run on a store that holds
    the step. *)
Lemma complete_sps_run (sps_uid pps_uid : PyVal) (w : World) (sps : SPS.doc) (rest : list SPS.doc) :
  db_fault w = None -> truthy sps_uid = true ->
  rows_with sps_uid (tabSPS w) = sps :: rest ->
  complete_sps sps_uid pps_uid w =
  if bool_decide (SPS.status sps = VStr "Completed") then (Ret tt, w)
  else (Ret tt,
        set_journal (journal w ++ [Save "Scheduled Procedure Step" sps_uid])
          (set_tabSPS (replace_first sps_uid
                         {| SPS.sps_uid := SPS.sps_uid sps;
                            SPS.status := VStr "Completed" |} (tabSPS w)) w)).
Proof.
  intros Hf Ht Hrows. unfold complete_sps, try_except. rewrite Ht.
  rewrite bind_run. unfold get_doc. rewrite bind_run, db_guard_run, Hf.
  cbv beta iota. rewrite bind_run. cbn [get_world]. cbv beta iota.
  change (tab (D := SPS.doc) w) with (tabSPS w). rewrite Hrows.
  cbn [mret M_ret]. cbv beta iota.
  destruct (bool_decide _); [reflexivity|].
  unfold save. rewrite bind_run, db_guard_run, Hf. reflexivity.
Qed.

Lemma steps_run {A : Type} (R : relation World) (m : M A) (w w' : World) (r : Res A) :
  steps R m -> m w = (r, w') -> R w w'.
Proof. intros Hs Hm. specialize (Hs w). rewrite Hm in Hs. exact Hs. Qed.

(** What [ingest_mpps] has done to the Scheduled Procedure Steps when it
    answers created and the referenced step was in the store. *)
Lemma ingest_mpps_sps_view (payload : gmap string PyVal) (h : option Headers)
  (w w' : World) (r : Reply) (sps : SPS.doc) (rest : list SPS.doc) :
  ingest_mpps json_dumps payload h w = (Ret r, w') ->
  reply_status r = "created" ->
  truthy (dict_get payload "sps_uid") = true ->
  rows_with (dict_get payload "sps_uid") (tabSPS w) = sps :: rest ->
  sps_view w' =
  if bool_decide (SPS.status sps = VStr "Completed") then sps_view w
  else (replace_first (dict_get payload "sps_uid")
          {| SPS.sps_uid := SPS.sps_uid sps; SPS.status := VStr "Completed" |} (tabSPS w),
        saves (journal w) ++ [Save "Scheduled Procedure Step" (dict_get payload "sps_uid")],
        db_fault w).
Proof.
  unfold ingest_mpps. intros H Hr Ht Hrows.
  apply bind_ret_inv in H as (? & w1 & H1 & H).
  apply (steps_run (unchanged sps_view)) in H1;
    [|apply check_signature_frame; sps_view_solve].
  apply bind_ret_inv in H as (? & w2 & H2 & H).
  apply (steps_run (unchanged sps_view)) in H2; [|steps_go].
  apply bind_ret_inv in H as (exists_ & w3 & H3 & H).
  assert (Hf3 : db_fault w3 = None).
  { rewrite get_all_run in H3. destruct (db_fault w2) eqn:E; [discriminate|].
    injection H3 as _ <-. exact E. }
  apply (steps_run (unchanged sps_view)) in H3; [|steps_go].
  destruct exists_ as [|row rows]; [|injection H as <- _; discriminate Hr].
  apply try_except_reraise_inv in H.
  apply bind_ret_inv in H as (ts & w4 & H4 & H).
  apply (steps_run (unchanged sps_view)) in H4; [|steps_go].
  apply bind_ret_inv in H as (? & w5 & H5 & H).
  apply (steps_run (unchanged sps_view)) in H5; [|steps_go; sps_view_solve].
  apply bind_ret_inv in H as (? & w6 & H6 & H).
  apply bind_ret_inv in H as (? & w7 & H7 & H).
  apply (steps_run (unchanged sps_view)) in H7;
    [|steps_go; sps_view_solve].
  apply bind_ret_inv in H as (? & w8 & H8 & H).
  apply (steps_run (unchanged sps_view)) in H8;
    [|unfold enqueue_process_pps; steps_go; sps_view_solve].
  injection H as _ <-.
  unfold unchanged in *.
  assert (E5 : sps_view w5 = sps_view w) by congruence.
  assert (Hf5 : db_fault w5 = None).
  { assert (E : sps_view w5 = sps_view w3) by congruence.
    unfold sps_view in E. injection E as _ _ E. congruence. }
  assert (Hrows5 : rows_with (dict_get payload "sps_uid") (tabSPS w5) = sps :: rest).
  { unfold sps_view in E5. injection E5 as E _ _. rewrite E. exact Hrows. }
  rewrite (complete_sps_run _ _ w5 sps rest Hf5 Ht Hrows5) in H6.
  rewrite H8, H7.
  destruct (bool_decide (SPS.status sps = VStr "Completed")).
  - assert (E6 : w6 = w5) by congruence. rewrite E6. exact E5.
  - match type of H6 with (_, ?w') = _ => assert (E6 : w6 = w') by congruence end.
    rewrite E6. unfold sps_view in *. cbn.
    injection E5 as E1 E2 E3. rewrite saves_save, E1, E2, E3. reflexivity.
Qed.

(** The loop of [_process_pps] over the instance UIDs leaves the
    Scheduled Procedure Steps alone. *)
Lemma process_pps_tail_frame (pps : PPS.doc) :
  steps (unchanged tabSPS)
    (uids ← uid_entries (PPS.instance_uids pps);
     for_each uids (fun uid =>
       existing_si ← get_all SOP.doc (VStr uid);
       match existing_si with
       | _ :: _ => pass
       | [] =>
           created ← now;
           insert {| SOP.sop_uid := VStr uid;
                     SOP.stored_at_aet := VNone;
                     SOP.patient_id := VNone;
                     SOP.accession_number := VNone;
                     SOP.created_at := created |}
       end)).
Proof. unfold uid_entries. steps_go. intros w. reflexivity. Qed.

(** What [_process_pps] has done to the Scheduled Procedure Steps when the
    step its record refers to was in the store. *)
Lemma process_pps_sps_table (pps_uid : PyVal) (w : World)
  (pps : PPS.doc) (rest : list PPS.doc) (sps : SPS.doc) (rest' : list SPS.doc) :
  db_fault w = None ->
  rows_with pps_uid (tabPPS w) = pps :: rest ->
  truthy (PPS.sps pps) = true ->
  rows_with (PPS.sps pps) (tabSPS w) = sps :: rest' ->
  tabSPS (snd (_process_pps pps_uid w)) =
  replace_first (PPS.sps pps)
    {| SPS.sps_uid := SPS.sps_uid sps;
       SPS.status := if bool_decide (PPS.status pps = VStr "COMPLETED")
                     then VStr "Completed" else SPS.status sps |} (tabSPS w).
Proof.
  intros Hf Hpps Ht Hsps. unfold _process_pps. rewrite bind_run.
  unfold try_except at 1. rewrite bind_run. unfold get_doc at 1.
  rewrite bind_run, db_guard_run, Hf. cbv beta iota.
  rewrite bind_run. cbn [get_world]. cbv beta iota.
  change (tab (D := PPS.doc) w) with (tabPPS w). rewrite Hpps.
  cbn [mret M_ret]. cbv beta iota.
  rewrite bind_run. unfold process_pps_sps, try_except. rewrite Ht.
  rewrite bind_run. unfold get_doc. rewrite bind_run, db_guard_run, Hf.
  cbv beta iota. rewrite bind_run. cbn [get_world]. cbv beta iota.
  change (tab (D := SPS.doc) w) with (tabSPS w). rewrite Hsps.
  cbn [mret M_ret]. cbv beta iota.
  unfold save. rewrite bind_run, db_guard_run, Hf. cbv beta iota.
  cbn [modify]. cbv beta iota.
  match goal with |- tabSPS (snd (?m ?w1)) = _ =>
    rewrite (process_pps_tail_frame pps w1) end.
  reflexivity.
Qed.

(** C6, amended.  When [ingest_mpps] creates a PPS whose sps_uid names a
    Scheduled Procedure Step of the store, the step ends up Completed; it
    is saved, once, when it was not Completed before, and not saved at all
    when it was.  The worker [_process_pps] sets the step its record
    refers to to Completed when the PPS status is COMPLETED and keeps the
    step's status otherwise. *)
Theorem sps_completed_by_pps :
  (forall (payload : gmap string PyVal) (h : option Headers) (w w' : World)
          (r : Reply) (sps : SPS.doc) (rest : list SPS.doc),
     ingest_mpps json_dumps payload h w = (Ret r, w') ->
     reply_status r = "created" ->
     truthy (dict_get payload "sps_uid") = true ->
     rows_with (dict_get payload "sps_uid") (tabSPS w) = sps :: rest ->
     head (rows_with (dict_get payload "sps_uid") (tabSPS w'))
       = Some {| SPS.sps_uid := SPS.sps_uid sps; SPS.status := VStr "Completed" |}
     /\ (SPS.status sps <> VStr "Completed" ->
           saves (journal w') = saves (journal w)
             ++ [Save "Scheduled Procedure Step" (dict_get payload "sps_uid")])
     /\ (SPS.status sps = VStr "Completed" ->
           tabSPS w' = tabSPS w /\ saves (journal w') = saves (journal w)))
  /\ (forall (pps_uid : PyVal) (w : World) (pps : PPS.doc) (rest : list PPS.doc)
             (sps : SPS.doc) (rest' : list SPS.doc),
        db_fault w = None ->
        rows_with pps_uid (tabPPS w) = pps :: rest ->
        truthy (PPS.sps pps) = true ->
        rows_with (PPS.sps pps) (tabSPS w) = sps :: rest' ->
        head (rows_with (PPS.sps pps) (tabSPS (snd (_process_pps pps_uid w))))
          = Some {| SPS.sps_uid := SPS.sps_uid sps;
                    SPS.status := if bool_decide (PPS.status pps = VStr "COMPLETED")
                                  then VStr "Completed" else SPS.status sps |}).
Proof.
  split.
  - intros payload h w w' r sps rest Hrun Hr Ht Hrows.
    pose proof (ingest_mpps_sps_view payload h w w' r sps rest Hrun Hr Ht Hrows) as Hv.
    assert (Hk : SPS.sps_uid sps = dict_get payload "sps_uid").
    { apply (@rows_with_key SPS.doc SPS_doctype (dict_get payload "sps_uid") (tabSPS w) sps).
      rewrite Hrows. left. reflexivity. }
    unfold sps_view in Hv. case_bool_decide as Hc.
    + injection Hv as E1 E2 _. rewrite E1, E2, Hrows.
      split; [|split; [intros Hn; contradiction | intros _; split; reflexivity]].
      destruct sps as [u s]. cbn in Hc |- *. rewrite Hc. reflexivity.
    + injection Hv as E1 E2 _. rewrite E1, E2.
      split; [|split; [intros _; reflexivity | intros Hn; contradiction]].
      rewrite (@rows_with_replace_first SPS.doc SPS_doctype _
                 {| SPS.sps_uid := SPS.sps_uid sps; SPS.status := VStr "Completed" |}
                 sps _ rest Hk Hrows).
      reflexivity.
  - intros pps_uid w pps rest sps rest' Hf Hpps Ht Hsps.
    rewrite (process_pps_sps_table pps_uid w pps rest sps rest' Hf Hpps Ht Hsps).
    assert (Hk : SPS.sps_uid sps = PPS.sps pps).
    { apply (@rows_with_key SPS.doc SPS_doctype (PPS.sps pps) (tabSPS w) sps).
      rewrite Hsps. left. reflexivity. }
    rewrite (@rows_with_replace_first SPS.doc SPS_doctype _
               {| SPS.sps_uid := SPS.sps_uid sps;
                  SPS.status := if bool_decide (PPS.status pps = VStr "COMPLETED")
                                then VStr "Completed" else SPS.status sps |}
               sps _ rest' Hk Hsps).
    reflexivity.
Qed.

End sps_props.

Lemma sps_completed_by_pps_witness :
  let scheduled := snd (ingest_mpps dumps0 mpps_payload None (sps_world "Scheduled")) in
  let completed := snd (ingest_mpps dumps0 mpps_payload None (sps_world "Completed")) in
  tabSPS scheduled = [{| SPS.sps_uid := VStr "SPS-0001"; SPS.status := VStr "Completed" |}]
  /\ saves (journal scheduled) = [Save "Scheduled Procedure Step" (VStr "SPS-0001")]
  /\ tabSPS completed = tabSPS (sps_world "Completed")
  /\ saves (journal completed) = []
  /\ head (rows_with (VStr "SPS-0001")
             (tabSPS (snd (_process_pps (VStr "MPPS-0001")
                             (pps_world "Scheduled" "COMPLETED")))))
     = Some {| SPS.sps_uid := VStr "SPS-0001"; SPS.status := VStr "Completed" |}.
Proof.
  intros scheduled completed.
  pose (created := {| reply_status := "created"; reply_id := VStr "MPPS-0001" |}).
  pose (step s := {| SPS.sps_uid := VStr "SPS-0001"; SPS.status := VStr s |}).
  destruct (sps_completed_by_pps dumps0) as [Hingest Hworker].
  assert (Hid : dict_get mpps_payload "sps_uid" = VStr "SPS-0001")
    by (vm_compute; reflexivity).
  assert (Hs : ingest_mpps dumps0 mpps_payload None (sps_world "Scheduled")
               = (Ret created, scheduled)) by (vm_compute; reflexivity).
  assert (Hc : ingest_mpps dumps0 mpps_payload None (sps_world "Completed")
               = (Ret created, completed)) by (vm_compute; reflexivity).
  destruct (Hingest mpps_payload None _ _ created (step "Scheduled") [] Hs eq_refl)
    as (_ & Hsaved & _);
    [vm_compute; reflexivity | rewrite Hid; vm_compute; reflexivity |].
  destruct (Hingest mpps_payload None _ _ created (step "Completed") [] Hc eq_refl)
    as (_ & _ & Hkept);
    [vm_compute; reflexivity | rewrite Hid; vm_compute; reflexivity |].
  split; [vm_compute; reflexivity|].
  split; [rewrite Hsaved, Hid by (cbn; discriminate); reflexivity|].
  split; [apply Hkept; reflexivity|].
  split; [apply Hkept; reflexivity|].
  apply (Hworker (VStr "MPPS-0001") (pps_world "Scheduled" "COMPLETED")
           (pps_row "COMPLETED") [] (step "Scheduled") []); vm_compute; reflexivity.
Defined.

(** C6 as stated fails in [_process_pps]: a step that is not Completed
    stays as it is when the PPS status is not COMPLETED, and a step that is
    Completed is saved again. *)
Lemma process_pps_sps_counterexample :
  tabSPS (snd (_process_pps (VStr "MPPS-0001") (pps_world "Scheduled" "DISCONTINUED")))
    = [{| SPS.sps_uid := VStr "SPS-0001"; SPS.status := VStr "Scheduled" |}]
  /\ saves (journal (snd (_process_pps (VStr "MPPS-0001")
                            (pps_world "Completed" "COMPLETED"))))
     = [Save "Scheduled Procedure Step" (VStr "SPS-0001")].
Proof. split; vm_compute; reflexivity. Qed.

(** ** SOPInstance records *)

Lemma rows_with_app {D : Type} `{DocType D} (k : PyVal) (l1 l2 : list D) :
  rows_with k (l1 ++ l2) = rows_with k l1 ++ rows_with k l2.
Proof. apply List.filter_app. Qed.

Lemma ensure_sop_run (mk : string -> PyVal -> SOP.doc) (uid : string) (w w' : World) :
  (forall u t, SOP.sop_uid (mk u t) = VStr u) ->
  ensure_sop mk uid w = (Ret tt, w') ->
  db_fault w' = None /\ clock w' = clock w
  /\ rows_with (VStr uid) (tabSOP w') <> []
  /\ ((rows_with (VStr uid) (tabSOP w) <> [] /\ w' = w)
      \/ (rows_with (VStr uid) (tabSOP w) = []
          /\ tabSOP w' = tabSOP w ++ [mk uid (VStr (clock w))])).
Proof.
  intros Hmk. unfold ensure_sop. run.
  destruct (db_fault w) eqn:Hf; [discriminate|].
  change (tab (D := SOP.doc) w) with (tabSOP w).
  destruct (rows_with (VStr uid) (tabSOP w)) as [|x xs] eqn:Hrows.
  - run. cbn [now]. cbv beta iota. run. intros [= <-]. cbn.
    split; [exact Hf|]. split; [reflexivity|]. split; [|right; split; reflexivity].
    rewrite List.filter_app. cbn.
    rewrite Hmk. rewrite bool_decide_true by reflexivity.
    intros H. apply app_eq_nil in H as [_ H]. discriminate H.
  - intros [= <-]. split; [exact Hf|]. split; [reflexivity|].
    rewrite Hrows. split; [discriminate|]. left. split; [discriminate | reflexivity].
Qed.

(** The loop over the UIDs: every UID ends up with a record, and the
    table grows by built records only. *)
Lemma ensure_sop_loop (mk : string -> PyVal -> SOP.doc) (meta : SOP.doc -> Prop)
  (uids : list string) (w w' : World) :
  (forall u t, SOP.sop_uid (mk u t) = VStr u) ->
  (forall u t, meta (mk u t)) ->
  for_each uids (ensure_sop mk) w = (Ret tt, w') ->
  fanned_out uids meta w w'.
Proof.
  intros Hmk Hmeta. revert w. induction uids as [|uid uids IH]; intros w.
  - cbn. intros [= <-]. split; [exists []; split; [symmetry; apply app_nil_r | constructor]|].
    intros uid [].
  - cbn [for_each]. intros H. apply bind_ret_inv in H as ([] & w1 & H1 & H).
    apply (ensure_sop_run mk uid w w1 Hmk) in H1 as (_ & _ & Hrow & Hstep).
    destruct (IH w1 H) as [(news & Htab & Hnews) Hall].
    assert (Hgrow : exists news1, tabSOP w' = tabSOP w ++ news1 /\ Forall meta news1).
    { destruct Hstep as [[_ ->] | [_ Hins]]; [exists news; split; assumption|].
      exists (mk uid (VStr (clock w)) :: news). split.
      - rewrite Htab, Hins, <- app_assoc. reflexivity.
      - constructor; [apply Hmeta | exact Hnews]. }
    split; [exact Hgrow|].
    intros u [<- | Hin]; [|apply Hall, Hin].
    rewrite Htab, (@rows_with_app SOP.doc SOP_doctype).
    intros E. apply app_eq_nil in E as [E _]. apply Hrow, E.
Qed.

Lemma fanned_out_frame (uids : list string) (meta : SOP.doc -> Prop) (w0 w w' w1 : World) :
  tabSOP w = tabSOP w0 -> tabSOP w1 = tabSOP w' ->
  fanned_out uids meta w w' -> fanned_out uids meta w0 w1.
Proof. unfold fanned_out. intros -> ->. exact (fun H => H). Qed.

Lemma comma_list_falsy (o : option string) :
  Py.truthy o = false -> Py.comma_list (default "" o) = [].
Proof. destruct o as [[|c s]|]; [reflexivity | discriminate | reflexivity]. Qed.

Ltac sop_frame H :=
  apply (steps_run (unchanged tabSOP)) in H;
  [unfold unchanged in H | steps_go; intros; reflexivity].

Lemma receive_ian_fans_out (ian_id source sop_uids availability_status : option string)
  (w w' : World) (r : Reply) :
  receive_ian ian_id source sop_uids availability_status w = (Ret r, w') ->
  reply_status r = "created" ->
  fanned_out (Py.comma_list (default "" sop_uids))
    (fun d => SOP.stored_at_aet d = of_opt (Py.or_ source (Some ""))) w w'.
Proof.
  unfold receive_ian. intros H Hr.
  apply bind_ret_inv in H as (? & w1 & H1 & H). sop_frame H1.
  apply bind_ret_inv in H as (existing & w2 & H2 & H). sop_frame H2.
  destruct existing as [|row rows]; [|injection H as <- _; discriminate Hr].
  apply bind_ret_inv in H as (ts & w3 & H3 & H). sop_frame H3.
  apply bind_ret_inv in H as (? & w4 & H4 & H). sop_frame H4.
  apply bind_ret_inv in H as ([] & w5 & H5 & H).
  apply bind_ret_inv in H as (? & w6 & H6 & H). sop_frame H6.
  injection H as _ <-.
  apply (fanned_out_frame _ _ w w4 w5 w6); [congruence | congruence |].
  destruct (Py.truthy sop_uids) eqn:Ht.
  - eapply (ensure_sop_loop (sop_with (of_opt (Py.or_ source (Some ""))) VNone VNone));
      [reflexivity | reflexivity | exact H5].
  - injection H5 as <-. rewrite (comma_list_falsy _ Ht).
    split; [exists []; split; [symmetry; apply app_nil_r | constructor] | intros uid []].
Qed.

Lemma create_ups_fans_out (ups_id rp_id ups_status actor instance_uids : option string)
  (w w' : World) (r : Reply) :
  create_ups ups_id rp_id ups_status actor instance_uids w = (Ret r, w') ->
  reply_status r = "created" ->
  ups_status = Some "COMPLETED" ->
  fanned_out (Py.comma_list (default "" instance_uids)) (fun _ => True) w w'.
Proof.
  unfold create_ups. intros H Hr Hs.
  apply bind_ret_inv in H as (? & w1 & H1 & H). sop_frame H1.
  apply bind_ret_inv in H as (existing & w2 & H2 & H). sop_frame H2.
  destruct existing as [|row rows]; [|injection H as <- _; discriminate Hr].
  apply bind_ret_inv in H as (started & w3 & H3 & H).
  rewrite now_if_run in H3. injection H3 as _ <-.
  apply bind_ret_inv in H as (ended & w4 & H4 & H).
  rewrite now_if_run in H4. injection H4 as _ <-.
  apply bind_ret_inv in H as (? & w5 & H5 & H). sop_frame H5.
  apply bind_ret_inv in H as ([] & w6 & H6 & H).
  injection H as _ <-.
  apply (fanned_out_frame _ _ w w5 w6 w6); [congruence | reflexivity |].
  rewrite Hs in H6. rewrite bool_decide_true in H6 by reflexivity.
  rewrite andb_true_r in H6.
  destruct (Py.truthy instance_uids) eqn:Ht.
  - eapply (ensure_sop_loop sop_bare); [reflexivity | intros; exact I | exact H6].
  - injection H6 as <-. rewrite (comma_list_falsy _ Ht).
    split; [exists []; split; [symmetry; apply app_nil_r | constructor] | intros uid []].
Qed.

Section fan_out.

Variable json_dumps : Json -> string.

Lemma ingest_ian_fans_out (payload : gmap string PyVal) (h : option Headers)
  (w w' : World) (r : Reply) :
  ingest_ian json_dumps payload h w = (Ret r, w') ->
  reply_status r = "created" ->
  fanned_out
    (split_uids (normalize_uids (or_ (dict_get payload "sop_instance_uids")
                                     (dict_get payload "sop_uids"))))
    (fun d => SOP.stored_at_aet d = dict_get payload "source"
              /\ SOP.patient_id d = dict_get payload "patient_id"
              /\ SOP.accession_number d = dict_get payload "accession_number") w w'.
Proof.
  unfold ingest_ian. intros H Hr.
  apply bind_ret_inv in H as (? & w1 & H1 & H).
  apply (steps_run (unchanged tabSOP)) in H1;
    [|apply check_signature_frame; intros; reflexivity].
  apply bind_ret_inv in H as (? & w2 & H2 & H). sop_frame H2.
  apply bind_ret_inv in H as (existing & w3 & H3 & H). sop_frame H3.
  destruct existing as [|row rows]; [|injection H as <- _; discriminate Hr].
  apply try_except_reraise_inv in H.
  apply bind_ret_inv in H as (ts & w4 & H4 & H). sop_frame H4.
  apply bind_ret_inv in H as (? & w5 & H5 & H). sop_frame H5.
  apply bind_ret_inv in H as ([] & w6 & H6 & H).
  apply bind_ret_inv in H as (? & w7 & H7 & H).
  unfold enqueue_process_ian in H7. sop_frame H7.
  injection H as _ <-. unfold unchanged in H1.
  apply (fanned_out_frame _ _ w w5 w6 w7); [congruence | congruence |].
  eapply (ensure_sop_loop
            (sop_with (dict_get payload "source") (dict_get payload "patient_id")
                      (dict_get payload "accession_number")));
    [reflexivity | intros; repeat split | exact H6].
Qed.

Lemma complete_sps_frame {B : Type} (f : World -> B) (sps_uid pps_uid : PyVal) :
  (forall w l j, f (set_journal j (set_tabSPS l w)) = f w) ->
  (forall w l, f (set_error_log l w) = f w) ->
  steps (unchanged f) (complete_sps sps_uid pps_uid).
Proof.
  intros Hs He. unfold complete_sps. steps_go; intros; first [apply Hs | apply He].
Qed.

Lemma ingest_mpps_fans_out (payload : gmap string PyVal) (h : option Headers)
  (w w' : World) (r : Reply) :
  ingest_mpps json_dumps payload h w = (Ret r, w') ->
  reply_status r = "created" ->
  fanned_out
    (split_uids (normalize_uids (dict_get payload "instance_uids")))
    (fun d => SOP.stored_at_aet d = dict_get payload "actor"
              /\ SOP.patient_id d = dict_get payload "patient_id"
              /\ SOP.accession_number d = dict_get payload "accession_number") w w'.
Proof.
  unfold ingest_mpps. intros H Hr.
  apply bind_ret_inv in H as (? & w1 & H1 & H).
  apply (steps_run (unchanged tabSOP)) in H1;
    [|apply check_signature_frame; intros; reflexivity].
  apply bind_ret_inv in H as (? & w2 & H2 & H). sop_frame H2.
  apply bind_ret_inv in H as (existing & w3 & H3 & H). sop_frame H3.
  destruct existing as [|row rows]; [|injection H as <- _; discriminate Hr].
  apply try_except_reraise_inv in H.
  apply bind_ret_inv in H as (ts & w4 & H4 & H). sop_frame H4.
  apply bind_ret_inv in H as (? & w5 & H5 & H). sop_frame H5.
  apply bind_ret_inv in H as (? & w6 & H6 & H).
  apply (steps_run (unchanged tabSOP)) in H6;
    [|apply complete_sps_frame; intros; reflexivity].
  apply bind_ret_inv in H as ([] & w7 & H7 & H).
  apply bind_ret_inv in H as (? & w8 & H8 & H).
  unfold enqueue_process_pps in H8. sop_frame H8.
  injection H as _ <-. unfold unchanged in H1, H6.
  apply (fanned_out_frame _ _ w w6 w7 w8); [congruence | congruence |].
  eapply (ensure_sop_loop
            (sop_with (dict_get payload "actor") (dict_get payload "patient_id")
                      (dict_get payload "accession_number")));
    [reflexivity | intros; repeat split | exact H7].
Qed.

(** C5, amended.  When [receive_ian], [ingest_ian] or [ingest_mpps] creates
    its entity, every UID of the normalised UID list has a SOPInstance
    afterwards, whatever the status of the entity; the records added carry
    the source AE and, for the two handlers, the patient id and the
    accession number of the payload, and no record is taken away.
    [create_ups] does the same when the status is COMPLETED. *)
Theorem created_entity_fans_out :
  (forall ian_id source sop_uids availability_status w w' r,
     receive_ian ian_id source sop_uids availability_status w = (Ret r, w') ->
     reply_status r = "created" ->
     fanned_out (Py.comma_list (default "" sop_uids))
       (fun d => SOP.stored_at_aet d = of_opt (Py.or_ source (Some ""))) w w')
  /\ (forall payload h w w' r,
        ingest_ian json_dumps payload h w = (Ret r, w') ->
        reply_status r = "created" ->
        fanned_out
          (split_uids (normalize_uids (or_ (dict_get payload "sop_instance_uids")
                                           (dict_get payload "sop_uids"))))
          (fun d => SOP.stored_at_aet d = dict_get payload "source"
                    /\ SOP.patient_id d = dict_get payload "patient_id"
                    /\ SOP.accession_number d = dict_get payload "accession_number")
          w w')
  /\ (forall payload h w w' r,
        ingest_mpps json_dumps payload h w = (Ret r, w') ->
        reply_status r = "created" ->
        fanned_out
          (split_uids (normalize_uids (dict_get payload "instance_uids")))
          (fun d => SOP.stored_at_aet d = dict_get payload "actor"
                    /\ SOP.patient_id d = dict_get payload "patient_id"
                    /\ SOP.accession_number d = dict_get payload "accession_number")
          w w')
  /\ (forall ups_id rp_id ups_status actor instance_uids w w' r,
        create_ups ups_id rp_id ups_status actor instance_uids w = (Ret r, w') ->
        reply_status r = "created" ->
        ups_status = Some "COMPLETED" ->
        fanned_out (Py.comma_list (default "" instance_uids)) (fun _ => True) w w').
Proof.
  split; [exact receive_ian_fans_out|].
  split; [exact ingest_ian_fans_out|].
  split; [exact ingest_mpps_fans_out | exact create_ups_fans_out].
Qed.

End fan_out.

Lemma created_entity_fans_out_witness :
  fanned_out
    (split_uids (normalize_uids (or_ (dict_get ian_payload "sop_instance_uids")
                                     (dict_get ian_payload "sop_uids"))))
    (fun d => SOP.stored_at_aet d = dict_get ian_payload "source"
              /\ SOP.patient_id d = dict_get ian_payload "patient_id"
              /\ SOP.accession_number d = dict_get ian_payload "accession_number")
    empty_world (snd (ingest_ian dumps0 ian_payload None empty_world))
  /\ fanned_out (Py.comma_list "1.2.3.4, 1.2.3.5") (fun _ => True)
       empty_world
       (snd (create_ups (Some "UPS-1") None (Some "COMPLETED") None
               (Some "1.2.3.4, 1.2.3.5") empty_world)).
Proof.
  destruct (created_entity_fans_out dumps0) as (_ & Hian & _ & Hups).
  split.
  - apply (Hian ian_payload None empty_world _
             {| reply_status := "created"; reply_id := VStr "IAN-20251114-0001" |});
      [vm_compute; reflexivity | reflexivity].
  - apply (Hups (Some "UPS-1") None (Some "COMPLETED") None (Some "1.2.3.4, 1.2.3.5")
             empty_world _ {| reply_status := "created"; reply_id := VStr "UPS-1" |});
      [vm_compute; reflexivity | reflexivity | reflexivity].
Defined.

(** C5 as stated fails for a Unified Procedure Step that is not COMPLETED:
    it is created, and its instance UID gets no SOPInstance. *)
Lemma create_ups_scheduled_counterexample :
  let run := create_ups (Some "UPS-1") None (Some "SCHEDULED") None (Some "1.2.3.4")
               empty_world in
  fst run = Ret {| reply_status := "created"; reply_id := VStr "UPS-1" |}
  /\ In "1.2.3.4" (Py.comma_list "1.2.3.4")
  /\ rows_with (VStr "1.2.3.4") (tabSOP (snd run)) = [].
Proof. vm_compute. split; [reflexivity | split; [left; reflexivity | reflexivity]]. Qed.

Example ingest_ian_creates_instances :
  tabSOP (snd (ingest_ian dumps0 ian_payload None empty_world))
  = [sop_with (VStr "OrthancAE") VNone VNone "1.2.3.4" (VStr "2025-11-14 16:00:00");
     sop_with (VStr "OrthancAE") VNone VNone "1.2.3.5" (VStr "2025-11-14 16:00:00")].
Proof. vm_compute. reflexivity. Qed.

(** ** One SOPInstance per UID *)

#[global] Instance sop_grows_preorder : PreOrder sop_grows.
Proof.
  split.
  - intros w. split; [exists []; symmetry; apply app_nil_r | exact (fun H => H)].
  - intros x y z [[n1 H1] N1] [[n2 H2] N2]. split.
    + exists (n1 ++ n2). rewrite H2, H1, <- app_assoc. reflexivity.
    + intros H. apply N2, N1, H.
Qed.

Lemma sop_grows_same (w w' : World) : tabSOP w' = tabSOP w -> sop_grows w w'.
Proof.
  intros E. split; [exists []; rewrite E; symmetry; apply app_nil_r|].
  unfold sop_uids_of. rewrite E. exact (fun H => H).
Qed.

Lemma rows_with_nil_not_in (k : PyVal) (l : list SOP.doc) :
  rows_with k l = [] -> ~ In k (List.map SOP.sop_uid l).
Proof.
  unfold rows_with. intros Hnil Hin. apply in_map_iff in Hin as (d & Hd & Hin).
  assert (H : In d (List.filter (fun d => bool_decide (key d = k)) l)).
  { apply filter_In. split; [exact Hin|]. apply bool_decide_eq_true. exact Hd. }
  rewrite Hnil in H. destruct H.
Qed.

(** One get-or-create step keeps the table duplicate-free. *)
Lemma ensure_sop_grows (mk : string -> PyVal -> SOP.doc) (uid : string) :
  (forall u t, SOP.sop_uid (mk u t) = VStr u) ->
  steps sop_grows (ensure_sop mk uid).
Proof.
  intros Hmk w. unfold ensure_sop. run.
  destruct (db_fault w) eqn:Hf; [reflexivity|].
  change (tab (D := SOP.doc) w) with (tabSOP w).
  destruct (rows_with (VStr uid) (tabSOP w)) as [|x xs] eqn:Hrows; [|reflexivity].
  run. cbn [now]. cbv beta iota. run. cbn [snd].
  split; [eexists; reflexivity|].
  unfold sop_uids_of. cbn. rewrite List.map_app. cbn. rewrite Hmk. intros Hnd.
  apply NoDup_app. split; [exact Hnd|]. split.
  - intros k Hin Hk. apply list_elem_of_singleton in Hk as ->.
    apply list_elem_of_In in Hin. exact (rows_with_nil_not_in _ _ Hrows Hin).
  - apply NoDup_singleton.
Qed.

Lemma get_or_create_sopinstance_grows (uid : string) (a p n : PyVal) :
  steps sop_grows (get_or_create_sopinstance uid a p n).
Proof. exact (ensure_sop_grows (sop_with a p n) uid (fun _ _ => eq_refl)). Qed.

(** Like [steps_go], for [sop_grows]: a get-or-create step is taken as a
    whole, every other write leaves the SOPInstance table as it is. *)
Ltac sop_grows_go :=
  steps_with ltac:(first
    [ apply get_or_create_sopinstance_grows
    | apply (ensure_sop_grows sop_bare); intros; reflexivity
    | apply (ensure_sop_grows (sop_with _ _ _)); intros; reflexivity ]);
  try (intros; apply sop_grows_same; reflexivity).

Lemma receive_ian_grows (a b c d : option string) : steps sop_grows (receive_ian a b c d).
Proof. unfold receive_ian. sop_grows_go. Qed.

Lemma create_pps_grows (a b c d e f : option string) :
  steps sop_grows (create_pps a b c d e f).
Proof. unfold create_pps. sop_grows_go. Qed.

Lemma create_ups_grows (a b c d e : option string) : steps sop_grows (create_ups a b c d e).
Proof. unfold create_ups. sop_grows_go. Qed.

Lemma process_ian_grows (k : PyVal) : steps sop_grows (_process_ian k).
Proof. unfold _process_ian, uid_entries. sop_grows_go. Qed.

Lemma process_pps_grows (k : PyVal) : steps sop_grows (_process_pps k).
Proof. unfold _process_pps, process_pps_sps, uid_entries. sop_grows_go. Qed.

Section sop_invariant.

Variable json_dumps : Json -> string.

Lemma ingest_ian_grows (p : gmap string PyVal) (h : option Headers) :
  steps sop_grows (ingest_ian json_dumps p h).
Proof.
  unfold ingest_ian, check_signature, verify_signature, compare_digest,
    enqueue_process_ian.
  cbv zeta. sop_grows_go.
Qed.

Lemma ingest_mpps_grows (p : gmap string PyVal) (h : option Headers) :
  steps sop_grows (ingest_mpps json_dumps p h).
Proof.
  unfold ingest_mpps, check_signature, verify_signature, compare_digest,
    complete_sps, enqueue_process_pps.
  cbv zeta. sop_grows_go.
Qed.

Lemma run_call_grows (c : Call) (w : World) : sop_grows w (run_call json_dumps c w).
Proof.
  destruct c; cbn [run_call].
  - apply receive_ian_grows.
  - apply create_pps_grows.
  - apply create_ups_grows.
  - apply process_ian_grows.
  - apply process_pps_grows.
  - apply ingest_ian_grows.
  - apply ingest_mpps_grows.
Qed.

Lemma run_calls_grows (calls : list Call) (w : World) :
  sop_grows w (run_calls json_dumps calls w).
Proof.
  revert w. induction calls as [|c calls IH]; intros w; [reflexivity|].
  cbn. etransitivity; [apply run_call_grows | apply IH].
Qed.

Lemma NoDup_map_eq {A B : Type} (f : A -> B) (l : list A) (x y : A) :
  NoDup (List.map f l) -> In x l -> In y l -> f x = f y -> x = y.
Proof.
  induction l as [|a l IH]; cbn; [intros _ []|].
  intros Hnd Hx Hy Hf. apply NoDup_cons in Hnd as [Hna Hnd].
  destruct Hx as [-> | Hx], Hy as [-> | Hy].
  - reflexivity.
  - exfalso. apply Hna. rewrite Hf. apply list_elem_of_In, in_map, Hy.
  - exfalso. apply Hna. rewrite <- Hf. apply list_elem_of_In, in_map, Hx.
  - apply IH; assumption.
Qed.

(** C4.  Start from a store that holds no SOP UID twice and run any
    sequence of IAN, MPPS and UPS calls and of their workers, failing ones
    included.  The store still holds no SOP UID twice, the records it held
    are still there, in place and unchanged, and the record found under
    the UID of an earlier record is that earlier record. *)
Theorem one_sopinstance_per_uid (calls : list Call) (w : World) :
  NoDup (sop_uids_of w) ->
  let w' := run_calls json_dumps calls w in
  NoDup (sop_uids_of w')
  /\ (exists news, tabSOP w' = tabSOP w ++ news)
  /\ (forall d d', In d (tabSOP w) -> In d' (tabSOP w') ->
        SOP.sop_uid d' = SOP.sop_uid d -> d' = d).
Proof.
  intros Hnd w'. destruct (run_calls_grows calls w) as [[news Htab] Hkeep].
  fold w' in Htab, Hkeep. specialize (Hkeep Hnd).
  split; [exact Hkeep|]. split; [exists news; exact Htab|].
  intros d d' Hd Hd' Hu.
  apply (NoDup_map_eq SOP.sop_uid (tabSOP w')); [exact Hkeep | exact Hd' | | exact Hu].
  rewrite Htab. apply in_or_app. left. exact Hd.
Qed.

End sop_invariant.

Lemma one_sopinstance_per_uid_witness :
  let w' := run_calls dumps0 sighting_calls empty_world in
  NoDup (sop_uids_of w')
  /\ (exists news, tabSOP w' = tabSOP empty_world ++ news)
  /\ (forall d d', In d (tabSOP empty_world) -> In d' (tabSOP w') ->
        SOP.sop_uid d' = SOP.sop_uid d -> d' = d).
Proof.
  exact (one_sopinstance_per_uid dumps0 sighting_calls empty_world (NoDup_nil_2 (A := PyVal))).
Defined.

(** The later sightings create their own IAN and UPS records and leave the
    SOPInstance of the first sighting as it was written. *)
Example second_sighting_keeps_metadata :
  let w' := run_calls dumps0 sighting_calls empty_world in
  tabSOP w'
  = [sop_with (VStr "OrthancAE") VNone VNone "1.2.3.4" (VStr "2025-11-14 16:00:00");
     sop_with (VStr "OrthancAE") VNone VNone "1.2.3.5" (VStr "2025-11-14 16:00:00")]
  /\ length (tabIAN w') = 2%nat /\ length (tabUPS w') = 1%nat.
Proof. vm_compute. repeat split. Qed.

(** ** Idempotent submission *)

Lemma rows_with_snoc_key {D : Type} `{DocType D} (k : PyVal) (l : list D) (d : D) :
  key d = k -> rows_with k (l ++ [d]) <> [].
Proof.
  intros Hk. rewrite rows_with_app. unfold rows_with at 2. cbn.
  rewrite bool_decide_true by exact Hk.
  intros E. apply app_eq_nil in E as [_ E]. discriminate E.
Qed.

Ltac view_frame view H :=
  apply (steps_run (unchanged view)) in H;
  [unfold unchanged in H | steps_go; intros; reflexivity].

Lemma get_all_ret_inv (D : Type) `{DocType D} (k : PyVal) (w w' : World) (l : list D) :
  get_all D k w = (Ret l, w') ->
  w' = w /\ db_fault w = None /\ l = rows_with k (tab w).
Proof.
  rewrite get_all_run. destruct (db_fault w); [discriminate|].
  intros [= <- <-]. repeat split.
Qed.

Lemma insert_ret_inv {D : Type} `{DocType D} (d : D) (w w' : World) :
  insert d w = (Ret tt, w') ->
  w' = set_journal (journal w ++ [Insert (doctype (D := D)) (key d)])
         (set_tab (tab w ++ [d]) w).
Proof.
  rewrite insert_run. destruct (db_fault w); [discriminate|]. intros [= <-]. reflexivity.
Qed.

Lemma require_inv (cond : bool) (msg : string) (w w' : World) :
  (if cond then pass else throw msg) w = (Ret tt, w') -> cond = true /\ w' = w.
Proof. destruct cond; [intros [= <-]; split; reflexivity | discriminate]. Qed.

(** *** The endpoints of api.py *)

Lemma receive_ian_stores (ian_id source sop_uids st : option string) (w w' : World) (r : Reply) :
  receive_ian ian_id source sop_uids st w = (Ret r, w') ->
  Py.truthy ian_id = true /\ db_fault w' = None
  /\ rows_with (of_opt ian_id) (tabIAN w') <> [].
Proof.
  unfold receive_ian. intros H.
  apply bind_ret_inv in H as ([] & w1 & H1 & H). apply require_inv in H1 as [Hid ->].
  apply bind_ret_inv in H as (existing & w2 & H2 & H).
  apply get_all_ret_inv in H2 as (-> & Hf & ->).
  split; [exact Hid|].
  destruct (rows_with _ _) as [|row rows] eqn:Hrows.
  - apply bind_ret_inv in H as (ts & w3 & H3 & H). injection H3 as _ <-.
    apply bind_ret_inv in H as ([] & w4 & H4 & H). apply insert_ret_inv in H4.
    apply bind_ret_inv in H as (? & w5 & H5 & H).
    apply (steps_run (unchanged ian_view)) in H5;
      [|destruct (Py.truthy sop_uids); steps_go; intros; reflexivity].
    apply bind_ret_inv in H as (? & w6 & H6 & H). view_frame ian_view H6.
    injection H as _ <-. unfold unchanged in *.
    assert (E : ian_view w6 = ian_view w4) by congruence.
    unfold ian_view in E. injection E as -> ->. rewrite H4. cbn. split; [exact Hf|].
    apply (@rows_with_snoc_key IAN.doc IAN_doctype). reflexivity.
  - injection H as _ <-. split; [exact Hf|].
    change (tab (D := IAN.doc) w) with (tabIAN w) in Hrows. rewrite Hrows. discriminate.
Qed.

Lemma receive_ian_exists (ian_id source sop_uids st : option string) (w : World) :
  Py.truthy ian_id = true -> db_fault w = None ->
  rows_with (of_opt ian_id) (tabIAN w) <> [] ->
  receive_ian ian_id source sop_uids st w
  = (Ret {| reply_status := "exists"; reply_id := of_opt ian_id |}, w).
Proof.
  intros Hid Hf Hrows. unfold receive_ian. rewrite Hid. run.
  change (tab (D := IAN.doc) w) with (tabIAN w).
  destruct (rows_with _ _); [contradiction | reflexivity].
Qed.

Lemma create_pps_stores (pps_uid sps_uid rp_id actor status uids : option string)
  (w w' : World) (r : Reply) :
  create_pps pps_uid sps_uid rp_id actor status uids w = (Ret r, w') ->
  Py.truthy pps_uid = true /\ db_fault w' = None
  /\ rows_with (of_opt pps_uid) (tabPPS w') <> [].
Proof.
  unfold create_pps. intros H.
  apply bind_ret_inv in H as ([] & w1 & H1 & H). apply require_inv in H1 as [Hid ->].
  apply bind_ret_inv in H as (existing & w2 & H2 & H).
  apply get_all_ret_inv in H2 as (-> & Hf & ->).
  split; [exact Hid|].
  destruct (rows_with _ _) as [|row rows] eqn:Hrows.
  - apply bind_ret_inv in H as (ts & w3 & H3 & H). injection H3 as _ <-.
    apply bind_ret_inv in H as ([] & w4 & H4 & H). apply insert_ret_inv in H4.
    apply bind_ret_inv in H as (? & w5 & H5 & H). view_frame pps_view H5.
    injection H as _ <-. unfold pps_view in *.
    injection H5 as -> ->. rewrite H4. cbn. split; [exact Hf|].
    apply (@rows_with_snoc_key PPS.doc PPS_doctype). reflexivity.
  - injection H as _ <-. split; [exact Hf|].
    change (tab (D := PPS.doc) w) with (tabPPS w) in Hrows. rewrite Hrows. discriminate.
Qed.

Lemma create_pps_exists (pps_uid sps_uid rp_id actor status uids : option string) (w : World) :
  Py.truthy pps_uid = true -> db_fault w = None ->
  rows_with (of_opt pps_uid) (tabPPS w) <> [] ->
  create_pps pps_uid sps_uid rp_id actor status uids w
  = (Ret {| reply_status := "exists"; reply_id := of_opt pps_uid |}, w).
Proof.
  intros Hid Hf Hrows. unfold create_pps. rewrite Hid. run.
  change (tab (D := PPS.doc) w) with (tabPPS w).
  destruct (rows_with _ _); [contradiction | reflexivity].
Qed.

Lemma create_ups_stores (ups_id rp_id ups_status actor uids : option string)
  (w w' : World) (r : Reply) :
  create_ups ups_id rp_id ups_status actor uids w = (Ret r, w') ->
  Py.truthy ups_id = true /\ db_fault w' = None
  /\ rows_with (of_opt ups_id) (tabUPS w') <> [].
Proof.
  unfold create_ups. intros H.
  apply bind_ret_inv in H as ([] & w1 & H1 & H). apply require_inv in H1 as [Hid ->].
  apply bind_ret_inv in H as (existing & w2 & H2 & H).
  apply get_all_ret_inv in H2 as (-> & Hf & ->).
  split; [exact Hid|].
  destruct (rows_with _ _) as [|row rows] eqn:Hrows.
  - apply bind_ret_inv in H as (started & w3 & H3 & H).
    rewrite now_if_run in H3. injection H3 as _ <-.
    apply bind_ret_inv in H as (ended & w4 & H4 & H).
    rewrite now_if_run in H4. injection H4 as _ <-.
    apply bind_ret_inv in H as ([] & w5 & H5 & H). apply insert_ret_inv in H5.
    apply bind_ret_inv in H as (? & w6 & H6 & H).
    apply (steps_run (unchanged ups_view)) in H6;
      [|destruct (_ && _); steps_go; intros; reflexivity].
    injection H as _ <-. unfold unchanged, ups_view in *.
    injection H6 as -> ->. rewrite H5. cbn. split; [exact Hf|].
    apply (@rows_with_snoc_key UPS.doc UPS_doctype). reflexivity.
  - injection H as _ <-. split; [exact Hf|].
    change (tab (D := UPS.doc) w) with (tabUPS w) in Hrows. rewrite Hrows. discriminate.
Qed.

Lemma create_ups_exists (ups_id rp_id ups_status actor uids : option string) (w : World) :
  Py.truthy ups_id = true -> db_fault w = None ->
  rows_with (of_opt ups_id) (tabUPS w) <> [] ->
  create_ups ups_id rp_id ups_status actor uids w
  = (Ret {| reply_status := "exists"; reply_id := of_opt ups_id |}, w).
Proof.
  intros Hid Hf Hrows. unfold create_ups. rewrite Hid. run.
  change (tab (D := UPS.doc) w) with (tabUPS w).
  destruct (rows_with _ _); [contradiction | reflexivity].
Qed.

(** *** The handlers *)

Lemma compare_digest_world (a b : string) (w : World) :
  compare_digest a b w = (fst (compare_digest a b empty_world), w).
Proof. unfold compare_digest. destruct (is_ascii a && is_ascii b); reflexivity. Qed.

Section idempotence.

Variable json_dumps : Json -> string.

(** Whether the signature step lets a request through depends on the
    configured secret only, and a request it lets through has changed
    nothing. *)
Lemma check_signature_passes (payload : gmap string PyVal) (h : option Headers) (w : World) :
  fst (check_signature json_dumps payload h w) = Ret tt ->
  forall w1, conf_secret w1 = conf_secret w ->
    check_signature json_dumps payload h w1 = (Ret tt, w1).
Proof.
  unfold check_signature. cbv zeta.
  destruct (headers_truthy h) eqn:Hh; [|reflexivity].
  destruct h as [d|]; [|discriminate Hh].
  intros H w1 Hc. rewrite bind_run in H |- *.
  destruct (conf_secret w) as [secret|] eqn:Hs.
  - destruct (Py.nonempty secret) eqn:Hne.
    + assert (Hne' : secret <> "") by (intros ->; discriminate Hne).
      rewrite (verify_signature_secret secret d _ w Hs Hne') in H.
      rewrite (verify_signature_secret secret d _ w1 Hc Hne').
      cbv zeta in H |- *.
      destruct (Py.truthy _); [|discriminate H].
      rewrite compare_digest_world in H. rewrite compare_digest_world.
      destruct (fst (compare_digest _ _ empty_world)) as [[|]|e];
        [reflexivity | discriminate H | discriminate H].
    + rewrite verify_signature_no_secret by (rewrite Hc; cbn; rewrite Hne; reflexivity).
      reflexivity.
  - rewrite verify_signature_no_secret by (rewrite Hc; reflexivity). reflexivity.
Qed.

Lemma ingest_ian_stores (payload : gmap string PyVal) (h : option Headers)
  (w w' : World) (r : Reply) :
  ingest_ian json_dumps payload h w = (Ret r, w') ->
  fst (check_signature json_dumps payload h w) = Ret tt
  /\ truthy (dict_get payload "ian_id") = true
  /\ db_fault w' = None /\ conf_secret w' = conf_secret w
  /\ rows_with (dict_get payload "ian_id") (tabIAN w') <> [].
Proof.
  unfold ingest_ian. intros H.
  apply bind_ret_inv in H as ([] & w1 & H1 & H).
  split; [rewrite H1; reflexivity|].
  pose proof (check_signature_passes payload h w) as Hp. rewrite H1 in Hp.
  specialize (Hp eq_refl w eq_refl). rewrite H1 in Hp. injection Hp as ->.
  apply bind_ret_inv in H as ([] & w2 & H2 & H). apply require_inv in H2 as [Hid ->].
  apply bind_ret_inv in H as (existing & w3 & H3 & H).
  apply get_all_ret_inv in H3 as (-> & Hf & ->).
  split; [exact Hid|].
  destruct (rows_with _ _) as [|row rows] eqn:Hrows.
  - apply try_except_reraise_inv in H.
    apply bind_ret_inv in H as (ts & w4 & H4 & H). view_frame ian_auth_view H4.
    apply bind_ret_inv in H as ([] & w5 & H5 & H). apply insert_ret_inv in H5.
    apply bind_ret_inv in H as (? & w6 & H6 & H). view_frame ian_auth_view H6.
    apply bind_ret_inv in H as (? & w7 & H7 & H).
    unfold enqueue_process_ian in H7. view_frame ian_auth_view H7.
    injection H as _ <-.
    assert (E : ian_auth_view w7 = ian_auth_view w5) by congruence.
    unfold ian_auth_view in E, H4. injection E as -> -> ->. rewrite H5. cbn.
    injection H4 as _ -> ->.
    split; [exact Hf|]. split; [reflexivity|].
    apply (@rows_with_snoc_key IAN.doc IAN_doctype). reflexivity.
  - injection H as _ <-. split; [exact Hf|]. split; [reflexivity|].
    change (tab (D := IAN.doc) w) with (tabIAN w) in Hrows. rewrite Hrows. discriminate.
Qed.

Lemma ingest_ian_exists (payload : gmap string PyVal) (h : option Headers) (w : World) :
  check_signature json_dumps payload h w = (Ret tt, w) ->
  truthy (dict_get payload "ian_id") = true -> db_fault w = None ->
  rows_with (dict_get payload "ian_id") (tabIAN w) <> [] ->
  ingest_ian json_dumps payload h w
  = (Ret {| reply_status := "exists"; reply_id := dict_get payload "ian_id" |}, w).
Proof.
  intros Hc Hid Hf Hrows. unfold ingest_ian. rewrite bind_run, Hc, Hid. run.
  change (tab (D := IAN.doc) w) with (tabIAN w).
  destruct (rows_with _ _); [contradiction | reflexivity].
Qed.

Lemma ingest_mpps_stores (payload : gmap string PyVal) (h : option Headers)
  (w w' : World) (r : Reply) :
  ingest_mpps json_dumps payload h w = (Ret r, w') ->
  fst (check_signature json_dumps payload h w) = Ret tt
  /\ truthy (dict_get payload "pps_uid") = true
  /\ db_fault w' = None /\ conf_secret w' = conf_secret w
  /\ rows_with (dict_get payload "pps_uid") (tabPPS w') <> [].
Proof.
  unfold ingest_mpps. intros H.
  apply bind_ret_inv in H as ([] & w1 & H1 & H).
  split; [rewrite H1; reflexivity|].
  pose proof (check_signature_passes payload h w) as Hp. rewrite H1 in Hp.
  specialize (Hp eq_refl w eq_refl). rewrite H1 in Hp. injection Hp as ->.
  apply bind_ret_inv in H as ([] & w2 & H2 & H). apply require_inv in H2 as [Hid ->].
  apply bind_ret_inv in H as (existing & w3 & H3 & H).
  apply get_all_ret_inv in H3 as (-> & Hf & ->).
  split; [exact Hid|].
  destruct (rows_with _ _) as [|row rows] eqn:Hrows.
  - apply try_except_reraise_inv in H.
    apply bind_ret_inv in H as (ts & w4 & H4 & H). view_frame pps_auth_view H4.
    apply bind_ret_inv in H as ([] & w5 & H5 & H). apply insert_ret_inv in H5.
    apply bind_ret_inv in H as (? & w6 & H6 & H).
    apply (steps_run (unchanged pps_auth_view)) in H6;
      [|apply complete_sps_frame; intros; reflexivity].
    apply bind_ret_inv in H as (? & w7 & H7 & H). view_frame pps_auth_view H7.
    apply bind_ret_inv in H as (? & w8 & H8 & H).
    unfold enqueue_process_pps in H8. view_frame pps_auth_view H8.
    injection H as _ <-. unfold unchanged in H6.
    assert (E : pps_auth_view w8 = pps_auth_view w5) by congruence.
    unfold pps_auth_view in E, H4. injection E as -> -> ->. rewrite H5. cbn.
    injection H4 as _ -> ->.
    split; [exact Hf|]. split; [reflexivity|].
    apply (@rows_with_snoc_key PPS.doc PPS_doctype). reflexivity.
  - injection H as _ <-. split; [exact Hf|]. split; [reflexivity|].
    change (tab (D := PPS.doc) w) with (tabPPS w) in Hrows. rewrite Hrows. discriminate.
Qed.

Lemma ingest_mpps_exists (payload : gmap string PyVal) (h : option Headers) (w : World) :
  check_signature json_dumps payload h w = (Ret tt, w) ->
  truthy (dict_get payload "pps_uid") = true -> db_fault w = None ->
  rows_with (dict_get payload "pps_uid") (tabPPS w) <> [] ->
  ingest_mpps json_dumps payload h w
  = (Ret {| reply_status := "exists"; reply_id := dict_get payload "pps_uid" |}, w).
Proof.
  intros Hc Hid Hf Hrows. unfold ingest_mpps. rewrite bind_run, Hc, Hid. run.
  change (tab (D := PPS.doc) w) with (tabPPS w).
  destruct (rows_with _ _); [contradiction | reflexivity].
Qed.

End idempotence.

(** *** The gateway and the claim *)

Section resubmission.

Variable json_loads : string -> option Json.
Variable json_dumps : Json -> string.
Variable HL7APY_AVAILABLE : bool.
Variable Hl7 : Type.
Variable parse_message : string -> option Hl7.
Variable attr_er7 : Hl7 -> string -> string -> option string.
Variable segment_er7 : Hl7 -> string -> string -> SegLookup.

Local Abbreviation normalize_request' :=
  (normalize_request json_loads json_dumps HL7APY_AVAILABLE Hl7 parse_message
     attr_er7 segment_er7).
Local Abbreviation ihe_receive_message' :=
  (ihe_receive_message json_loads json_dumps HL7APY_AVAILABLE Hl7 parse_message
     attr_er7 segment_er7).

Lemma message_stores (req : Request) (w w0 w1 : World) (msg : NormalizedMessage)
  (resp : Response) (d : ResponseData) :
  normalize_request' req w = (Ret msg, w0) ->
  truthy (message_id msg) = true ->
  ihe_receive_message' req w = (Ret resp, w1) ->
  resp_data resp = Some d ->
  db_fault w1 = None
  /\ exists row rest,
       rows_with (message_id msg) (tabMessage w1) = row :: rest /\ d = data_of row.
Proof.
  intros Hn Hid. unfold ihe_receive_message, try_except, ihe_receive_message_body.
  cbv zeta. rewrite bind_run, Hn, Hid. run.
  destruct (db_fault w0) eqn:Hf; [intros [= <- <-]; discriminate|].
  change (tab (D := Message.doc) w0) with (tabMessage w0).
  destruct (rows_with (message_id msg) (tabMessage w0)) as [|row rest] eqn:Hrows.
  - run. cbn [now]. cbv beta iota. run. unfold db_commit. rewrite db_guard_run.
    cbn. rewrite Hf. intros [= <- <-] [= <-]. cbn. split; [exact Hf|].
    eexists _, []. rewrite List.filter_app.
    change (List.filter _ (tabMessage w0)) with (rows_with (message_id msg) (tabMessage w0)).
    rewrite Hrows. cbn. rewrite bool_decide_true by reflexivity.
    split; reflexivity.
  - intros [= <- <-] [= <-]. split; [exact Hf|]. exists row, rest.
    split; [exact Hrows | reflexivity].
Qed.

Lemma message_exists (req : Request) (w w' : World) (msg : NormalizedMessage)
  (row : Message.doc) (rest : list Message.doc) :
  normalize_request' req w = (Ret msg, w') ->
  truthy (message_id msg) = true -> db_fault w' = None ->
  rows_with (message_id msg) (tabMessage w') = row :: rest ->
  ihe_receive_message' req w
  = (Ret {| resp_status := "200"; resp_message := "Message already exists";
            resp_data := Some (data_of row); resp_error := None |}, w').
Proof.
  intros Hn Hid Hf Hrows. unfold ihe_receive_message, try_except, ihe_receive_message_body.
  cbv zeta. rewrite bind_run, Hn, Hid. run.
  change (tab (D := Message.doc) w') with (tabMessage w'). rewrite Hrows. reflexivity.
Qed.

(** C1.  A second submission under an identifier that a first submission
    was accepted under finds the stored record: [receive_ian],
    [create_pps], [create_ups], [ingest_ian] and [ingest_mpps] answer
    exists with the identifier, and the gateway answers 200 with the
    message id, status and correlation id the first response carried.  In
    each case the world is left exactly as it was, so nothing is written;
    the gateway may only have advanced the hash counter while normalising.
    For the two handlers the second request has to pass the signature
    step, as the first one did. *)
Theorem resubmission_returns_existing :
  (forall ian_id a b c a' b' c' w r w1,
     receive_ian ian_id a b c w = (Ret r, w1) ->
     receive_ian ian_id a' b' c' w1
     = (Ret {| reply_status := "exists"; reply_id := of_opt ian_id |}, w1))
  /\ (forall pps_uid a b c d e a' b' c' d' e' w r w1,
        create_pps pps_uid a b c d e w = (Ret r, w1) ->
        create_pps pps_uid a' b' c' d' e' w1
        = (Ret {| reply_status := "exists"; reply_id := of_opt pps_uid |}, w1))
  /\ (forall ups_id a b c d a' b' c' d' w r w1,
        create_ups ups_id a b c d w = (Ret r, w1) ->
        create_ups ups_id a' b' c' d' w1
        = (Ret {| reply_status := "exists"; reply_id := of_opt ups_id |}, w1))
  /\ (forall payload h w r w1,
        ingest_ian json_dumps payload h w = (Ret r, w1) ->
        forall payload' h',
          dict_get payload' "ian_id" = dict_get payload "ian_id" ->
          (payload' = payload /\ h' = h)
          \/ fst (check_signature json_dumps payload' h' w1) = Ret tt ->
          ingest_ian json_dumps payload' h' w1
          = (Ret {| reply_status := "exists";
                    reply_id := dict_get payload "ian_id" |}, w1))
  /\ (forall payload h w r w1,
        ingest_mpps json_dumps payload h w = (Ret r, w1) ->
        forall payload' h',
          dict_get payload' "pps_uid" = dict_get payload "pps_uid" ->
          (payload' = payload /\ h' = h)
          \/ fst (check_signature json_dumps payload' h' w1) = Ret tt ->
          ingest_mpps json_dumps payload' h' w1
          = (Ret {| reply_status := "exists";
                    reply_id := dict_get payload "pps_uid" |}, w1))
  /\ (forall req w msg w0 resp w1 d,
        normalize_request' req w = (Ret msg, w0) ->
        truthy (message_id msg) = true ->
        ihe_receive_message' req w = (Ret resp, w1) ->
        resp_data resp = Some d ->
        forall req' msg' w1',
          normalize_request' req' w1 = (Ret msg', w1') ->
          message_id msg' = message_id msg ->
          ihe_receive_message' req' w1
          = (Ret {| resp_status := "200"; resp_message := "Message already exists";
                    resp_data := Some d; resp_error := None |}, w1')
          /\ tabMessage w1' = tabMessage w1 /\ journal w1' = journal w1).
Proof.
  split; [|split; [|split; [|split; [|split]]]].
  - intros ian_id a b c a' b' c' w r w1 H.
    apply receive_ian_stores in H as (Hid & Hf & Hrows).
    apply receive_ian_exists; assumption.
  - intros pps_uid a b c d e a' b' c' d' e' w r w1 H.
    apply create_pps_stores in H as (Hid & Hf & Hrows).
    apply create_pps_exists; assumption.
  - intros ups_id a b c d a' b' c' d' w r w1 H.
    apply create_ups_stores in H as (Hid & Hf & Hrows).
    apply create_ups_exists; assumption.
  - intros payload h w r w1 H payload' h' Hsame Hauth.
    apply ingest_ian_stores in H as (Hc & Hid & Hf & Hs & Hrows).
    rewrite <- Hsame in Hid, Hrows |- *.
    apply ingest_ian_exists; try assumption.
    destruct Hauth as [[-> ->] | Hauth].
    + apply (check_signature_passes json_dumps payload h w Hc w1 Hs).
    + apply (check_signature_passes json_dumps payload' h' w1 Hauth w1 eq_refl).
  - intros payload h w r w1 H payload' h' Hsame Hauth.
    apply ingest_mpps_stores in H as (Hc & Hid & Hf & Hs & Hrows).
    rewrite <- Hsame in Hid, Hrows |- *.
    apply ingest_mpps_exists; try assumption.
    destruct Hauth as [[-> ->] | Hauth].
    + apply (check_signature_passes json_dumps payload h w Hc w1 Hs).
    + apply (check_signature_passes json_dumps payload' h' w1 Hauth w1 eq_refl).
  - intros req w msg w0 resp w1 d Hn Hid Hrun Hd req' msg' w1' Hn' Hsame.
    destruct (message_stores req w w0 w1 msg resp d Hn Hid Hrun Hd)
      as (Hf & row & rest & Hrows & ->).
    pose proof (steps_run _ _ _ _ _
      (normalize_request_frame json_loads json_dumps HL7APY_AVAILABLE Hl7 parse_message
         attr_er7 segment_er7 tabMessage req' (fun _ _ => eq_refl)) Hn') as Et.
    pose proof (steps_run _ _ _ _ _
      (normalize_request_frame json_loads json_dumps HL7APY_AVAILABLE Hl7 parse_message
         attr_er7 segment_er7 journal req' (fun _ _ => eq_refl)) Hn') as Ej.
    pose proof (steps_run _ _ _ _ _
      (normalize_request_frame json_loads json_dumps HL7APY_AVAILABLE Hl7 parse_message
         attr_er7 segment_er7 db_fault req' (fun _ _ => eq_refl)) Hn') as Ef.
    unfold unchanged in Et, Ej, Ef.
    split; [|split; assumption].
    apply (message_exists req' w1 w1' msg' row rest Hn').
    + rewrite Hsame. exact Hid.
    + rewrite Ef. exact Hf.
    + rewrite Hsame, Et. exact Hrows.
Qed.

End resubmission.

Lemma resubmission_returns_existing_witness :
  let receive := ihe_receive_message (fun _ => None) dumps0 false unit (fun _ => None)
                   (fun _ _ _ => None) (fun _ _ _ => SegEmpty) in
  let w1 := snd (receive_ian (Some "IAN-1") (Some "OrthancAE") (Some "1.2.3.4")
                   (Some "Available") empty_world) in
  let w2 := snd (ingest_ian dumps0 ian_payload (Some dumps0_headers) secret_world) in
  let w3 := snd (receive hl7_request empty_world) in
  receive_ian (Some "IAN-1") None None None w1
    = (Ret {| reply_status := "exists"; reply_id := VStr "IAN-1" |}, w1)
  /\ ingest_ian dumps0 ian_payload (Some dumps0_headers) w2
    = (Ret {| reply_status := "exists"; reply_id := dict_get ian_payload "ian_id" |}, w2)
  /\ receive hl7_request w3
    = (Ret {| resp_status := "200"; resp_message := "Message already exists";
              resp_data := Some {| data_message_id := VStr "MSG00001";
                                   data_status := VStr "received";
                                   data_correlation_id := VStr "NW" |};
              resp_error := None |}, w3).
Proof.
  intros receive w1 w2 w3.
  destruct (resubmission_returns_existing (fun _ => None) dumps0 false unit
              (fun _ => None) (fun _ _ _ => None) (fun _ _ _ => SegEmpty))
    as (Hian & _ & _ & Hingest & _ & Hmsg).
  split; [|split].
  - apply (Hian (Some "IAN-1") (Some "OrthancAE") (Some "1.2.3.4") (Some "Available")
             None None None empty_world
             {| reply_status := "created"; reply_id := VStr "IAN-1" |}).
    vm_compute. reflexivity.
  - apply (Hingest ian_payload (Some dumps0_headers) secret_world
             {| reply_status := "created"; reply_id := VStr "IAN-20251114-0001" |});
      [vm_compute; reflexivity | reflexivity | left; split; reflexivity].
  - pose (msg := {| message_id := VStr "MSG00001"; message_type := VStr "ORM^O01";
                    payload := VStr SAMPLE_HL7;
                    source_actor := VStr "SendingApp|SendingFac";
                    destination_actor := VStr "ReceivingApp|ReceivingFac";
                    correlation_id := VStr "NW" |}).
    pose (created := {| resp_status := "201"; resp_message := "Message accepted and queued";
                        resp_data := Some {| data_message_id := VStr "MSG00001";
                                             data_status := VStr "received";
                                             data_correlation_id := VStr "NW" |};
                        resp_error := None |}).
    apply (Hmsg hl7_request empty_world msg empty_world created w3 _
             ltac:(vm_compute; reflexivity) eq_refl
             ltac:(vm_compute; reflexivity) eq_refl
             hl7_request msg w3 ltac:(vm_compute; reflexivity) eq_refl).
Defined.

(* ===================================================================== *)
(** * Further properties *)
(* ===================================================================== *)

(** ** What signature verification leaves behind *)

Lemma compare_digest_run (secret : string) (body : list Byte.byte) (sig : string) (w : World) :
  compare_digest (hexdigest secret body) sig w =
  if is_ascii sig then (Ret (String.eqb (hexdigest secret body) sig), w)
  else (Raise TypeError, w).
Proof. unfold compare_digest, hexdigest. rewrite is_ascii_hex. destruct (is_ascii sig); reflexivity. Qed.

(** [verify_signature] as one expression of its inputs. *)
Lemma verify_signature_run (headers : option Headers) (body : list Byte.byte) (w : World) :
  verify_signature headers body w =
  match conf_secret w with
  | None => (Ret true, w)
  | Some secret =>
      if Py.nonempty secret then
        match headers with
        | None => (Raise AttributeError, w)
        | Some h =>
            let sig_header := Py.or_ (h !! "X-Signature") (h !! "X-Hub-Signature") in
            if Py.truthy sig_header then
              if is_ascii (signature_of (default "" sig_header)) then
                if String.eqb (hexdigest secret body) (signature_of (default "" sig_header))
                then (Ret true, w)
                else (Ret false,
                      set_error_log (error_log w ++
                        [("Invalid signature for IAN/MPPS request", "frappe_dwf.signature")]) w)
              else (Raise TypeError, w)
            else (Ret false,
                  set_error_log (error_log w ++
                    [("Missing signature header for IAN/MPPS request", "frappe_dwf.signature")]) w)
        end
      else (Ret true, w)
  end.
Proof.
  destruct (conf_secret w) as [secret|] eqn:Hs.
  2:{ apply verify_signature_no_secret. rewrite Hs. reflexivity. }
  destruct (Py.nonempty secret) eqn:Hne.
  2:{ apply verify_signature_no_secret. rewrite Hs. exact Hne. }
  assert (Hne' : secret <> "") by (intros ->; discriminate Hne).
  destruct headers as [h|].
  - rewrite (verify_signature_secret secret h body w Hs Hne'). cbv zeta.
    destruct (Py.truthy (Py.or_ _ _)); [|reflexivity].
    rewrite compare_digest_run.
    destruct (is_ascii _); [|reflexivity].
    destruct (String.eqb _ _); reflexivity.
  - unfold verify_signature. rewrite bind_run. cbn [get_world]. cbv beta iota.
    rewrite Hs, Hne. reflexivity.
Qed.

(** X1.  [verify_signature] changes the world only when it refuses: a
    call that returns true leaves the world as it was; a call that returns
    false was given a dict of headers and appends exactly one entry to the
    error log, "Invalid signature" when the selected header has a value
    and "Missing signature header" when it has none.  It raises only with a
    secret configured, the world unchanged: AttributeError when the headers
    are None, TypeError when the signature holds a non-ASCII character. *)
Theorem verify_signature_logs_refusals
  (headers : option Headers) (body : list Byte.byte) (w : World) :
  match verify_signature headers body w with
  | (Ret true, w') => w' = w
  | (Ret false, w') =>
      exists h, headers = Some h
        /\ w' = set_error_log
                  (error_log w ++
                   [(if Py.truthy (Py.or_ (h !! "X-Signature") (h !! "X-Hub-Signature"))
                     then "Invalid signature for IAN/MPPS request"
                     else "Missing signature header for IAN/MPPS request",
                     "frappe_dwf.signature")]) w
  | (Raise e, w') =>
      w' = w /\ Py.truthy (conf_secret w) = true
      /\ match headers with
         | None => e = AttributeError
         | Some h =>
             e = TypeError
             /\ is_ascii (signature_of
                  (default "" (Py.or_ (h !! "X-Signature") (h !! "X-Hub-Signature"))))
                = false
         end
  end.
Proof.
  rewrite verify_signature_run.
  destruct (conf_secret w) as [secret|]; [|reflexivity].
  cbn [Py.truthy]. destruct (Py.nonempty secret); [|reflexivity].
  destruct headers as [h|]; [|repeat split; reflexivity].
  cbv zeta. destruct (Py.truthy (Py.or_ _ _)) eqn:Hsel.
  - destruct (is_ascii _) eqn:Ha; [|repeat split; reflexivity].
    destruct (String.eqb _ _); [reflexivity|].
    exists h. rewrite Hsel. split; reflexivity.
  - exists h. rewrite Hsel. split; reflexivity.
Qed.

(** ** Refused requests *)

Lemma bind_raise_inv {A B : Type} (m : M A) (k : A -> M B) (w w' : World) (e : Exc) :
  (m ≫= k) w = (Raise e, w') ->
  m w = (Raise e, w') \/ exists a w1, m w = (Ret a, w1) /\ k a w1 = (Raise e, w').
Proof.
  rewrite bind_run. destruct (m w) as [[a|e0] w1]; intros H.
  - right. exists a, w1. split; [reflexivity | exact H].
  - left. injection H as -> ->. reflexivity.
Qed.

Lemma try_except_reraise_raise_inv {A : Type} (body : M A) (msg : Exc -> string)
  (title : string) (w w' : World) (e : Exc) :
  try_except body (fun e => log_error (msg e) title;; raise e) w = (Raise e, w') ->
  exists w1, body w = (Raise e, w1).
Proof.
  unfold try_except. destruct (body w) as [[a|e0] w1]; [discriminate|].
  rewrite bind_run. cbn. intros [= <- _]. exists w1. reflexivity.
Qed.

Section refusals.

Variable json_dumps : Json -> string.

(** How the signature step can fail. *)
Lemma check_signature_raise_inv (payload : gmap string PyVal) (h : option Headers)
  (w w' : World) (e : Exc) :
  check_signature json_dumps payload h w = (Raise e, w') ->
  (e = Forbidden "Forbidden: invalid signature"
   /\ exists reason,
        w' = set_error_log (error_log w ++ [(reason, "frappe_dwf.signature")]) w)
  \/ ((e = AttributeError \/ e = TypeError) /\ w' = w).
Proof.
  unfold check_signature. cbv zeta.
  destruct (headers_truthy h); [|discriminate].
  rewrite bind_run, verify_signature_run.
  destruct (conf_secret w) as [secret|]; [|discriminate].
  destruct (Py.nonempty secret); [|discriminate].
  destruct h as [d|]; [|intros [= <- <-]; right; split; [left|]; reflexivity].
  cbv zeta. destruct (Py.truthy (Py.or_ _ _)).
  - destruct (is_ascii _); [|intros [= <- <-]; right; split; [right|]; reflexivity].
    destruct (String.eqb _ _); [discriminate|].
    intros [= <- <-]. left. split; [reflexivity|]. eexists. reflexivity.
  - intros [= <- <-]. left. split; [reflexivity|]. eexists. reflexivity.
Qed.

Lemma get_or_create_sopinstance_database (uid : string) (a p n : PyVal) :
  raises_only is_database_error (get_or_create_sopinstance uid a p n).
Proof.
  unfold get_or_create_sopinstance. raises_go; intros; exact I.
Qed.

Lemma complete_sps_never_raises (sps_uid pps_uid : PyVal) (P : Exc -> Prop) :
  raises_only P (complete_sps sps_uid pps_uid).
Proof.
  unfold complete_sps. destruct (truthy sps_uid); [|apply raises_pass].
  apply (raises_try_except _ (fun _ => True)); [intros w e _; exact I|].
  intros e _. apply raises_log_error.
Qed.

(** What is left of [ingest_ian] and [ingest_mpps] once the signature step
    has passed. *)
Lemma ingest_ian_raise_inv (payload : gmap string PyVal) (h : option Headers)
  (w w' : World) (e : Exc) :
  ingest_ian json_dumps payload h w = (Raise e, w') ->
  check_signature json_dumps payload h w = (Raise e, w')
  \/ (e = ValidationError "IAN payload missing required field: ian_id" /\ w' = w
      /\ truthy (dict_get payload "ian_id") = false)
  \/ is_database_error e.
Proof.
  unfold ingest_ian. intros H.
  apply bind_raise_inv in H as [H | ([] & w1 & H1 & H)]; [left; exact H|].
  right.
  pose proof (check_signature_passes json_dumps payload h w) as Hp. rewrite H1 in Hp.
  specialize (Hp eq_refl w eq_refl). rewrite H1 in Hp. injection Hp as ->.
  apply bind_raise_inv in H as [H | ([] & w2 & H2 & H)].
  { destruct (truthy (dict_get payload "ian_id")); [discriminate|].
    injection H as <- <-. left. repeat split. }
  right.
  apply bind_raise_inv in H as [H | (existing & w3 & H3 & H)].
  { exact (raises_get_all is_database_error (fun _ => I) IAN.doc _ w2 e
             ltac:(rewrite H; reflexivity)). }
  destruct existing as [|row rows]; [|discriminate H].
  apply try_except_reraise_raise_inv in H as [w4 H].
  match type of H with ?b _ = _ => assert (Hr : raises_only is_database_error b) end.
  { unfold enqueue_process_ian.
    raises_go; try apply get_or_create_sopinstance_database; intros; exact I. }
  apply (Hr w3 e). rewrite H. reflexivity.
Qed.

Lemma ingest_mpps_raise_inv (payload : gmap string PyVal) (h : option Headers)
  (w w' : World) (e : Exc) :
  ingest_mpps json_dumps payload h w = (Raise e, w') ->
  check_signature json_dumps payload h w = (Raise e, w')
  \/ (e = ValidationError "MPPS payload missing required field: pps_uid" /\ w' = w
      /\ truthy (dict_get payload "pps_uid") = false)
  \/ is_database_error e.
Proof.
  unfold ingest_mpps. intros H.
  apply bind_raise_inv in H as [H | ([] & w1 & H1 & H)]; [left; exact H|].
  right.
  pose proof (check_signature_passes json_dumps payload h w) as Hp. rewrite H1 in Hp.
  specialize (Hp eq_refl w eq_refl). rewrite H1 in Hp. injection Hp as ->.
  apply bind_raise_inv in H as [H | ([] & w2 & H2 & H)].
  { destruct (truthy (dict_get payload "pps_uid")); [discriminate|].
    injection H as <- <-. left. repeat split. }
  right.
  apply bind_raise_inv in H as [H | (existing & w3 & H3 & H)].
  { exact (raises_get_all is_database_error (fun _ => I) PPS.doc _ w2 e
             ltac:(rewrite H; reflexivity)). }
  destruct existing as [|row rows]; [|discriminate H].
  apply try_except_reraise_raise_inv in H as [w4 H].
  match type of H with ?b _ = _ => assert (Hr : raises_only is_database_error b) end.
  { unfold enqueue_process_pps.
    repeat first
      [ apply complete_sps_never_raises
      | apply get_or_create_sopinstance_database
      | progress raises_go ]; intros; exact I. }
  apply (Hr w3 e). rewrite H. reflexivity.
Qed.

(** X4.  A request that [ingest_ian] or [ingest_mpps] refuses, as
    Forbidden or for its missing identifier, has written nothing: tables,
    journal and job queue are as before.  A Forbidden refusal carries the
    text "Forbidden: invalid signature" and has added exactly one entry,
    titled frappe_dwf.signature, to the error log; a refusal for a missing
    identifier leaves the whole world unchanged. *)
Theorem refused_ingestion_writes_nothing
  (payload : gmap string PyVal) (h : option Headers) (w w' : World) (e : Exc) :
  ingest_ian json_dumps payload h w = (Raise e, w')
  \/ ingest_mpps json_dumps payload h w = (Raise e, w') ->
  match e with
  | Forbidden msg =>
      msg = "Forbidden: invalid signature"
      /\ store_view w' = store_view w
      /\ exists reason, error_log w' = error_log w ++ [(reason, "frappe_dwf.signature")]
  | ValidationError _ => w' = w
  | _ => True
  end.
Proof.
  intros H.
  assert (Hcases :
    check_signature json_dumps payload h w = (Raise e, w')
    \/ (exists msg, e = ValidationError msg) /\ w' = w
    \/ is_database_error e).
  { destruct H as [H | H].
    - apply ingest_ian_raise_inv in H as [H | [(-> & -> & _) | H]];
        [left; exact H | right; left; split; [eexists|]; reflexivity | right; right; exact H].
    - apply ingest_mpps_raise_inv in H as [H | [(-> & -> & _) | H]];
        [left; exact H | right; left; split; [eexists|]; reflexivity | right; right; exact H]. }
  destruct Hcases as [Hc | [[[msg ->] ->] | Hd]].
  - apply check_signature_raise_inv in Hc as [[-> [reason ->]] | [[-> | ->] ->]];
      [|exact I | exact I].
    split; [reflexivity|]. split; [reflexivity|]. exists reason. reflexivity.
  - reflexivity.
  - destruct e; try exact I; destruct Hd.
Qed.

End refusals.

Lemma refused_ingestion_writes_nothing_witness :
  store_view (snd (ingest_ian dumps0 ian_payload (Some unsigned_headers) secret_world))
  = store_view secret_world
  /\ snd (ingest_mpps dumps0 ∅ None secret_world) = secret_world.
Proof.
  split.
  - assert (H : ingest_ian dumps0 ian_payload (Some unsigned_headers) secret_world
                = (Raise (Forbidden "Forbidden: invalid signature"),
                   snd (ingest_ian dumps0 ian_payload (Some unsigned_headers) secret_world)))
      by (vm_compute; reflexivity).
    exact (proj1 (proj2 (refused_ingestion_writes_nothing dumps0 ian_payload
                           (Some unsigned_headers) secret_world _ _ (or_introl H)))).
  - assert (H : ingest_mpps dumps0 ∅ None secret_world
                = (Raise (ValidationError "MPPS payload missing required field: pps_uid"),
                   snd (ingest_mpps dumps0 ∅ None secret_world)))
      by (vm_compute; reflexivity).
    exact (refused_ingestion_writes_nothing dumps0 ∅ None secret_world _ _ (or_intror H)).
Defined.

(** ** What the handlers' signature covers *)

Section signed_payload.

Variable json_dumps : Json -> string.

(** The signature step with a secret configured and a signature sent. *)
Lemma check_signature_run (payload : gmap string PyVal) (h : Headers) (w : World)
  (secret v : string) :
  conf_secret w = Some secret -> secret <> "" ->
  Py.or_ (h !! "X-Signature") (h !! "X-Hub-Signature") = Some v -> v <> "" ->
  check_signature json_dumps payload (Some h) w =
  let digest := hexdigest secret (encode_utf8 (json_dumps (JDict payload))) in
  if is_ascii (signature_of v) then
    if String.eqb digest (signature_of v) then (Ret tt, w)
    else (Raise (Forbidden "Forbidden: invalid signature"),
          set_error_log (error_log w ++
            [("Invalid signature for IAN/MPPS request", "frappe_dwf.signature")]) w)
  else (Raise TypeError, w).
Proof.
  intros Hs Hne Hsel Hv. unfold check_signature. cbv zeta.
  assert (Hh : headers_truthy (Some h) = true).
  { cbn. apply negb_true_iff, bool_decide_eq_false. intros ->.
    rewrite !lookup_empty in Hsel. discriminate Hsel. }
  rewrite Hh, bind_run, verify_signature_run, Hs.
  destruct secret as [|c0 s0]; [contradiction|]. cbn [Py.nonempty]. cbv zeta.
  rewrite Hsel. destruct v as [|c1 v1]; [contradiction|].
  cbn [Py.truthy Py.nonempty default from_option id].
  destruct (is_ascii _); [|reflexivity].
  destruct (String.eqb _ _); reflexivity.
Qed.

(** X3.  With a secret configured and a signature sent, [ingest_ian] and
    [ingest_mpps] check the signature against the payload as [json.dumps]
    writes it out again, not against the bytes of the request: the
    signature step passes exactly when the header carries the HMAC-SHA256
    of that text, bare or after sha256=, and a signature made over any
    text with another digest, the body the sender signed included, is
    refused as Forbidden by both handlers. *)
Theorem signature_covers_dumped_payload (payload : gmap string PyVal) (h : Headers)
  (w : World) (secret v : string) :
  conf_secret w = Some secret -> secret <> "" ->
  Py.or_ (h !! "X-Signature") (h !! "X-Hub-Signature") = Some v -> v <> "" ->
  let digest := hexdigest secret (encode_utf8 (json_dumps (JDict payload))) in
  (check_signature json_dumps payload (Some h) w = (Ret tt, w)
   <-> v = "sha256=" +:+ digest \/ v = digest)
  /\ (forall body,
        v = "sha256=" +:+ hexdigest secret body -> hexdigest secret body <> digest ->
        fst (ingest_ian json_dumps payload (Some h) w)
        = Raise (Forbidden "Forbidden: invalid signature")
        /\ fst (ingest_mpps json_dumps payload (Some h) w)
           = Raise (Forbidden "Forbidden: invalid signature")).
Proof.
  intros Hs Hne Hsel Hv digest.
  pose proof (check_signature_run payload h w secret v Hs Hne Hsel Hv) as Hrun.
  cbv zeta in Hrun. subst digest.
  rewrite <- (signature_of_digest v secret (encode_utf8 (json_dumps (JDict payload)))).
  set (digest := hexdigest secret (encode_utf8 (json_dumps (JDict payload)))) in *.
  split.
  - rewrite Hrun. split.
    + destruct (is_ascii (signature_of v)); [|discriminate].
      destruct (String.eqb_spec digest (signature_of v)) as [E|E]; [|discriminate].
      intros _. symmetry. exact E.
    + intros E. rewrite E. unfold digest at 1, hexdigest. rewrite is_ascii_hex.
      rewrite String.eqb_refl. reflexivity.
  - intros body Hbody Hdiff.
    assert (Hsig : signature_of v = hexdigest secret body)
      by (rewrite Hbody; apply signature_of_prefixed).
    rewrite Hsig in Hrun. unfold hexdigest at 1 in Hrun. rewrite is_ascii_hex in Hrun.
    fold (hexdigest secret body) in Hrun.
    destruct (String.eqb_spec digest (hexdigest secret body)) as [E|_];
      [exfalso; apply Hdiff; symmetry; exact E|].
    unfold ingest_ian, ingest_mpps. rewrite !bind_run, Hrun. split; reflexivity.
Qed.

End signed_payload.

Lemma signature_covers_dumped_payload_witness :
  check_signature dumps0 ian_payload (Some dumps0_headers) secret_world
  = (Ret tt, secret_world)
  /\ fst (ingest_ian dumps0 ian_payload (Some signed_headers) secret_world)
     = Raise (Forbidden "Forbidden: invalid signature").
Proof.
  assert (Hkey : "key" <> "") by discriminate.
  split.
  - assert (Hsel : Py.or_ (dumps0_headers !! "X-Signature") (dumps0_headers !! "X-Hub-Signature")
                   = Some ("sha256=" +:+
                           hexdigest "key" (encode_utf8 (dumps0 (JDict ian_payload)))))
      by (vm_compute; reflexivity).
    destruct (signature_covers_dumped_payload dumps0 ian_payload dumps0_headers secret_world
                "key" _ eq_refl Hkey Hsel ltac:(discriminate)) as [Hiff _].
    apply Hiff. left. reflexivity.
  - assert (Hsel : Py.or_ (signed_headers !! "X-Signature") (signed_headers !! "X-Hub-Signature")
                   = Some ("sha256=" +:+ fox_digest)) by (vm_compute; reflexivity).
    destruct (signature_covers_dumped_payload dumps0 ian_payload signed_headers secret_world
                "key" _ eq_refl Hkey Hsel ltac:(discriminate)) as [_ Hother].
    apply (Hother fox); [vm_compute; reflexivity | vm_compute; discriminate].
Defined.

Lemma hex_digits_lower (b : Byte.byte) :
  let n := nat_of_ascii (ascii_of_byte b) in
  is_lower_hex (hex_digit (n / 16)) && is_lower_hex (hex_digit (n mod 16)) = true.
Proof. destruct b; vm_compute; reflexivity. Qed.

Lemma hex_lower (bs : list Byte.byte) : all_chars is_lower_hex (hex bs) = true.
Proof.
  induction bs as [|b bs IH]; [reflexivity|].
  pose proof (hex_digits_lower b) as H. cbv zeta in H.
  apply andb_true_iff in H as [H1 H2].
  cbn [hex all_chars]. rewrite H1, H2, IH. reflexivity.
Qed.

(** X2.  A signature that [verify_signature] accepts under a configured
    secret has, after the optional sha256= prefix, exactly 64 characters,
    all of them lower-case hexadecimal digits: the comparison is exact, so
    a digest written in upper case, or with white space around it, is
    refused. *)
Theorem accepted_signature_is_lower_hex (h : Headers) (body : list Byte.byte) (w : World)
  (secret : string) :
  conf_secret w = Some secret -> secret <> "" ->
  fst (verify_signature (Some h) body w) = Ret true ->
  exists v,
    Py.or_ (h !! "X-Signature") (h !! "X-Hub-Signature") = Some v
    /\ String.length (signature_of v) = 64%nat
    /\ all_chars is_lower_hex (signature_of v) = true.
Proof.
  intros Hs Hne. rewrite verify_signature_run, Hs.
  destruct secret as [|c0 s0]; [contradiction|]. cbn [Py.nonempty]. cbv zeta.
  destruct (Py.or_ (h !! "X-Signature") (h !! "X-Hub-Signature")) as [v|];
    [|discriminate].
  cbn [default from_option id].
  destruct (Py.truthy (Some v)); [|discriminate].
  destruct (is_ascii (signature_of v)); [|discriminate].
  destruct (String.eqb_spec (hexdigest (String c0 s0) body) (signature_of v)) as [E|E];
    [|discriminate].
  intros _. exists v. split; [reflexivity|]. rewrite <- E.
  split; [apply length_hexdigest | apply hex_lower].
Qed.

Lemma accepted_signature_is_lower_hex_witness :
  exists v,
    Py.or_ (signed_headers !! "X-Signature") (signed_headers !! "X-Hub-Signature") = Some v
    /\ String.length (signature_of v) = 64%nat
    /\ all_chars is_lower_hex (signature_of v) = true.
Proof.
  apply (accepted_signature_is_lower_hex signed_headers fox secret_world "key" eq_refl);
    [discriminate | vm_compute; reflexivity].
Defined.

(** ** Requests that create their record *)

Lemma ensure_sop_returns (mk : string -> PyVal -> SOP.doc) (uid : string) (w : World) :
  db_fault w = None ->
  exists w', ensure_sop mk uid w = (Ret tt, w') /\ outside_sop w' = outside_sop w.
Proof.
  intros Hf. unfold ensure_sop. run.
  destruct (rows_with _ _).
  - run. cbn [now]. cbv beta iota. run. eexists. split; reflexivity.
  - exists w. split; reflexivity.
Qed.

Lemma outside_sop_fault (w w' : World) :
  outside_sop w' = outside_sop w -> db_fault w' = db_fault w.
Proof. unfold outside_sop. intros [= _ H _ _ _ _ _ _ _ _ _]. exact H. Qed.

(** On a reachable store the loop over the UIDs returns, and touches
    nothing but the SOPInstance table and the journal. *)
Lemma ensure_sop_loop_returns (mk : string -> PyVal -> SOP.doc) (uids : list string) (w : World) :
  db_fault w = None ->
  exists w', for_each uids (ensure_sop mk) w = (Ret tt, w')
             /\ outside_sop w' = outside_sop w.
Proof.
  revert w. induction uids as [|uid uids IH]; intros w Hf.
  - exists w. split; reflexivity.
  - cbn [for_each]. rewrite bind_run.
    destruct (ensure_sop_returns mk uid w Hf) as (w1 & -> & Hout).
    assert (Hf1 : db_fault w1 = None) by (rewrite (outside_sop_fault _ _ Hout); exact Hf).
    destruct (IH w1 Hf1) as (w' & Hloop & Hout').
    exists w'. split; [exact Hloop | congruence].
Qed.

(** Runs the loop over the UIDs that the goal has reached, on a reachable
    store. *)
Ltac run_loop mk Hf :=
  match goal with
  | |- context [for_each ?l ?b ?w] =>
      let w' := fresh "w" in
      let Hl := fresh "Hloop" in
      let Ho := fresh "Hout" in
      destruct (ensure_sop_loop_returns mk l w Hf) as (w' & Hl & Ho);
      change (for_each l (ensure_sop mk) w) with (for_each l b w) in Hl;
      rewrite Hl; cbv beta iota;
      unfold outside_sop in Ho; cbn in Ho;
      injection Ho as ? ? ? ? ? ? ? ? ? ? ?
  end.

(** X7.  [receive_ian] on a reachable store, with an identifier that is
    not stored yet, returns created: it appends one IAN record with the
    arguments (source and UID list defaulting to the empty string) and the
    current time, enqueues exactly one job, [_process_ian] with the
    identifier, and leaves the other entity tables and the error log
    alone. *)
Theorem receive_ian_creates_record (ian_id source sop_uids st : option string) (w : World) :
  Py.truthy ian_id = true -> db_fault w = None ->
  rows_with (of_opt ian_id) (tabIAN w) = [] ->
  exists w',
    receive_ian ian_id source sop_uids st w
    = (Ret {| reply_status := "created"; reply_id := of_opt ian_id |}, w')
    /\ tabIAN w' = tabIAN w ++
         [{| IAN.ian_id := of_opt ian_id;
             IAN.source := of_opt (Py.or_ source (Some ""));
             IAN.sop_instance_uids := of_opt (Py.or_ sop_uids (Some ""));
             IAN.availability_status := of_opt st;
             IAN.timestamp := VStr (clock w) |}]
    /\ jobs w' = jobs w ++
         [{| method := "frappe_dwf.api._process_ian"; job_arg := of_opt ian_id |}]
    /\ (tabPPS w', tabUPS w', bystanders w') = (tabPPS w, tabUPS w, bystanders w).
Proof.
  intros Hid Hf Hrows. unfold receive_ian. rewrite Hid. run.
  change (tab (D := IAN.doc) w) with (tabIAN w). rewrite Hrows.
  run. cbn [now]. cbv beta iota. run.
  destruct (Py.truthy sop_uids).
  - run_loop (sop_with (of_opt (Py.or_ source (Some ""))) VNone VNone) Hf.
    eexists. split; [reflexivity|]. unfold bystanders. cbn.
    repeat split; congruence.
  - run. eexists. split; [reflexivity|]. repeat split.
Qed.

(** [create_pps] run on a reachable store that does not hold the
    identifier. *)
Lemma create_pps_run (pps_uid sps_uid rp_id actor status instance_uids : option string)
  (w : World) :
  Py.truthy pps_uid = true -> db_fault w = None ->
  rows_with (of_opt pps_uid) (tabPPS w) = [] ->
  create_pps pps_uid sps_uid rp_id actor status instance_uids w
  = (Ret {| reply_status := "created"; reply_id := of_opt pps_uid |},
     set_jobs (jobs w ++ [{| method := "frappe_dwf.api._process_pps";
                             job_arg := of_opt pps_uid |}])
       (set_journal (journal w ++ [Insert "Performed Procedure Step" (of_opt pps_uid)])
          (set_tabPPS
             (tabPPS w ++
              [{| PPS.pps_uid := of_opt pps_uid;
                  PPS.sps := of_opt (Py.or_ sps_uid (Some ""));
                  PPS.rp := of_opt (Py.or_ rp_id (Some ""));
                  PPS.actor := of_opt (Py.or_ actor (Some ""));
                  PPS.status := of_opt status;
                  PPS.instance_uids := of_opt (Py.or_ instance_uids (Some ""));
                  PPS.created_at := VStr (clock w) |}]) w))).
Proof.
  intros Hid Hf Hrows. unfold create_pps. rewrite Hid. run.
  change (tab (D := PPS.doc) w) with (tabPPS w). rewrite Hrows.
  run. cbn [now]. cbv beta iota. run. reflexivity.
Qed.

Lemma receive_ian_creates_record_witness :
  exists w',
    receive_ian (Some "IAN-2") (Some "OtherAE") (Some "1.2.3.4, 1.2.3.5") (Some "Available")
      empty_world
    = (Ret {| reply_status := "created"; reply_id := VStr "IAN-2" |}, w')
    /\ jobs w' = [{| method := "frappe_dwf.api._process_ian"; job_arg := VStr "IAN-2" |}].
Proof.
  destruct (receive_ian_creates_record (Some "IAN-2") (Some "OtherAE") (Some "1.2.3.4, 1.2.3.5")
              (Some "Available") empty_world eq_refl eq_refl eq_refl)
    as (w' & Hrun & _ & Hjobs & _).
  exists w'. split; [exact Hrun | exact Hjobs].
Defined.

(** X8.  [create_ups] on a reachable store, with an identifier that is
    not stored yet, returns created: it appends one UPS record, whose
    start time is set only for IN-PROGRESS and whose end time only for
    COMPLETED, FAILED and CANCELLED, and, unlike the other endpoints, it
    enqueues no job.  Unless the status is COMPLETED it leaves the
    SOPInstance table alone. *)
Theorem create_ups_creates_record (ups_id rp_id ups_status actor instance_uids : option string)
  (w : World) :
  Py.truthy ups_id = true -> db_fault w = None ->
  rows_with (of_opt ups_id) (tabUPS w) = [] ->
  exists w',
    create_ups ups_id rp_id ups_status actor instance_uids w
    = (Ret {| reply_status := "created"; reply_id := of_opt ups_id |}, w')
    /\ tabUPS w' = tabUPS w ++
         [{| UPS.ups_id := of_opt ups_id;
             UPS.rp := of_opt (Py.or_ rp_id (Some ""));
             UPS.ups_status := of_opt ups_status;
             UPS.actor := of_opt (Py.or_ actor (Some ""));
             UPS.instance_uids := of_opt instance_uids;
             UPS.start_time :=
               if bool_decide (ups_status = Some "IN-PROGRESS")
               then VStr (clock w) else VNone;
             UPS.end_time := if is_terminal ups_status then VStr (clock w) else VNone |}]
    /\ jobs w' = jobs w
    /\ (tabIAN w', tabPPS w', bystanders w') = (tabIAN w, tabPPS w, bystanders w)
    /\ (ups_status <> Some "COMPLETED" -> tabSOP w' = tabSOP w).
Proof.
  intros Hid Hf Hrows. unfold create_ups. rewrite Hid. run.
  change (tab (D := UPS.doc) w) with (tabUPS w). rewrite Hrows.
  run.
  destruct (Py.truthy instance_uids && bool_decide (ups_status = Some "COMPLETED")) eqn:Hc.
  - run_loop sop_bare Hf.
    eexists. split; [reflexivity|]. unfold bystanders. cbn.
    split; [congruence|]. split; [congruence|]. split; [congruence|].
    intros Hn. apply andb_true_iff in Hc as [_ Hc]. apply bool_decide_eq_true in Hc.
    contradiction.
  - run. eexists. split; [reflexivity|]. repeat split.
Qed.

Lemma create_ups_creates_record_witness :
  exists w',
    create_ups (Some "UPS-1") None (Some "IN-PROGRESS") None (Some "1.2.3.4") empty_world
    = (Ret {| reply_status := "created"; reply_id := VStr "UPS-1" |}, w')
    /\ jobs w' = [] /\ tabSOP w' = [].
Proof.
  destruct (create_ups_creates_record (Some "UPS-1") None (Some "IN-PROGRESS") None (Some "1.2.3.4")
              empty_world eq_refl eq_refl eq_refl)
    as (w' & Hrun & _ & Hjobs & _ & Hsop).
  exists w'. split; [exact Hrun|]. split; [exact Hjobs|].
  apply Hsop. discriminate.
Defined.

(** ** The background workers *)

Lemma get_doc_run (D : Type) `{DocType D} (k : PyVal) (w : World) :
  get_doc D k w =
  match db_fault w with
  | Some msg => (Raise (DatabaseError msg), w)
  | None =>
      match rows_with k (tab w) with
      | d :: _ => (Ret d, w)
      | [] => (Raise (DoesNotExistError (doctype (D := D))), w)
      end
  end.
Proof.
  unfold get_doc. rewrite bind_run, db_guard_run. destruct (db_fault w); [reflexivity|].
  rewrite bind_run. cbn [get_world]. cbv beta iota.
  destruct (rows_with k (tab w)); reflexivity.
Qed.

Lemma save_run {D : Type} `{DocType D} (k : PyVal) (d : D) (w : World) :
  save k d w =
  match db_fault w with
  | Some msg => (Raise (DatabaseError msg), w)
  | None => (Ret tt, set_journal (journal w ++ [Save (doctype (D := D)) k])
                       (set_tab (replace_first k d (tab w)) w))
  end.
Proof. unfold save. rewrite bind_run, db_guard_run. destruct (db_fault w); reflexivity. Qed.

(** The worker's step on the Scheduled Procedure Step always returns. *)
Lemma process_pps_sps_run (pps : PPS.doc) (w : World) :
  db_fault w = None ->
  process_pps_sps pps w =
  (Ret tt,
   if truthy (PPS.sps pps) then
     match rows_with (PPS.sps pps) (tabSPS w) with
     | [] => w
     | sps :: _ =>
         set_journal (journal w ++ [Save "Scheduled Procedure Step" (PPS.sps pps)])
           (set_tabSPS
              (replace_first (PPS.sps pps)
                 {| SPS.sps_uid := SPS.sps_uid sps;
                    SPS.status := if bool_decide (PPS.status pps = VStr "COMPLETED")
                                  then VStr "Completed" else SPS.status sps |}
                 (tabSPS w)) w)
     end
   else w).
Proof.
  intros Hf. unfold process_pps_sps. destruct (truthy (PPS.sps pps)); [|reflexivity].
  unfold try_except. rewrite bind_run, get_doc_run, Hf.
  change (tab (D := SPS.doc) w) with (tabSPS w).
  destruct (rows_with _ _) as [|sps rest]; [reflexivity|].
  rewrite save_run, Hf. reflexivity.
Qed.

Lemma process_pps_run (pps_uid : PyVal) (w : World) (pps : PPS.doc) (rest : list PPS.doc) :
  db_fault w = None -> rows_with pps_uid (tabPPS w) = pps :: rest ->
  _process_pps pps_uid w =
  match uid_entries (PPS.instance_uids pps) (snd (process_pps_sps pps w)) with
  | (Ret uids, w1) => for_each uids (ensure_sop sop_bare) w1
  | (Raise e, w1) => (Raise e, w1)
  end.
Proof.
  intros Hf Hrows. unfold _process_pps. rewrite bind_run.
  unfold try_except at 1. rewrite bind_run, get_doc_run, Hf.
  change (tab (D := PPS.doc) w) with (tabPPS w). rewrite Hrows.
  cbn [mret M_ret]. cbv beta iota.
  rewrite bind_run, (process_pps_sps_run pps w Hf). cbv beta iota.
  rewrite bind_run. cbn [snd]. reflexivity.
Qed.

(** The worker on a record it finds. *)
Lemma process_pps_found (pps_uid : PyVal) (w : World) (pps : PPS.doc) (rest : list PPS.doc)
  (s : string) :
  db_fault w = None -> rows_with pps_uid (tabPPS w) = pps :: rest ->
  or_ (PPS.instance_uids pps) (VStr "") = VStr s ->
  exists w',
    _process_pps pps_uid w = (Ret tt, w')
    /\ fanned_out (Py.comma_list s) bare w w'
    /\ outside_worker w' = outside_worker w.
Proof.
  intros Hf Hrows Hs.
  rewrite (process_pps_run pps_uid w pps rest Hf Hrows).
  unfold uid_entries. rewrite Hs.
  rewrite (process_pps_sps_run pps w Hf). cbn [snd mret M_ret].
  set (w1 := if truthy (PPS.sps pps) then _ else w).
  assert (H1 : db_fault w1 = None /\ tabSOP w1 = tabSOP w
               /\ outside_worker w1 = outside_worker w).
  { subst w1. destruct (truthy (PPS.sps pps)); [|repeat split; exact Hf].
    destruct (rows_with (PPS.sps pps) (tabSPS w)); repeat split; exact Hf. }
  destruct H1 as (Hf1 & Hsop1 & Hout1).
  destruct (ensure_sop_loop_returns sop_bare (Py.comma_list s) w1 Hf1)
    as (w2 & Hloop & Hout2).
  exists w2. split; [exact Hloop|]. split.
  - apply (fanned_out_frame _ _ w w1 w2 w2); [exact Hsop1 | reflexivity |].
    apply (ensure_sop_loop sop_bare); [reflexivity | | exact Hloop].
    intros u t. repeat split.
  - rewrite <- Hout1. unfold outside_sop in Hout2.
    injection Hout2 as ? ? ? ? ? ? ? ? ? ? ?. unfold outside_worker. congruence.
Qed.

(** The worker without a record to work on. *)
Lemma process_pps_gives_up (pps_uid : PyVal) (w : World) :
  db_fault w <> None \/ rows_with pps_uid (tabPPS w) = [] ->
  _process_pps pps_uid w = (Ret tt, w).
Proof.
  intros Hcase. unfold _process_pps. rewrite bind_run.
  unfold try_except. rewrite bind_run, get_doc_run.
  destruct (db_fault w) as [msg|]; [reflexivity|].
  destruct Hcase as [Hf | Hrows]; [contradiction|].
  change (tab (D := PPS.doc) w) with (tabPPS w). rewrite Hrows. reflexivity.
Qed.

(** X10.  The worker [_process_pps] gives up silently, the world
    unchanged, when the store is unreachable or holds no record under the
    identifier.  When it finds the record and the record's UID list is a
    string or None, it returns, every UID of the list has a SOPInstance
    afterwards, the records it adds carry no metadata, and it neither
    enqueues nor logs anything nor touches the other entity tables. *)
Theorem process_pps_worker (pps_uid : PyVal) (w : World) :
  (db_fault w <> None \/ rows_with pps_uid (tabPPS w) = [] ->
     _process_pps pps_uid w = (Ret tt, w))
  /\ (forall pps rest s,
        db_fault w = None -> rows_with pps_uid (tabPPS w) = pps :: rest ->
        or_ (PPS.instance_uids pps) (VStr "") = VStr s ->
        exists w',
          _process_pps pps_uid w = (Ret tt, w')
          /\ fanned_out (Py.comma_list s) bare w w'
          /\ outside_worker w' = outside_worker w).
Proof.
  split.
  - intros Hcase. unfold _process_pps. rewrite bind_run.
    unfold try_except. rewrite bind_run, get_doc_run.
    destruct (db_fault w) as [msg|]; [reflexivity|].
    destruct Hcase as [Hf | Hrows]; [contradiction|].
    change (tab (D := PPS.doc) w) with (tabPPS w). rewrite Hrows. reflexivity.
  - intros pps rest s Hf Hrows Hs.
    destruct (process_pps_found pps_uid w pps rest s Hf Hrows Hs)
      as (w' & Hrun & Hfan & Hout).
    exists w'. split; [exact Hrun|]. split; [exact Hfan | exact Hout].
Qed.

Lemma process_pps_worker_witness :
  _process_pps (VStr "MPPS-0002") empty_world = (Ret tt, empty_world)
  /\ exists w',
       _process_pps (VStr "MPPS-0002") worker_world = (Ret tt, w')
       /\ fanned_out ["1.2.3.4"; "1.2.3.5"; "1.2.3.4"] bare worker_world w'
       /\ outside_worker w' = outside_worker worker_world.
Proof.
  split.
  - apply (process_pps_worker (VStr "MPPS-0002") empty_world). right. reflexivity.
  - destruct (process_pps_worker (VStr "MPPS-0002") worker_world) as [_ H].
    exact (H _ [] "1.2.3.4, 1.2.3.5,,1.2.3.4" eq_refl eq_refl eq_refl).
Defined.

(** X9.  [create_pps] only records and enqueues; the worker it enqueues
    does the rest.  After [create_pps] has created its record the
    Scheduled Procedure Steps and the SOPInstance table are as before and
    the queue holds one more job, [_process_pps] with the identifier.
    Running that job on the resulting store returns; afterwards every UID
    of the instance_uids argument has a SOPInstance, and the Scheduled
    Procedure Step named by sps_uid, if the store holds it, is Completed
    when the status argument is COMPLETED and keeps its status
    otherwise. *)
Theorem create_pps_then_worker
  (pps_uid sps_uid rp_id actor status instance_uids : option string) (w : World) :
  Py.truthy pps_uid = true -> db_fault w = None ->
  rows_with (of_opt pps_uid) (tabPPS w) = [] ->
  let w1 := snd (create_pps pps_uid sps_uid rp_id actor status instance_uids w) in
  let w2 := snd (_process_pps (of_opt pps_uid) w1) in
  (tabSPS w1, tabSOP w1) = (tabSPS w, tabSOP w)
  /\ jobs w1 = jobs w ++ [{| method := "frappe_dwf.api._process_pps";
                             job_arg := of_opt pps_uid |}]
  /\ _process_pps (of_opt pps_uid) w1 = (Ret tt, w2)
  /\ fanned_out (Py.comma_list (default "" instance_uids)) bare w w2
  /\ (forall sps rest,
        Py.truthy sps_uid = true ->
        rows_with (of_opt sps_uid) (tabSPS w) = sps :: rest ->
        rows_with (of_opt sps_uid) (tabSPS w2)
        = {| SPS.sps_uid := SPS.sps_uid sps;
             SPS.status := if bool_decide (status = Some "COMPLETED")
                           then VStr "Completed" else SPS.status sps |} :: rest).
Proof.
  intros Hid Hf Hrows w1 w2.
  pose proof (create_pps_run pps_uid sps_uid rp_id actor status instance_uids w
                Hid Hf Hrows) as Hrun.
  set (row := {| PPS.pps_uid := of_opt pps_uid;
                 PPS.sps := of_opt (Py.or_ sps_uid (Some ""));
                 PPS.rp := of_opt (Py.or_ rp_id (Some ""));
                 PPS.actor := of_opt (Py.or_ actor (Some ""));
                 PPS.status := of_opt status;
                 PPS.instance_uids := of_opt (Py.or_ instance_uids (Some ""));
                 PPS.created_at := VStr (clock w) |}) in Hrun.
  assert (Hw1 : w1 = set_jobs (jobs w ++ [{| method := "frappe_dwf.api._process_pps";
                                            job_arg := of_opt pps_uid |}])
                       (set_journal (journal w ++
                          [Insert "Performed Procedure Step" (of_opt pps_uid)])
                          (set_tabPPS (tabPPS w ++ [row]) w)))
    by (subst w1; rewrite Hrun; reflexivity).
  assert (Hf1 : db_fault w1 = None) by (rewrite Hw1; exact Hf).
  assert (Hrows1 : rows_with (of_opt pps_uid) (tabPPS w1) = row :: []).
  { rewrite Hw1. cbn [tabPPS set_jobs set_journal set_tabPPS].
    rewrite (@rows_with_app PPS.doc PPS_doctype), Hrows. unfold rows_with. cbn.
    rewrite bool_decide_true by reflexivity. reflexivity. }
  assert (Huids : or_ (PPS.instance_uids row) (VStr "")
                  = VStr (default "" instance_uids)).
  { subst row. cbn. destruct instance_uids as [[|c s]|]; reflexivity. }
  assert (Hsps1 : tabSPS w1 = tabSPS w) by (rewrite Hw1; reflexivity).
  assert (Hsop1 : tabSOP w1 = tabSOP w) by (rewrite Hw1; reflexivity).
  destruct (process_pps_found (of_opt pps_uid) w1 row [] _ Hf1 Hrows1 Huids)
    as (w2' & Hrun2 & Hfan & _).
  assert (Hw2 : w2 = w2') by (subst w2; rewrite Hrun2; reflexivity).
  split; [rewrite Hsps1, Hsop1; reflexivity|].
  split; [rewrite Hw1; reflexivity|].
  split; [rewrite Hw2; exact Hrun2|].
  split.
  { rewrite Hw2. apply (fanned_out_frame _ _ w w1 w2' w2');
      [exact Hsop1 | reflexivity | exact Hfan]. }
  intros sps rest Ht Hsps.
  assert (Hk : PPS.sps row = of_opt sps_uid).
  { subst row. cbn. unfold Py.or_. rewrite Ht. reflexivity. }
  assert (Htk : truthy (PPS.sps row) = true).
  { rewrite Hk. destruct sps_uid as [[|c s]|]; try discriminate Ht. reflexivity. }
  assert (Hsps1' : rows_with (PPS.sps row) (tabSPS w1) = sps :: rest)
    by (rewrite Hk, Hsps1; exact Hsps).
  subst w2.
  rewrite (process_pps_sps_table (of_opt pps_uid) w1 row [] sps rest Hf1 Hrows1 Htk Hsps1').
  rewrite Hsps1, Hk.
  assert (Hkey : SPS.sps_uid sps = of_opt sps_uid).
  { apply (@rows_with_key SPS.doc SPS_doctype (of_opt sps_uid) (tabSPS w) sps).
    rewrite Hsps. left. reflexivity. }
  assert (Hst : bool_decide (PPS.status row = VStr "COMPLETED")
                = bool_decide (status = Some "COMPLETED")).
  { subst row. cbn. apply bool_decide_ext. destruct status as [s|]; cbn; split; congruence. }
  rewrite Hst.
  apply (@rows_with_replace_first SPS.doc SPS_doctype (of_opt sps_uid)
           {| SPS.sps_uid := SPS.sps_uid sps;
              SPS.status := if bool_decide (status = Some "COMPLETED")
                            then VStr "Completed" else SPS.status sps |}
           sps (tabSPS w) rest Hkey Hsps).
Qed.

Lemma create_pps_then_worker_witness :
  let w1 := snd (create_pps (Some "MPPS-0001") (Some "SPS-0001") None (Some "CT-Scanner-1")
                   (Some "COMPLETED") (Some "1.2.3.4") (sps_world "Scheduled")) in
  let w2 := snd (_process_pps (VStr "MPPS-0001") w1) in
  tabSPS w1 = [{| SPS.sps_uid := VStr "SPS-0001"; SPS.status := VStr "Scheduled" |}]
  /\ tabSPS w2 = [{| SPS.sps_uid := VStr "SPS-0001"; SPS.status := VStr "Completed" |}]
  /\ fanned_out ["1.2.3.4"] bare (sps_world "Scheduled") w2.
Proof.
  intros w1 w2.
  destruct (create_pps_then_worker (Some "MPPS-0001") (Some "SPS-0001") None
              (Some "CT-Scanner-1") (Some "COMPLETED") (Some "1.2.3.4")
              (sps_world "Scheduled") eq_refl eq_refl eq_refl)
    as (_ & _ & _ & Hfan & _).
  split; [vm_compute; reflexivity|]. split; [vm_compute; reflexivity|]. exact Hfan.
Defined.

Lemma lookup_loop_run (uids : list string) (w : World) :
  db_fault w = None ->
  for_each uids (fun uid => get_all SOP.doc (VStr uid);; pass) w = (Ret tt, w).
Proof.
  intros Hf. induction uids as [|uid uids IH]; [reflexivity|].
  cbn [for_each]. run. exact IH.
Qed.

(** X12.  The worker [_process_ian] only reads: whatever the store holds
    and however the call ends, the world is left exactly as it was.  It
    returns when the store is unreachable or holds no record under the
    identifier, and raises only AttributeError, which takes a stored UID
    field that is a list. *)
Theorem process_ian_reads_only (ian_id : PyVal) (w : World) :
  snd (_process_ian ian_id w) = w
  /\ (fst (_process_ian ian_id w) = Ret tt
      \/ fst (_process_ian ian_id w) = Raise AttributeError
         /\ exists ian l, In ian (tabIAN w) /\ IAN.sop_instance_uids ian = VList l)
  /\ (db_fault w <> None \/ rows_with ian_id (tabIAN w) = [] ->
      fst (_process_ian ian_id w) = Ret tt).
Proof.
  unfold _process_ian. rewrite bind_run. unfold try_except.
  rewrite bind_run, get_doc_run.
  destruct (db_fault w) as [msg|] eqn:Hf.
  { split; [reflexivity|]. split; [left; reflexivity | intros _; reflexivity]. }
  change (tab (D := IAN.doc) w) with (tabIAN w).
  destruct (rows_with ian_id (tabIAN w)) as [|ian rest] eqn:Hrows.
  { split; [reflexivity|]. split; [left; reflexivity | intros _; reflexivity]. }
  cbn [mret M_ret]. cbv beta iota. rewrite bind_run. unfold uid_entries.
  assert (Hin : In ian (tabIAN w)).
  { assert (H : In ian (rows_with ian_id (tabIAN w))) by (rewrite Hrows; left; reflexivity).
    unfold rows_with in H. apply filter_In in H as [H _]. exact H. }
  destruct (IAN.sop_instance_uids ian) as [|s|l] eqn:Hu.
  - cbn. split; [reflexivity|]. split; [left; reflexivity|].
    intros [H | H]; [contradiction | discriminate H].
  - assert (Hs : or_ (VStr s) (VStr "") = VStr (match s with "" => "" | _ => s end))
      by (destruct s; reflexivity).
    rewrite Hs. cbn [mret M_ret]. cbv beta iota.
    rewrite (lookup_loop_run _ w Hf).
    split; [reflexivity|]. split; [left; reflexivity|].
    intros [H | H]; [contradiction | discriminate H].
  - destruct l as [|u l'].
    + cbn. split; [reflexivity|]. split; [left; reflexivity|].
      intros [H | H]; [contradiction | discriminate H].
    + cbn. split; [reflexivity|]. split.
      * right. split; [reflexivity|]. exists ian, (u :: l'). split; [exact Hin | exact Hu].
      * intros [H | H]; [contradiction | discriminate H].
Qed.

(** ** Running a worker again *)

Lemma replace_first_idempotent {D : Type} `{DocType D} (k : PyVal) (d : D) (l : list D) :
  key d = k -> replace_first k d (replace_first k d l) = replace_first k d l.
Proof.
  intros Hk. induction l as [|x l IH]; [reflexivity|]. cbn [replace_first].
  destruct (bool_decide (key x = k)) eqn:Hx; cbn [replace_first].
  - rewrite bool_decide_true by exact Hk. reflexivity.
  - rewrite Hx, IH. reflexivity.
Qed.

Lemma ensure_sop_loop_present (mk : string -> PyVal -> SOP.doc) (uids : list string)
  (w : World) :
  db_fault w = None ->
  (forall uid, In uid uids -> rows_with (VStr uid) (tabSOP w) <> []) ->
  for_each uids (ensure_sop mk) w = (Ret tt, w).
Proof.
  intros Hf. induction uids as [|uid uids IH]; intros Hall; [reflexivity|].
  cbn [for_each]. rewrite bind_run. unfold ensure_sop at 1. run.
  change (tab (D := SOP.doc) w) with (tabSOP w).
  destruct (rows_with (VStr uid) (tabSOP w)) as [|x xs] eqn:Hrows.
  - exfalso. apply (Hall uid (or_introl eq_refl)). exact Hrows.
  - run. apply IH. intros u Hu. apply Hall. right. exact Hu.
Qed.

(** Once the step on the Scheduled Procedure Step has run, running it
    again changes no table. *)
Lemma process_pps_sps_stable (pps : PPS.doc) (w w' : World) :
  db_fault w = None -> db_fault w' = None ->
  tabSPS w' = tabSPS (snd (process_pps_sps pps w)) ->
  tables_view (snd (process_pps_sps pps w')) = tables_view w'.
Proof.
  intros Hf Hf'. rewrite (process_pps_sps_run pps w Hf), (process_pps_sps_run pps w' Hf').
  cbn [snd]. destruct (truthy (PPS.sps pps)); [|reflexivity].
  destruct (rows_with (PPS.sps pps) (tabSPS w)) as [|sps rest] eqn:Hrows.
  - intros ->. rewrite Hrows. reflexivity.
  - cbn [tabSPS set_journal set_tabSPS]. intros Htab.
    assert (Hk : SPS.sps_uid sps = PPS.sps pps).
    { apply (@rows_with_key SPS.doc SPS_doctype (PPS.sps pps) (tabSPS w) sps).
      rewrite Hrows. left. reflexivity. }
    set (d := {| SPS.sps_uid := SPS.sps_uid sps;
                 SPS.status := if bool_decide (PPS.status pps = VStr "COMPLETED")
                               then VStr "Completed" else SPS.status sps |}) in *.
    assert (Hrows' : rows_with (PPS.sps pps) (tabSPS w') = d :: rest).
    { rewrite Htab.
      apply (@rows_with_replace_first SPS.doc SPS_doctype (PPS.sps pps) d sps
               (tabSPS w) rest Hk Hrows). }
    rewrite Hrows'.
    assert (Hd : {| SPS.sps_uid := SPS.sps_uid d;
                    SPS.status := if bool_decide (PPS.status pps = VStr "COMPLETED")
                                  then VStr "Completed" else SPS.status d |} = d).
    { subst d. cbn. destruct (bool_decide _); reflexivity. }
    rewrite Hd. unfold tables_view. cbn. rewrite Htab.
    rewrite (@replace_first_idempotent SPS.doc SPS_doctype (PPS.sps pps) d (tabSPS w) Hk).
    reflexivity.
Qed.

(** X11.  A job of [_process_pps] can be run again: a second run on the
    store the first run left, whether the first run returned or raised,
    ends the way the first run ended and leaves every table, the job
    queue and the error log as the first run left them. *)
Theorem process_pps_rerun_keeps_tables (pps_uid : PyVal) (w : World) :
  let w1 := snd (_process_pps pps_uid w) in
  let w2 := snd (_process_pps pps_uid w1) in
  tables_view w2 = tables_view w1
  /\ fst (_process_pps pps_uid w1) = fst (_process_pps pps_uid w)
  /\ (jobs w2, error_log w2) = (jobs w1, error_log w1).
Proof.
  cbv zeta.
  destruct (db_fault w) as [msg|] eqn:Hf.
  { rewrite (process_pps_gives_up pps_uid w) by (left; rewrite Hf; discriminate).
    cbn [snd]. rewrite (process_pps_gives_up pps_uid w) by (left; rewrite Hf; discriminate).
    repeat split. }
  destruct (rows_with pps_uid (tabPPS w)) as [|pps rest] eqn:Hrows.
  { rewrite (process_pps_gives_up pps_uid w) by (right; exact Hrows).
    cbn [snd]. rewrite (process_pps_gives_up pps_uid w) by (right; exact Hrows).
    repeat split. }
  rewrite (process_pps_run pps_uid w pps rest Hf Hrows).
  set (w1 := snd (process_pps_sps pps w)).
  assert (H1 : db_fault w1 = None /\ tabPPS w1 = tabPPS w).
  { subst w1. rewrite (process_pps_sps_run pps w Hf). cbn [snd].
    destruct (truthy (PPS.sps pps)); [|split; [exact Hf | reflexivity]].
    destruct (rows_with (PPS.sps pps) (tabSPS w)); split; try exact Hf; reflexivity. }
  destruct H1 as [Hf1 Hpps1].
  assert (Hsame : forall w' : World,
            db_fault w' = None -> tabSPS w' = tabSPS w1 ->
            tables_view (snd (process_pps_sps pps w')) = tables_view w'
            /\ db_fault (snd (process_pps_sps pps w')) = None
            /\ (jobs (snd (process_pps_sps pps w')), error_log (snd (process_pps_sps pps w')))
               = (jobs w', error_log w')).
  { intros w' Hf' Htab. split; [apply (process_pps_sps_stable pps w w' Hf Hf' Htab)|].
    rewrite (process_pps_sps_run pps w' Hf'). cbn [snd].
    destruct (truthy (PPS.sps pps)); [|split; [exact Hf' | reflexivity]].
    destruct (rows_with (PPS.sps pps) (tabSPS w')); split; try exact Hf'; reflexivity. }
  unfold uid_entries.
  destruct (or_ (PPS.instance_uids pps) (VStr "")) as [|s|l] eqn:Hu.
  - (* the stored UID field is no string: both runs raise after the step *)
    cbn [raise fst snd].
    assert (Hrows1 : rows_with pps_uid (tabPPS w1) = pps :: rest)
      by (rewrite Hpps1; exact Hrows).
    rewrite (process_pps_run pps_uid w1 pps rest Hf1 Hrows1).
    unfold uid_entries. rewrite Hu. cbn [raise fst snd].
    destruct (Hsame w1 Hf1 eq_refl) as (Ht & _ & Hq).
    split; [exact Ht|]. split; [reflexivity | exact Hq].
  - cbn [mret M_ret].
    destruct (ensure_sop_loop_returns sop_bare (Py.comma_list s) w1 Hf1)
      as (w2 & Hloop & Hout).
    rewrite Hloop. cbn [fst snd].
    pose proof (ensure_sop_loop sop_bare (fun _ => True) (Py.comma_list s) w1 w2
                  (fun _ _ => eq_refl) (fun _ _ => I) Hloop) as [_ Hpresent].
    unfold outside_sop in Hout. injection Hout as _ Hf2 _ _ _ Hpps2 Hsps2 _ _ _ _.
    assert (Hf2' : db_fault w2 = None) by (rewrite Hf2; exact Hf1).
    assert (Hrows2 : rows_with pps_uid (tabPPS w2) = pps :: rest)
      by (rewrite Hpps2, Hpps1; exact Hrows).
    rewrite (process_pps_run pps_uid w2 pps rest Hf2' Hrows2).
    unfold uid_entries. rewrite Hu. cbn [mret M_ret].
    destruct (Hsame w2 Hf2' Hsps2) as (Ht & Hf3 & Hq).
    rewrite (ensure_sop_loop_present sop_bare (Py.comma_list s) _ Hf3).
    + cbn [fst snd]. split; [exact Ht|]. split; [reflexivity | exact Hq].
    + intros uid Hin. unfold tables_view in Ht. injection Ht as _ Hsop _ _ _ _.
      rewrite Hsop. apply Hpresent, Hin.
  - cbn [raise fst snd].
    assert (Hrows1 : rows_with pps_uid (tabPPS w1) = pps :: rest)
      by (rewrite Hpps1; exact Hrows).
    rewrite (process_pps_run pps_uid w1 pps rest Hf1 Hrows1).
    unfold uid_entries. rewrite Hu. cbn [raise fst snd].
    destruct (Hsame w1 Hf1 eq_refl) as (Ht & _ & Hq).
    split; [exact Ht|]. split; [reflexivity | exact Hq].
Qed.

(** ** The handlers on a new identifier *)


Section creation.

Variable json_dumps : Json -> string.

(** X5.  [ingest_ian] on a reachable store, the signature step passed and
    the identifier present and not stored yet, returns created.  It
    appends one IAN record: the source defaults to the empty string, the
    availability status defaults to Available only when the payload has
    no such key, the timestamp is the payload's or else the current
    time, and the UID list is stored in normalised form.  It
    enqueues exactly one job, with the identifier, logs nothing and leaves
    the other entity tables alone. *)
Theorem ingest_ian_creates_record (payload : gmap string PyVal) (h : option Headers) (w : World) :
  fst (check_signature json_dumps payload h w) = Ret tt ->
  truthy (dict_get payload "ian_id") = true ->
  db_fault w = None ->
  rows_with (dict_get payload "ian_id") (tabIAN w) = [] ->
  exists w',
    ingest_ian json_dumps payload h w
    = (Ret {| reply_status := "created"; reply_id := dict_get payload "ian_id" |}, w')
    /\ tabIAN w' = tabIAN w ++
         [{| IAN.ian_id := dict_get payload "ian_id";
             IAN.source := or_ (dict_get payload "source") (VStr "");
             IAN.sop_instance_uids :=
               VStr (normalize_uids (or_ (dict_get payload "sop_instance_uids")
                                         (dict_get payload "sop_uids")));
             IAN.availability_status :=
               default (VStr "Available") (payload !! "availability_status");
             IAN.timestamp := or_ (dict_get payload "timestamp") (VStr (clock w)) |}]
    /\ (exists job, jobs w' = jobs w ++ [job] /\ job_arg job = dict_get payload "ian_id")
    /\ (tabPPS w', tabUPS w', bystanders w') = (tabPPS w, tabUPS w, bystanders w).
Proof.
  intros Hc Hid Hf Hrows.
  pose proof (check_signature_passes json_dumps payload h w Hc w eq_refl) as Hcheck.
  unfold ingest_ian. rewrite bind_run, Hcheck, Hid. run.
  change (tab (D := IAN.doc) w) with (tabIAN w). rewrite Hrows.
  unfold try_except. run.
  assert (Hts : (if truthy (dict_get payload "timestamp")
                 then mret (dict_get payload "timestamp") else now) w
                = (Ret (or_ (dict_get payload "timestamp") (VStr (clock w))), w)).
  { unfold or_. destruct (truthy (dict_get payload "timestamp")); reflexivity. }
  rewrite Hts. run.
  run_loop (sop_with (dict_get payload "source") (dict_get payload "patient_id")
              (dict_get payload "accession_number")) Hf.
  eexists. split; [reflexivity|]. unfold bystanders. cbn.
  split; [congruence|]. split; [eexists; split; [f_equal; eassumption | reflexivity]|].
  repeat split; congruence.
Qed.


End creation.

Lemma ingest_ian_creates_record_witness :
  exists w',
    ingest_ian dumps0 ian_payload (Some dumps0_headers) secret_world
    = (Ret {| reply_status := "created"; reply_id := VStr "IAN-20251114-0001" |}, w')
    /\ tabIAN w'
       = [{| IAN.ian_id := VStr "IAN-20251114-0001"; IAN.source := VStr "OrthancAE";
             IAN.sop_instance_uids := VStr "1.2.3.4,1.2.3.5";
             IAN.availability_status := VStr "Available";
             IAN.timestamp := VStr "2025-11-14 16:00:00" |}].
Proof.
  destruct (ingest_ian_creates_record dumps0 ian_payload (Some dumps0_headers) secret_world)
    as (w' & Hrun & Htab & _); try (vm_compute; reflexivity).
  exists w'. split; [exact Hrun | exact Htab].
Defined.


(** ** One record per identifier *)

Section keys.

Context {D : Type} `{DocType D}.

#[global] Instance keys_grow_preorder : PreOrder (keys_grow D).
Proof.
  split.
  - intros w. split; [exists []; symmetry; apply app_nil_r | exact (fun H => H)].
  - intros x y z [[n1 H1] N1] [[n2 H2] N2]. split.
    + exists (n1 ++ n2). rewrite H2, H1, <- app_assoc. reflexivity.
    + intros Hn. apply N2, N1, Hn.
Qed.

Lemma keys_grow_same (w w' : World) : tab (D := D) w' = tab w -> keys_grow D w w'.
Proof.
  intros E. split; [exists []; rewrite E; symmetry; apply app_nil_r|].
  unfold keys_of. rewrite E. exact (fun Hn => Hn).
Qed.

Lemma steps_unchanged_grow {A : Type} (m : M A) :
  steps (unchanged (tab (D := D))) m -> steps (keys_grow D) m.
Proof. intros Hs w. apply keys_grow_same. apply Hs. Qed.

Lemma rows_with_nil_not_key (k : PyVal) (l : list D) :
  rows_with k l = [] -> ~ In k (List.map key l).
Proof.
  unfold rows_with. intros Hnil Hin. apply in_map_iff in Hin as (d & Hd & Hin).
  assert (Hd' : In d (List.filter (fun d => bool_decide (key d = k)) l)).
  { apply filter_In. split; [exact Hin|]. apply bool_decide_eq_true. exact Hd. }
  rewrite Hnil in Hd'. destruct Hd'.
Qed.

(** A record appended under an identifier the table does not hold. *)
Lemma keys_grow_snoc (d : D) (w w' : World) :
  rows_with (key d) (tab w) = [] -> tab (D := D) w' = tab w ++ [d] -> keys_grow D w w'.
Proof.
  intros Hrows Htab. split; [exists [d]; exact Htab|].
  unfold keys_of. rewrite Htab, List.map_app. cbn. intros Hnd.
  apply NoDup_app. split; [exact Hnd|]. split.
  - intros k Hin Hk. apply list_elem_of_singleton in Hk as ->.
    apply list_elem_of_In in Hin. exact (rows_with_nil_not_key _ _ Hrows Hin).
  - apply NoDup_singleton.
Qed.

Hypothesis tab_set_tab : forall l j w, tab (D := D) (set_journal j (set_tab l w)) = l.

(** An insert under a fresh identifier, followed by code that leaves the
    table alone. *)
Lemma insert_then_grows {A : Type} (d : D) (rest : M A) (w : World) :
  rows_with (key d) (tab w) = [] ->
  steps (unchanged (tab (D := D))) rest ->
  keys_grow D w (snd ((insert d;; rest) w)).
Proof.
  intros Hrows Hrest. rewrite bind_run, insert_run.
  destruct (db_fault w); [reflexivity|].
  apply (keys_grow_snoc d); [exact Hrows|].
  rewrite (Hrest _). apply tab_set_tab.
Qed.

Lemma try_except_grows {A : Type} (body : M A) (handler : Exc -> M A) (w : World) :
  keys_grow D w (snd (body w)) ->
  (forall e, steps (unchanged (tab (D := D))) (handler e)) ->
  keys_grow D w (snd (try_except body handler w)).
Proof.
  intros Hb Hh. unfold try_except. destruct (body w) as [[a|e] w1]; [exact Hb|].
  cbn [snd] in Hb. etransitivity; [exact Hb|]. apply keys_grow_same. apply Hh.
Qed.

(** The idempotency check: the body runs only on a reachable store that
    holds no record under the identifier. *)
Lemma steps_guarded {A : Type} (k : PyVal) (body : M A) (found : D -> list D -> M A) :
  (forall w, rows_with k (tab w) = [] -> keys_grow D w (snd (body w))) ->
  (forall x xs, steps (keys_grow D) (found x xs)) ->
  steps (keys_grow D)
    (existing ← get_all D k;
     match existing with
     | [] => body
     | x :: xs => found x xs
     end).
Proof.
  intros Hbody Hfound w. rewrite bind_run, get_all_run.
  destruct (db_fault w); [reflexivity|].
  destruct (rows_with k (tab w)) as [|x xs] eqn:Hrows; [apply Hbody, Hrows | apply Hfound].
Qed.

End keys.

(** A goal [steps (unchanged f) m] for code that never writes what [f]
    reads. *)
Ltac frame_go := steps_go; intros; reflexivity.

Lemma receive_ian_keys (a b c d : option string) :
  steps (keys_grow IAN.doc) (receive_ian a b c d).
Proof.
  unfold receive_ian. apply steps_bind; [typeclasses eauto | steps_go |]. intros _.
  apply steps_guarded; [|intros; apply steps_ret; typeclasses eauto].
  intros w Hrows. rewrite bind_run. cbn [now]. cbv beta iota.
  apply insert_then_grows; [reflexivity | exact Hrows | frame_go].
Qed.

Lemma create_pps_keys (a b c d e f : option string) :
  steps (keys_grow PPS.doc) (create_pps a b c d e f).
Proof.
  unfold create_pps. apply steps_bind; [typeclasses eauto | steps_go |]. intros _.
  apply steps_guarded; [|intros; apply steps_ret; typeclasses eauto].
  intros w Hrows. rewrite bind_run. cbn [now]. cbv beta iota.
  apply insert_then_grows; [reflexivity | exact Hrows | frame_go].
Qed.

Lemma create_ups_keys (a b c d e : option string) :
  steps (keys_grow UPS.doc) (create_ups a b c d e).
Proof.
  unfold create_ups. apply steps_bind; [typeclasses eauto | steps_go |]. intros _.
  apply steps_guarded; [|intros; apply steps_ret; typeclasses eauto].
  intros w Hrows. rewrite bind_run, now_if_run. cbv beta iota.
  rewrite bind_run, now_if_run. cbv beta iota.
  apply insert_then_grows; [reflexivity | exact Hrows | frame_go].
Qed.

Section keys_handlers.

Variable json_dumps : Json -> string.

Lemma ingest_ian_keys (p : gmap string PyVal) (h : option Headers) :
  steps (keys_grow IAN.doc) (ingest_ian json_dumps p h).
Proof.
  unfold ingest_ian.
  apply steps_bind; [typeclasses eauto | |].
  { apply steps_unchanged_grow, check_signature_frame. intros; reflexivity. }
  intros _. apply steps_bind; [typeclasses eauto | steps_go |]. intros _.
  apply steps_guarded; [|intros; apply steps_ret; typeclasses eauto].
  intros w Hrows. apply try_except_grows; [|frame_go].
  rewrite bind_run.
  assert (Hts : exists ts, (if truthy (dict_get p "timestamp")
                            then mret (dict_get p "timestamp") else now) w = (Ret ts, w))
    by (destruct (truthy (dict_get p "timestamp")); eexists; reflexivity).
  destruct Hts as [ts Hts]. rewrite Hts.
  apply insert_then_grows; [reflexivity | exact Hrows |].
  unfold enqueue_process_ian, get_or_create_sopinstance. frame_go.
Qed.

Lemma ingest_mpps_keys (p : gmap string PyVal) (h : option Headers) :
  steps (keys_grow PPS.doc) (ingest_mpps json_dumps p h).
Proof.
  unfold ingest_mpps.
  apply steps_bind; [typeclasses eauto | |].
  { apply steps_unchanged_grow, check_signature_frame. intros; reflexivity. }
  intros _. apply steps_bind; [typeclasses eauto | steps_go |]. intros _.
  apply steps_guarded; [|intros; apply steps_ret; typeclasses eauto].
  intros w Hrows. apply try_except_grows; [|frame_go].
  rewrite bind_run.
  assert (Hts : exists ts, (if truthy (dict_get p "created_at")
                            then mret (dict_get p "created_at") else now) w = (Ret ts, w))
    by (destruct (truthy (dict_get p "created_at")); eexists; reflexivity).
  destruct Hts as [ts Hts]. rewrite Hts.
  apply insert_then_grows; [reflexivity | exact Hrows |].
  unfold enqueue_process_pps, get_or_create_sopinstance, complete_sps. frame_go.
Qed.

(** Unfolds the calls, for the tables a call never writes. *)
Ltac other_table :=
  apply steps_unchanged_grow;
  unfold receive_ian, create_pps, create_ups, _process_ian, _process_pps,
    process_pps_sps, uid_entries, ingest_ian, ingest_mpps, check_signature,
    verify_signature, compare_digest, complete_sps, enqueue_process_ian,
    enqueue_process_pps, get_or_create_sopinstance;
  cbv zeta; frame_go.

Lemma run_call_keys (c : Call) (w : World) :
  keys_grow IAN.doc w (run_call json_dumps c w)
  /\ keys_grow PPS.doc w (run_call json_dumps c w)
  /\ keys_grow UPS.doc w (run_call json_dumps c w).
Proof.
  destruct c; cbn [run_call]; (split; [|split]);
    first [ apply receive_ian_keys | apply create_pps_keys | apply create_ups_keys
          | apply ingest_ian_keys | apply ingest_mpps_keys
          | revert w; match goal with |- forall w, ?R w (snd (?m w)) =>
                        change (steps R m) end; other_table ].
Qed.

Lemma run_calls_keys (calls : list Call) (w : World) :
  keys_grow IAN.doc w (run_calls json_dumps calls w)
  /\ keys_grow PPS.doc w (run_calls json_dumps calls w)
  /\ keys_grow UPS.doc w (run_calls json_dumps calls w).
Proof.
  revert w. induction calls as [|c calls IH]; intros w.
  - split; [|split]; reflexivity.
  - cbn. destruct (run_call_keys c w) as (H1 & H2 & H3).
    destruct (IH (run_call json_dumps c w)) as (I1 & I2 & I3).
    split; [|split]; etransitivity; eassumption.
Qed.

(** X13.  Start from a store in which no IAN, PPS or UPS identifier occurs
    twice and run any sequence of IAN, MPPS and UPS calls and of their
    workers, failing and repeated ones included.  Afterwards still no
    identifier occurs twice in its table, and the three tables have only
    grown at their end: no call removes, moves or rewrites an IAN, PPS or
    UPS record. *)
Theorem one_record_per_identifier (calls : list Call) (w : World) :
  NoDup (keys_of IAN.doc w) -> NoDup (keys_of PPS.doc w) -> NoDup (keys_of UPS.doc w) ->
  let w' := run_calls json_dumps calls w in
  (NoDup (keys_of IAN.doc w') /\ NoDup (keys_of PPS.doc w') /\ NoDup (keys_of UPS.doc w'))
  /\ (exists news, tabIAN w' = tabIAN w ++ news)
  /\ (exists news, tabPPS w' = tabPPS w ++ news)
  /\ (exists news, tabUPS w' = tabUPS w ++ news).
Proof.
  intros Hi Hp Hu w'.
  destruct (run_calls_keys calls w) as ([Ti Ni] & [Tp Np] & [Tu Nu]).
  fold w' in Ti, Ni, Tp, Np, Tu, Nu.
  split; [split; [exact (Ni Hi) | split; [exact (Np Hp) | exact (Nu Hu)]]|].
  split; [exact Ti | split; [exact Tp | exact Tu]].
Qed.

End keys_handlers.

Lemma one_record_per_identifier_witness :
  let w' := run_calls dumps0 resubmitted_calls empty_world in
  (NoDup (keys_of IAN.doc w') /\ NoDup (keys_of PPS.doc w') /\ NoDup (keys_of UPS.doc w'))
  /\ (exists news, tabIAN w' = tabIAN empty_world ++ news)
  /\ (exists news, tabPPS w' = tabPPS empty_world ++ news)
  /\ (exists news, tabUPS w' = tabUPS empty_world ++ news).
Proof.
  exact (one_record_per_identifier dumps0 resubmitted_calls empty_world
           (NoDup_nil_2 (A := PyVal)) (NoDup_nil_2 (A := PyVal)) (NoDup_nil_2 (A := PyVal))).
Defined.

(** ** Scheduled Procedure Steps only advance *)

Lemma sps_advances_refl (d : SPS.doc) : sps_advances d d.
Proof. split; [reflexivity | left; reflexivity]. Qed.

Lemma sps_advances_trans (a b c : SPS.doc) :
  sps_advances a b -> sps_advances b c -> sps_advances a c.
Proof.
  intros [U1 S1] [U2 S2]. split; [congruence|].
  destruct S2 as [S2 | S2]; [|right; exact S2].
  destruct S1 as [S1 | S1]; [left | right]; congruence.
Qed.

Lemma sps_advances_all (l : list SPS.doc) : Forall2 sps_advances l l.
Proof.
  induction l as [|d l IH]; [constructor|].
  constructor; [apply sps_advances_refl | exact IH].
Qed.

#[global] Instance sps_monotone_preorder : PreOrder sps_monotone.
Proof.
  split.
  - intros w. apply sps_advances_all.
  - intros x y z Hxy Hyz. unfold sps_monotone in *.
    revert Hxy Hyz. generalize (tabSPS x) (tabSPS y) (tabSPS z). intros l1 l2.
    revert l1. induction l2 as [|b l2 IH]; intros l1 l3 H12 H23.
    + inversion H12; subst. inversion H23; subst. constructor.
    + inversion H12 as [|a ? l1' ? Hab H12']; subst.
      inversion H23 as [|? c ? l3' Hbc H23']; subst.
      constructor; [exact (sps_advances_trans a b c Hab Hbc) | apply IH; assumption].
Qed.

Lemma sps_monotone_same (w w' : World) : tabSPS w' = tabSPS w -> sps_monotone w w'.
Proof.
  intros E. unfold sps_monotone. rewrite E. apply sps_advances_all.
Qed.

Lemma replace_first_advances (k : PyVal) (d sps : SPS.doc) (l rest : list SPS.doc) :
  rows_with k l = sps :: rest -> sps_advances sps d ->
  Forall2 sps_advances l (replace_first k d l).
Proof.
  intros Hrows Hadv. revert Hrows. induction l as [|x l IH]; [discriminate|].
  unfold rows_with. cbn [List.filter replace_first].
  change (key x) with (SPS.sps_uid x).
  destruct (bool_decide (SPS.sps_uid x = k)).
  - intros [= -> _]. constructor; [exact Hadv | apply sps_advances_all].
  - intros Hrows. constructor; [apply sps_advances_refl | apply IH, Hrows].
Qed.

Lemma complete_sps_monotone (sps_uid pps_uid : PyVal) :
  steps sps_monotone (complete_sps sps_uid pps_uid).
Proof.
  intros w. unfold complete_sps. destruct (truthy sps_uid); [|reflexivity].
  unfold try_except. rewrite bind_run, get_doc_run.
  destruct (db_fault w) eqn:Hf; [apply sps_monotone_same; reflexivity|].
  change (tab (D := SPS.doc) w) with (tabSPS w).
  destruct (rows_with sps_uid (tabSPS w)) as [|sps rest] eqn:Hrows;
    [apply sps_monotone_same; reflexivity|].
  destruct (bool_decide _); [reflexivity|].
  rewrite save_run, Hf. unfold sps_monotone. cbn.
  apply (replace_first_advances sps_uid _ sps _ rest Hrows).
  split; [reflexivity | right; reflexivity].
Qed.

Lemma process_pps_sps_monotone (pps : PPS.doc) : steps sps_monotone (process_pps_sps pps).
Proof.
  intros w. unfold process_pps_sps. destruct (truthy (PPS.sps pps)); [|reflexivity].
  unfold try_except. rewrite bind_run, get_doc_run.
  destruct (db_fault w) eqn:Hf; [reflexivity|].
  change (tab (D := SPS.doc) w) with (tabSPS w).
  destruct (rows_with (PPS.sps pps) (tabSPS w)) as [|sps rest] eqn:Hrows; [reflexivity|].
  rewrite save_run, Hf. unfold sps_monotone. cbn.
  apply (replace_first_advances (PPS.sps pps) _ sps _ rest Hrows).
  split; [reflexivity|]. cbn. destruct (bool_decide _); [right | left]; reflexivity.
Qed.

Section sps_invariant.

Variable json_dumps : Json -> string.

Ltac sps_monotone_go :=
  unfold receive_ian, create_pps, create_ups, _process_ian, _process_pps,
    uid_entries, ingest_ian, ingest_mpps, check_signature,
    verify_signature, compare_digest, enqueue_process_ian,
    enqueue_process_pps, get_or_create_sopinstance;
  cbv zeta;
  steps_with ltac:(first [ apply complete_sps_monotone | apply process_pps_sps_monotone ]);
  intros; apply sps_monotone_same; reflexivity.

Lemma run_call_sps_monotone (c : Call) (w : World) :
  sps_monotone w (run_call json_dumps c w).
Proof.
  destruct c; cbn [run_call]; revert w;
    match goal with |- forall w, ?R w (snd (?m w)) => change (steps R m) end;
    sps_monotone_go.
Qed.

(** X14.  No call creates, deletes, moves or renames a Scheduled Procedure
    Step, and the status of a step only advances: after any sequence of
    IAN, MPPS and UPS calls and of their workers the table holds the same
    steps in the same order, each one with the status it had or with
    the status Completed.  A Completed step stays Completed. *)
Theorem sps_only_advance (calls : list Call) (w : World) :
  let w' := run_calls json_dumps calls w in
  Forall2 sps_advances (tabSPS w) (tabSPS w')
  /\ List.map SPS.sps_uid (tabSPS w') = List.map SPS.sps_uid (tabSPS w)
  /\ (forall i d d',
        tabSPS w !! i = Some d -> tabSPS w' !! i = Some d' ->
        SPS.status d = VStr "Completed" -> d' = d).
Proof.
  intros w'.
  assert (Hmono : sps_monotone w w').
  { subst w'. revert w. induction calls as [|c calls IH]; intros w; [reflexivity|].
    cbn. etransitivity; [apply run_call_sps_monotone | apply IH]. }
  unfold sps_monotone in Hmono. split; [exact Hmono|]. split.
  - induction Hmono as [|d d' l l' [Hu _] _ IH]; [reflexivity|].
    cbn. rewrite Hu, IH. reflexivity.
  - intros i d d' Hd Hd' Hc.
    destruct (Forall2_lookup_lr _ _ _ _ _ _ Hmono Hd Hd') as [Hu Hs].
    destruct d as [u s], d' as [u' s']. cbn in *. subst.
    destruct Hs as [-> | ->]; reflexivity.
Qed.

End sps_invariant.

(** ** Writing a message out and reading it back *)

Lemma split_lacks (sep : ascii) (s : string) :
  lacks sep s = true -> Py.split sep s = [s].
Proof.
  induction s as [|c s IH]; [reflexivity|]. cbn [lacks Py.split].
  intros Hl. apply andb_true_iff in Hl as [Hc Hs].
  apply negb_true_iff in Hc. rewrite Hc, (IH Hs). reflexivity.
Qed.

Lemma split_app_sep (sep : ascii) (s t : string) :
  lacks sep s = true ->
  Py.split sep (s +:+ String sep t) = s :: Py.split sep t.
Proof.
  induction s as [|c s IH].
  - intros _. change ("" +:+ String sep t) with (String sep t).
    cbn [Py.split]. rewrite Ascii.eqb_refl. reflexivity.
  - cbn [lacks]. intros Hl. apply andb_true_iff in Hl as [Hc Hs].
    apply negb_true_iff in Hc.
    change (String c s +:+ String sep t) with (String c (s +:+ String sep t)).
    cbn [Py.split]. rewrite Hc, (IH Hs). reflexivity.
Qed.

Lemma split_concat (sep : ascii) (fields : list string) :
  fields <> [] -> forallb (lacks sep) fields = true ->
  Py.split sep (String.concat (String sep EmptyString) fields) = fields.
Proof.
  induction fields as [|x fields IH]; [contradiction|]. intros _ Hall.
  cbn [forallb] in Hall. apply andb_true_iff in Hall as [Hx Hall].
  destruct fields as [|y fields]; [apply split_lacks, Hx|].
  change (String.concat (String sep EmptyString) (x :: y :: fields))
    with (x +:+ String sep (String.concat (String sep EmptyString) (y :: fields))).
  rewrite (split_app_sep _ _ _ Hx), IH; [reflexivity | discriminate | exact Hall].
Qed.

Lemma split_lines_lacks (s : string) :
  lacks Py.CR s = true -> lacks Py.LF s = true -> Py.split_lines s = [s].
Proof.
  induction s as [|c s IH]; [reflexivity|]. cbn [lacks Py.split_lines].
  intros Hr Hn. apply andb_true_iff in Hr as [Hc Hr]. apply andb_true_iff in Hn as [Hd Hn].
  apply negb_true_iff in Hc, Hd. rewrite Hc, Hd, (IH Hr Hn). reflexivity.
Qed.

Lemma split_lines_app_cr (s t : string) :
  lacks Py.CR s = true -> lacks Py.LF s = true -> no_leading_lf t ->
  Py.split_lines (s +:+ String Py.CR t) = s :: Py.split_lines t.
Proof.
  intros Hr Hn Ht. induction s as [|c s IH].
  - change ("" +:+ String Py.CR t) with (String Py.CR t).
    cbn [Py.split_lines]. rewrite Ascii.eqb_refl.
    destruct t as [|d t]; [reflexivity|]. cbn [no_leading_lf] in Ht. rewrite Ht. reflexivity.
  - cbn [lacks] in Hr, Hn.
    apply andb_true_iff in Hr as [Hc Hr]. apply andb_true_iff in Hn as [Hd Hn].
    apply negb_true_iff in Hc, Hd.
    change (String c s +:+ String Py.CR t) with (String c (s +:+ String Py.CR t)).
    cbn [Py.split_lines]. rewrite Hc, Hd, (IH Hr Hn). reflexivity.
Qed.

Lemma concat_cr_no_leading_lf (lines : list string) :
  forallb (lacks Py.LF) lines = true ->
  no_leading_lf (String.concat (String Py.CR EmptyString) lines).
Proof.
  destruct lines as [|x lines]; [intros _; exact I|].
  cbn [forallb]. intros Hall. apply andb_true_iff in Hall as [Hx _].
  assert (Hhead : forall rest, no_leading_lf (x +:+ String Py.CR rest)).
  { intros rest. destruct x as [|d x]; [reflexivity|].
    cbn in Hx |- *. apply andb_true_iff in Hx as [Hd _]. apply negb_true_iff in Hd. exact Hd. }
  destruct lines as [|y lines].
  - cbn. destruct x as [|d x]; [exact I|].
    cbn in Hx |- *. apply andb_true_iff in Hx as [Hd _]. apply negb_true_iff in Hd. exact Hd.
  - apply Hhead.
Qed.

Lemma split_lines_concat (lines : list string) :
  lines <> [] ->
  forallb (lacks Py.CR) lines = true -> forallb (lacks Py.LF) lines = true ->
  Py.split_lines (String.concat (String Py.CR EmptyString) lines) = lines.
Proof.
  induction lines as [|x lines IH]; [contradiction|]. intros _ Hr Hn.
  cbn [forallb] in Hr, Hn.
  apply andb_true_iff in Hr as [Hxr Hr]. apply andb_true_iff in Hn as [Hxn Hn].
  destruct lines as [|y lines]; [apply split_lines_lacks; assumption|].
  change (String.concat (String Py.CR EmptyString) (x :: y :: lines))
    with (x +:+ String Py.CR (String.concat (String Py.CR EmptyString) (y :: lines))).
  rewrite split_lines_app_cr; [|exact Hxr | exact Hxn | apply concat_cr_no_leading_lf, Hn].
  rewrite IH; [reflexivity | discriminate | exact Hr | exact Hn].
Qed.

Lemma lacks_app (c : ascii) (s t : string) :
  lacks c (s +:+ t) = lacks c s && lacks c t.
Proof.
  induction s as [|d s IH]; [reflexivity|].
  change (String d s +:+ t) with (String d (s +:+ t)). cbn [lacks].
  rewrite IH, andb_assoc. reflexivity.
Qed.

Lemma lacks_render_segment (c : ascii) (fields : list string) :
  Ascii.eqb "|"%char c = false ->
  forallb (lacks c) fields = true -> lacks c (render_segment fields) = true.
Proof.
  intros Hc. unfold render_segment.
  induction fields as [|x fields IH]; [reflexivity|]. cbn [forallb].
  intros Hall. apply andb_true_iff in Hall as [Hx Hall].
  destruct fields as [|y fields]; [exact Hx|].
  change (String.concat "|" (x :: y :: fields))
    with (x +:+ String "|"%char (String.concat "|" (y :: fields))).
  rewrite lacks_app. cbn [lacks]. rewrite Hx, Hc, (IH Hall). reflexivity.
Qed.

Lemma plain_segment_parts (fields : list string) :
  plain_segment fields = true ->
  fields <> []
  /\ Py.nonempty (render_segment fields) = true
  /\ forallb (lacks "|"%char) fields = true
  /\ lacks Py.CR (render_segment fields) = true
  /\ lacks Py.LF (render_segment fields) = true.
Proof.
  unfold plain_segment. destruct fields as [|name rest]; [discriminate|].
  intros Hp. apply andb_true_iff in Hp as [Hname Hall].
  assert (Hsplit : forallb (lacks "|"%char) (name :: rest) = true
                   /\ forallb (lacks Py.CR) (name :: rest) = true
                   /\ forallb (lacks Py.LF) (name :: rest) = true).
  { revert Hall. generalize (name :: rest). intros l.
    induction l as [|x l IH]; [repeat split|]. cbn [forallb]. intros Hl.
    apply andb_true_iff in Hl as [Hx Hl]. destruct (IH Hl) as (I1 & I2 & I3).
    unfold plain_field in Hx. apply andb_true_iff in Hx as [Hx H3].
    apply andb_true_iff in Hx as [H1 H2].
    rewrite H1, H2, H3, I1, I2, I3. repeat split. }
  destruct Hsplit as (H1 & H2 & H3).
  split; [discriminate|]. split.
  { unfold render_segment. destruct name as [|c name]; [discriminate Hname|].
    destruct rest; reflexivity. }
  split; [exact H1|].
  split; apply lacks_render_segment; [reflexivity | exact H2 | reflexivity | exact H3].
Qed.

(** Splitting a written-out message gives its segments back. *)
Lemma rows_named_render (name : string) (segs : list (list string)) :
  forallb plain_segment segs = true ->
  rows_named name (Py.split_lines (render_message segs))
  = List.filter (fun parts => bool_decide (List.hd EmptyString parts = name)) segs.
Proof.
  intros Hall. unfold rows_named, render_message.
  destruct segs as [|seg0 segs0]; [reflexivity|].
  set (segs := seg0 :: segs0) in *.
  assert (Hparts : forall seg, In seg segs -> plain_segment seg = true)
    by (apply forallb_forall, Hall).
  rewrite split_lines_concat.
  - f_equal.
    assert (Hne : List.filter Py.nonempty (List.map render_segment segs)
                  = List.map render_segment segs).
    { clear Hall. induction segs as [|seg segs' IH]; [reflexivity|]. cbn [List.map List.filter].
      destruct (plain_segment_parts seg (Hparts seg (or_introl eq_refl))) as (_ & -> & _).
      rewrite IH; [reflexivity|]. intros s Hs. apply Hparts. right. exact Hs. }
    rewrite Hne. clear Hne Hall.
    induction segs as [|seg segs' IH]; [reflexivity|]. cbn [List.map].
    destruct (plain_segment_parts seg (Hparts seg (or_introl eq_refl)))
      as (Hnil & _ & Hpipe & _).
    unfold render_segment at 1.
    rewrite (split_concat "|"%char seg Hnil Hpipe), IH; [reflexivity|].
    intros s Hs. apply Hparts. right. exact Hs.
  - discriminate.
  - apply forallb_forall. intros line Hin. apply in_map_iff in Hin as (seg & <- & Hseg).
    apply (plain_segment_parts seg (Hparts seg Hseg)).
  - apply forallb_forall. intros line Hin. apply in_map_iff in Hin as (seg & <- & Hseg).
    apply (plain_segment_parts seg (Hparts seg Hseg)).
Qed.

(** X17.  Write a message out, its fields joined by pipes and its segments
    by carriage returns, with no separator inside a field, every segment
    named and no white space around the text.  The naive split reads it
    back: message type and message id are fields 8 and 9 of the first MSH
    segment, the actors its fields 2 to 5, and the correlation id is field
    1 of the first ORC segment that has one, else field 3 of the first PID
    segment; later segments of the same name are never consulted. *)
Theorem fallback_reads_back_rendered (segs : list (list string)) :
  forallb plain_segment segs = true ->
  Py.strip (render_message segs) = render_message segs ->
  let f := fallback_fields (render_message segs) in
  fb_message_type f = field_of "MSH" segs 8 8
  /\ fb_message_id f = field_of "MSH" segs 9 9
  /\ fb_source_actor f = combine (field_of "MSH" segs 2 2) (field_of "MSH" segs 3 3)
  /\ fb_destination_actor f = combine (field_of "MSH" segs 4 4) (field_of "MSH" segs 5 5)
  /\ fb_correlation_id f
     = match field_of "ORC" segs 1 1 with
       | Some v => Some v
       | None => field_of "PID" segs 3 3
       end.
Proof.
  intros Hall Hstrip f.
  pose proof (fallback_reads_first_segments (render_message segs)) as Hread.
  cbv zeta in Hread. fold f in Hread. rewrite Hstrip in Hread.
  assert (Hfield : forall name n i,
            first_field name (Py.split_lines (render_message segs)) n i
            = field_of name segs n i).
  { intros name n i. unfold first_field, field_of.
    rewrite (rows_named_render name segs Hall). reflexivity. }
  rewrite !Hfield in Hread. exact Hread.
Qed.

Lemma fallback_reads_back_rendered_witness :
  let f := fallback_fields (render_message order_segments) in
  fb_message_type f = Some "ORM^O01"
  /\ fb_message_id f = Some "MSG00001"
  /\ fb_source_actor f = Some "SendingApp|SendingFac"
  /\ fb_destination_actor f = Some "ReceivingApp|ReceivingFac"
  /\ fb_correlation_id f = Some "NW".
Proof.
  exact (fallback_reads_back_rendered order_segments
           ltac:(vm_compute; reflexivity) ltac:(vm_compute; reflexivity)).
Defined.

(** ** The unused helper of the naive split *)

Lemma py_index_nat {A : Type} (l : list A) (i : nat) : py_index l (Z.of_nat i) = l !! i.
Proof.
  unfold py_index. rewrite (proj2 (Z.leb_le 0 (Z.of_nat i))) by lia.
  rewrite Nat2Z.id. reflexivity.
Qed.

(** On the first segment of a name and without a component, [get_field]
    reads what the inline tests of the naive split read. *)
Lemma get_field_first_field (segments : list string) (name : string) (i : nat) :
  get_field (build_seg_map segments) name 0 (Z.of_nat i) None
  = first_field name segments i i.
Proof.
  unfold get_field, first_field. rewrite build_seg_map_lookup.
  destruct (rows_named name segments) as [|parts rows]; [reflexivity|].
  cbn [List.map]. change 0%Z with (Z.of_nat 0). rewrite py_index_nat.
  cbn [lookup list_lookup]. change (fmap Some parts) with (Some <$> parts).
  rewrite length_fmap, py_index_nat, list_lookup_fmap.
  assert (Hlt : (Z.of_nat i <? Z.of_nat (length parts))%Z = (i <? length parts)%nat).
  { destruct (Nat.ltb_spec i (length parts)) as [Hl|Hl].
    - apply Z.ltb_lt. lia.
    - apply Z.ltb_ge. lia. }
  rewrite Hlt. destruct (i <? length parts)%nat eqn:Hi; [|reflexivity].
  destruct (parts !! i) as [v|] eqn:Hv; [reflexivity|].
  apply Nat.ltb_lt in Hi. apply lookup_ge_None in Hv. lia.
Qed.

(** X18.  The helper [get_field] that [normalize_hl7_v2] defines and never
    calls agrees with the inline reads of the naive split: every field the
    split returns is what [get_field] gives for segment 0 of MSH, ORC or
    PID at the same index.  It never fails: an unknown segment name, a
    segment index or a field index outside the data, negative ones
    included, all give None; and a component index outside the components
    of a field gives the whole field. *)
Theorem get_field_agrees_with_inline_reads (raw : string) :
  let seg_map := build_seg_map (Py.split_lines (Py.strip raw)) in
  let f := fallback_fields raw in
  let get name i := get_field seg_map name 0 (Z.of_nat i) None in
  (fb_message_type f = get "MSH" 8%nat
   /\ fb_message_id f = get "MSH" 9%nat
   /\ fb_source_actor f = combine (get "MSH" 2%nat) (get "MSH" 3%nat)
   /\ fb_destination_actor f = combine (get "MSH" 4%nat) (get "MSH" 5%nat)
   /\ fb_correlation_id f
      = match get "ORC" 1%nat with
        | Some v => Some v
        | None => get "PID" 3%nat
        end)
  /\ (forall name si fi ci,
        seg_map !! name = None -> get_field seg_map name si fi ci = None)
  /\ (forall name segs si fi ci,
        seg_map !! name = Some segs ->
        (si < - Z.of_nat (length segs) \/ Z.of_nat (length segs) <= si)%Z ->
        get_field seg_map name si fi ci = None)
  /\ (forall name fi ci v,
        get_field seg_map name 0 fi None = Some v ->
        (Z.of_nat (length (Py.split "^"%char v)) <= ci)%Z ->
        get_field seg_map name 0 fi (Some ci) = Some v).
Proof.
  intros seg_map f get.
  split; [|split; [|split]].
  - pose proof (fallback_reads_first_segments raw) as Hread. cbv zeta in Hread.
    subst get seg_map. cbv beta. rewrite !get_field_first_field. exact Hread.
  - intros name si fi ci Hnone. unfold get_field. rewrite Hnone. reflexivity.
  - intros name segs si fi ci Hsome Hout. unfold get_field. rewrite Hsome.
    destruct segs as [|s0 segs']; [reflexivity|].
    assert (Hidx : py_index (s0 :: segs') si = None).
    { unfold py_index. destruct (0 <=? si)%Z eqn:H0.
      - apply Z.leb_le in H0. apply lookup_ge_None. lia.
      - apply Z.leb_gt in H0. destruct Hout as [Hout | Hout]; [|cbn [length] in Hout; lia].
        rewrite (proj2 (Z.leb_gt _ _)) by exact Hout. reflexivity. }
    rewrite Hidx. reflexivity.
  - intros name fi ci v. unfold get_field.
    destruct (seg_map !! name) as [[|s0 segs']|]; try discriminate.
    destruct (py_index (s0 :: segs') 0) as [seg|]; [|discriminate].
    destruct (fi <? Z.of_nat (length seg))%Z; [|discriminate].
    destruct (py_index seg fi) as [val|]; [|discriminate].
    intros -> Hci. cbn [Py.truthy default from_option id]. cbv zeta.
    destruct (Py.nonempty v); [|reflexivity].
    rewrite (proj2 (Z.ltb_ge _ _)) by exact Hci. reflexivity.
Qed.

(** ** Lists of UIDs *)

Lemma rstrip_idempotent (s : string) : Py.rstrip (Py.rstrip s) = Py.rstrip s.
Proof.
  induction s as [|c s IH]; [reflexivity|]. cbn [Py.rstrip].
  destruct (Py.rstrip s) as [|d r] eqn:Hr.
  - destruct (Py.isspace c) eqn:Hc; [reflexivity|]. cbn [Py.rstrip]. rewrite Hc. reflexivity.
  - change (Py.rstrip (String c (String d r)))
      with (match Py.rstrip (String d r) with
            | EmptyString => if Py.isspace c then EmptyString else String c EmptyString
            | r' => String c r'
            end).
    rewrite IH. reflexivity.
Qed.

Lemma lstrip_idempotent (s : string) : Py.lstrip (Py.lstrip s) = Py.lstrip s.
Proof.
  induction s as [|c s IH]; [reflexivity|]. cbn [Py.lstrip].
  destruct (Py.isspace c) eqn:Hc; [exact IH|]. cbn [Py.lstrip]. rewrite Hc. reflexivity.
Qed.

Lemma rstrip_lstrip (s : string) :
  Py.rstrip s = s -> Py.rstrip (Py.lstrip s) = Py.lstrip s.
Proof.
  induction s as [|c s IH]; [reflexivity|]. cbn [Py.lstrip].
  destruct (Py.isspace c) eqn:Hc; [|exact (fun H => H)].
  cbn [Py.rstrip]. rewrite Hc. intros Hfix. apply IH.
  destruct (Py.rstrip s) as [|d r]; [discriminate Hfix|].
  injection Hfix as <-. reflexivity.
Qed.

Lemma strip_idempotent (s : string) : Py.strip (Py.strip s) = Py.strip s.
Proof.
  unfold Py.strip. rewrite (rstrip_lstrip _ (rstrip_idempotent s)).
  apply lstrip_idempotent.
Qed.

Lemma lacks_lstrip (c : ascii) (s : string) : lacks c s = true -> lacks c (Py.lstrip s) = true.
Proof.
  induction s as [|d s IH]; [reflexivity|]. cbn [Py.lstrip lacks].
  intros Hl. destruct (Py.isspace d); [|exact Hl].
  apply andb_true_iff in Hl as [_ Hl]. apply IH, Hl.
Qed.

Lemma lacks_rstrip (c : ascii) (s : string) : lacks c s = true -> lacks c (Py.rstrip s) = true.
Proof.
  induction s as [|d s IH]; [reflexivity|]. cbn [Py.rstrip lacks].
  intros Hl. apply andb_true_iff in Hl as [Hd Hl]. specialize (IH Hl).
  destruct (Py.rstrip s) as [|e r].
  - destruct (Py.isspace d); [reflexivity|]. cbn [lacks]. rewrite Hd. reflexivity.
  - cbn [lacks] in IH |- *. rewrite Hd, IH. reflexivity.
Qed.

Lemma split_pieces_lack (sep : ascii) (s : string) :
  forallb (lacks sep) (Py.split sep s) = true.
Proof.
  induction s as [|c s IH]; [reflexivity|]. cbn [Py.split].
  destruct (Ascii.eqb c sep) eqn:Hc; [exact IH|].
  destruct (Py.split sep s) as [|p ps]; cbn [Py.cons_first forallb lacks] in *.
  - rewrite Hc. reflexivity.
  - rewrite Hc. exact IH.
Qed.

(** What every entry of a parsed UID list satisfies. *)
Lemma comma_list_entries (s u : string) :
  In u (Py.comma_list s) ->
  Py.nonempty u = true /\ Py.strip u = u /\ lacks ","%char u = true.
Proof.
  unfold Py.comma_list. intros Hin. apply filter_In in Hin as [Hin Hne].
  apply in_map_iff in Hin as (p & <- & Hp).
  split; [exact Hne|]. split; [apply strip_idempotent|].
  unfold Py.strip. apply lacks_lstrip, lacks_rstrip.
  pose proof (split_pieces_lack ","%char s) as Hall.
  rewrite forallb_forall in Hall. apply Hall, Hp.
Qed.

(** X15.  The UID lists of [receive_ian], [create_ups] and the two workers
    are read the same way: the text is split at commas, each piece is
    stripped and empty pieces are dropped.  Every entry read is non-empty,
    carries no white space at either end and holds no comma; and reading
    is stable: the entries joined by commas read back as the same
    entries, so a list that was read, joined and stored is read again
    unchanged. *)
Theorem comma_list_reads_clean_entries (s : string) :
  Forall (fun u => Py.nonempty u = true /\ Py.strip u = u /\ lacks ","%char u = true)
    (Py.comma_list s)
  /\ Py.comma_list (String.concat "," (Py.comma_list s)) = Py.comma_list s.
Proof.
  pose proof (comma_list_entries s) as Hentries.
  split; [apply List.Forall_forall; exact Hentries|].
  revert Hentries. generalize (Py.comma_list s). intros l Hl.
  unfold Py.comma_list at 1.
  destruct l as [|x l]; [reflexivity|].
  rewrite (split_concat ","%char (x :: l)).
  - induction (x :: l) as [|y l' IH]; [reflexivity|]. cbn [List.map List.filter].
    destruct (Hl y (or_introl eq_refl)) as (Hne & Hst & _).
    rewrite Hst, Hne, IH; [reflexivity|]. intros u Hu. apply Hl. right. exact Hu.
  - discriminate.
  - apply forallb_forall. intros u Hu. apply (Hl u Hu).
Qed.

(** ** The normaliser and the gateway on bad input *)

Section normaliser_props.

Variable HL7APY_AVAILABLE : bool.
Variable Hl7 : Type.
Variable parse_message : string -> option Hl7.
Variable attr_er7 : Hl7 -> string -> string -> option string.
Variable segment_er7 : Hl7 -> string -> string -> SegLookup.

Local Abbreviation normalize_hl7_v2' :=
  (normalize_hl7_v2 HL7APY_AVAILABLE Hl7 parse_message attr_er7 segment_er7).

Lemma or_unknown_truthy (o : option string) :
  truthy (of_opt (Py.or_ o (Some "UNKNOWN"))) = true.
Proof. unfold Py.or_. destruct (Py.truthy o) eqn:Ho; [|reflexivity]. destruct o; exact Ho. Qed.

(** The message id of a normalised message: the one read from the text
    when it is not empty, else one fresh hash. *)
Lemma message_id_or_hash (o : option string) (w : World) :
  (if Py.truthy o then mret (of_opt o) else generate_hash) w
  = if Py.truthy o then (Ret (of_opt o), w)
    else (Ret (VStr (hash_seq w (hash_ctr w))), set_hash_ctr (S (hash_ctr w)) w).
Proof. destruct (Py.truthy o); reflexivity. Qed.

(** X16.  [normalize_hl7_v2] returns on every text, with or without
    hl7apy and whatever hl7apy does: the payload of the result is the text
    itself, the message type is never empty (UNKNOWN stands in), and the
    message id is either a non-empty value read from the text, the world
    unchanged, or one fresh hash, the hash counter advanced by one.  On
    the empty text the result is an UNKNOWN message under a fresh hash,
    without actors and correlation id. *)
Theorem normalize_hl7_v2_always_returns (raw : string) (w : World) :
  exists m w',
    normalize_hl7_v2' raw w = (Ret m, w')
    /\ payload m = VStr raw
    /\ truthy (message_type m) = true
    /\ ((truthy (message_id m) = true /\ w' = w)
        \/ (message_id m = VStr (hash_seq w (hash_ctr w))
            /\ w' = set_hash_ctr (S (hash_ctr w)) w))
    /\ (raw = "" ->
        m = {| message_id := VStr (hash_seq w (hash_ctr w));
               message_type := VStr "UNKNOWN";
               payload := VStr "";
               source_actor := VNone;
               destination_actor := VNone;
               correlation_id := VNone |}).
Proof.
  unfold normalize_hl7_v2. destruct raw as [|c raw'].
  { eexists _, _. split; [reflexivity|]. cbn. repeat split. right. split; reflexivity. }
  cbn [Py.nonempty]. set (raw := String c raw').
  assert (Hid : forall o, Py.truthy o = true -> truthy (of_opt o) = true)
    by (intros [s|] Ho; [exact Ho | discriminate Ho]).
  destruct (if HL7APY_AVAILABLE then parse_message raw else None) as [msg|].
  - unfold normalize_hl7apy. cbv zeta. rewrite bind_run, message_id_or_hash.
    destruct (Py.truthy (_safe_get_segment_field _ _ _ msg "MSH" "msh_10" None)) eqn:Ht.
    + eexists _, _. split; [reflexivity|]. cbn.
      split; [reflexivity|]. split; [apply or_unknown_truthy|].
      split; [left; split; [apply Hid, Ht | reflexivity] | discriminate].
    + eexists _, _. split; [reflexivity|]. cbn.
      split; [reflexivity|]. split; [apply or_unknown_truthy|].
      split; [right; split; reflexivity | discriminate].
  - unfold normalize_fallback. cbv zeta. rewrite bind_run, message_id_or_hash.
    destruct (Py.truthy (fb_message_id (fallback_fields raw))) eqn:Ht.
    + eexists _, _. split; [reflexivity|]. cbn.
      split; [reflexivity|]. split; [apply or_unknown_truthy|].
      split; [left; split; [apply Hid, Ht | reflexivity] | discriminate].
    + eexists _, _. split; [reflexivity|]. cbn.
      split; [reflexivity|]. split; [apply or_unknown_truthy|].
      split; [right; split; reflexivity | discriminate].
Qed.

End normaliser_props.

Section gateway_failures.

Variable json_loads : string -> option Json.
Variable json_dumps : Json -> string.
Variable HL7APY_AVAILABLE : bool.
Variable Hl7 : Type.
Variable parse_message : string -> option Hl7.
Variable attr_er7 : Hl7 -> string -> string -> option string.
Variable segment_er7 : Hl7 -> string -> string -> SegLookup.

Local Abbreviation normalize_request' :=
  (normalize_request json_loads json_dumps HL7APY_AVAILABLE Hl7 parse_message
     attr_er7 segment_er7).
Local Abbreviation ihe_receive_message_body' :=
  (ihe_receive_message_body json_loads json_dumps HL7APY_AVAILABLE Hl7 parse_message
     attr_er7 segment_er7).
Local Abbreviation ihe_receive_message' :=
  (ihe_receive_message json_loads json_dumps HL7APY_AVAILABLE Hl7 parse_message
     attr_er7 segment_er7).

Lemma normalize_hl7_v2_no_raise (raw : string) :
  raises_only (fun _ => False)
    (normalize_hl7_v2 HL7APY_AVAILABLE Hl7 parse_message attr_er7 segment_er7 raw).
Proof.
  unfold normalize_hl7_v2, normalize_hl7apy, normalize_fallback. cbv zeta. raises_go.
Qed.

(** Normalising fails exactly on a body read as JSON that is no JSON
    object, and then before anything has changed. *)
Lemma normalize_request_cases (req : Request) (w : World) :
  match normalize_request' req w with
  | (Ret m, w0) => bad_json json_loads req = false /\ outside_hash w0 = outside_hash w
  | (Raise e, w0) =>
      bad_json json_loads req = true /\ w0 = w
      /\ (e = JSONDecodeError \/ e = AttributeError)
  end.
Proof.
  pose proof (normalize_request_frame json_loads json_dumps HL7APY_AVAILABLE Hl7
                parse_message attr_er7 segment_er7 outside_hash req
                (fun _ _ => eq_refl) w) as Hframe.
  unfold unchanged in Hframe. revert Hframe.
  unfold normalize_request, bad_json, reads_json. cbv zeta.
  destruct (contains _ _).
  - destruct (json_loads (get_data req)) as [[d|v]|]; cbn; intros Hframe.
    + split; [reflexivity | exact Hframe].
    + repeat split. right. reflexivity.
    + repeat split. left. reflexivity.
  - pose proof (normalize_hl7_v2_no_raise (get_data req) w) as Hno.
    destruct (normalize_hl7_v2 _ _ _ _ _ _ w) as [[m|e] w0]; cbn; intros Hframe.
    + split; [reflexivity | exact Hframe].
    + destruct (Hno e eq_refl).
Qed.


(** X20.  A JSON object without a message id (absent, null or empty) is
    never deduplicated: on a reachable store the gateway makes no lookup,
    draws one fresh hash as the id, appends one Message with status
    received and answers 201, whatever the store already holds, a record
    under that very hash included.  In the stored record a missing message
    type becomes UNKNOWN and a missing payload becomes the raw body. *)
Theorem json_without_id_always_stored (req : Request) (d : gmap string PyVal) (w : World) :
  reads_json req = true ->
  json_loads (get_data req) = Some (JDict d) ->
  truthy (dict_get d "message_id") = false ->
  db_fault w = None ->
  let id := VStr (hash_seq w (hash_ctr w)) in
  let row :=
    {| Message.message_id := id;
       Message.message_type := or_ (dict_get d "message_type") (VStr "UNKNOWN");
       Message.payload :=
         or_ match dict_get d "payload" with
             | VList l => VStr (json_dumps (JVal (VList l)))
             | v => v
             end (VStr (get_data req));
       Message.source := dict_get d "source_actor";
       Message.destination := dict_get d "destination_actor";
       Message.correlation_id := dict_get d "correlation_id";
       Message.status := VStr "received";
       Message.received_at := VStr (clock w) |} in
  ihe_receive_message' req w
  = (Ret {| resp_status := "201";
            resp_message := "Message accepted and queued";
            resp_data := Some (data_of row);
            resp_error := None |},
     set_journal (journal w ++ [Insert "Message" id])
       (set_tabMessage (tabMessage w ++ [row]) (set_hash_ctr (S (hash_ctr w)) w))).
Proof.
  intros Hjson Hloads Hid Hf id row.
  unfold ihe_receive_message, try_except, ihe_receive_message_body. cbv zeta.
  rewrite bind_run. unfold normalize_request. cbv zeta.
  unfold reads_json in Hjson. rewrite Hjson, Hloads.
  cbn [normalize_from_json mret M_ret message_id]. cbv beta iota.
  rewrite Hid. rewrite bind_run. cbn [mret M_ret]. cbv beta iota.
  rewrite bind_run. cbn [generate_hash]. cbv beta iota.
  rewrite bind_run. cbn [now]. cbv beta iota.
  rewrite bind_run, insert_run. cbn [db_fault set_hash_ctr]. rewrite Hf. cbv beta iota.
  unfold db_commit. rewrite bind_run, db_guard_run.
  cbn [db_fault set_journal set_tab Message_doctype set_tabMessage set_hash_ctr].
  rewrite Hf. reflexivity.
Qed.

(** X21.  What the integration test of [tests/test_hl7.py] checks, for
    every request: when the body normalises to a message with a non-empty
    id that the reachable store does not hold, [ihe_receive_message]
    answers 201 with that id, the status received and the correlation id;
    it has appended one Message built from the normalised fields, and
    afterwards the store holds exactly one record under the id. *)
Theorem gateway_stores_new_message (req : Request) (msg : NormalizedMessage) (w w0 : World) :
  normalize_request' req w = (Ret msg, w0) ->
  truthy (message_id msg) = true ->
  db_fault w = None ->
  rows_with (message_id msg) (tabMessage w) = [] ->
  let row :=
    {| Message.message_id := message_id msg;
       Message.message_type := or_ (message_type msg) (VStr "UNKNOWN");
       Message.payload := or_ (payload msg) (VStr (get_data req));
       Message.source := source_actor msg;
       Message.destination := destination_actor msg;
       Message.correlation_id := correlation_id msg;
       Message.status := VStr "received";
       Message.received_at := VStr (clock w) |} in
  exists w',
    ihe_receive_message' req w
    = (Ret {| resp_status := "201";
              resp_message := "Message accepted and queued";
              resp_data := Some (data_of row);
              resp_error := None |}, w')
    /\ tabMessage w' = tabMessage w ++ [row]
    /\ rows_with (message_id msg) (tabMessage w') = [row].
Proof.
  intros Hn Hid Hf Hrows row.
  pose proof (normalize_request_cases req w) as Hcases. rewrite Hn in Hcases.
  destruct Hcases as [_ Hout].
  assert (Hparts : db_fault w0 = db_fault w /\ clock w0 = clock w
                   /\ tabMessage w0 = tabMessage w).
  { unfold outside_hash, store_view in Hout. injection Hout. intros.
    repeat split; congruence. }
  destruct Hparts as (Hf0 & Hc0 & Ht0). rewrite Hf in Hf0.
  unfold ihe_receive_message, try_except, ihe_receive_message_body. cbv zeta.
  rewrite bind_run, Hn, Hid. run.
  change (tab (D := Message.doc) w0) with (tabMessage w0). rewrite Ht0, Hrows.
  run. cbn [now]. cbv beta iota. run.
  unfold db_commit. rewrite db_guard_run.
  cbn [db_fault set_journal set_tab Message_doctype set_tabMessage]. rewrite Hf0, Hc0.
  eexists. split; [reflexivity|]. cbn [tabMessage set_journal set_tabMessage].
  change (tab (D := Message.doc) w0) with (tabMessage w0).
  rewrite Ht0. split; [reflexivity|].
  rewrite (@rows_with_app Message.doc Message_doctype), Hrows.
  unfold rows_with. cbn. rewrite bool_decide_true by reflexivity. reflexivity.
Qed.

End gateway_failures.

Lemma json_without_id_always_stored_witness :
  let receive := ihe_receive_message (fun _ => Some (JDict ∅)) dumps0 false unit
                   (fun _ => None) (fun _ _ _ => None) (fun _ _ _ => SegEmpty) in
  let req := {| get_data := "{}"; content_type_header := Some "Application/JSON" |} in
  let w1 := snd (receive req empty_world) in
  let w2 := snd (receive req w1) in
  List.map Message.message_id (tabMessage w2) = [VStr "c0ffee"; VStr "c0ffee"]
  /\ fst (receive req w1)
     = Ret {| resp_status := "201"; resp_message := "Message accepted and queued";
              resp_data := Some {| data_message_id := VStr "c0ffee";
                                   data_status := VStr "received";
                                   data_correlation_id := VNone |};
              resp_error := None |}.
Proof.
  intros receive req w1 w2.
  assert (Hj : reads_json req = true) by (vm_compute; reflexivity).
  assert (Hd : truthy (dict_get (∅ : gmap string PyVal) "message_id") = false)
    by (vm_compute; reflexivity).
  pose proof (json_without_id_always_stored (fun _ => Some (JDict ∅)) dumps0 false unit
                (fun _ => None) (fun _ _ _ => None) (fun _ _ _ => SegEmpty)
                req ∅ w1 Hj eq_refl Hd ltac:(vm_compute; reflexivity)) as Hrun.
  cbv zeta in Hrun. fold receive in Hrun.
  split.
  - subst w2. rewrite Hrun. vm_compute. reflexivity.
  - rewrite Hrun. vm_compute. reflexivity.
Defined.

Lemma gateway_stores_new_message_witness :
  let receive := ihe_receive_message (fun _ => None) dumps0 false unit (fun _ => None)
                   (fun _ _ _ => None) (fun _ _ _ => SegEmpty) in
  exists w',
    fst (receive hl7_request empty_world)
    = Ret {| resp_status := "201"; resp_message := "Message accepted and queued";
             resp_data := Some {| data_message_id := VStr "MSG00001";
                                  data_status := VStr "received";
                                  data_correlation_id := VStr "NW" |};
             resp_error := None |}
    /\ snd (receive hl7_request empty_world) = w'
    /\ length (rows_with (VStr "MSG00001") (tabMessage w')) = 1%nat.
Proof.
  intros receive.
  pose (msg := {| message_id := VStr "MSG00001"; message_type := VStr "ORM^O01";
                  payload := VStr SAMPLE_HL7;
                  source_actor := VStr "SendingApp|SendingFac";
                  destination_actor := VStr "ReceivingApp|ReceivingFac";
                  correlation_id := VStr "NW" |}).
  destruct (gateway_stores_new_message (fun _ => None) dumps0 false unit (fun _ => None)
              (fun _ _ _ => None) (fun _ _ _ => SegEmpty) hl7_request msg
              empty_world empty_world ltac:(vm_compute; reflexivity) eq_refl eq_refl eq_refl)
    as (w' & Hrun & _ & Hone).
  exists w'. fold receive in Hrun. rewrite Hrun. cbn [fst snd].
  split; [reflexivity|]. split; [reflexivity|].
  change (message_id msg) with (VStr "MSG00001") in Hone. rewrite Hone. reflexivity.
Defined.
